(** * pan-backend: authentication, booking workflow and mail notification

    A shallow embedding of [auth_routes.py], the booking handlers of
    [routes.py], the pydantic models of [models.py] they use and
    [email_service.py].  Handlers are [async def] coroutines that talk to
    MongoDB, the clock, the random source and an SMTP server; they are
    modelled as computations in a state-and-exception monad over a [world]
    holding those collaborators.  A [str] is held as its UTF-8 text, a
    [string] of bytes: equality, order and concatenation are those of the
    text, and [len] counts its characters, not its bytes. *)

From Stdlib Require Import Ascii.
From stdpp Require Import gmap strings list fin_maps sorting.

Open Scope string_scope.
Open Scope Z_scope.

(** ** Python values and documents *)

(** The values found in the documents of this program.  A datetime is
    counted in microseconds, the resolution of Python's [datetime]; what
    the store keeps of it is [bson_value]. *)
Inductive value :=
| VNone
| VBool (b : bool)
| VInt (z : Z)
| VStr (s : string)
| VDate (t : Z).

#[global] Instance value_eq_dec : EqDecision value.
Proof. solve_decision. Defined.

(** Python truthiness, as used by [if x:] and [not x]. *)
Definition truthy (v : value) : bool :=
  match v with
  | VNone => false
  | VBool b => b
  | VInt z => negb (Z.eqb z 0)
  | VStr s => negb (String.eqb s "")
  | VDate _ => true
  end.

(** A [dict] with string keys (Mongo document, JSON object). *)
Abbreviation document := (gmap string value).

(** A byte of the form 10xxxxxx: in UTF-8 text it continues the character
    begun before it. *)
Definition is_continuation (c : ascii) : bool :=
  match c with
  | Ascii _ _ _ _ _ _ false true => true
  | _ => false
  end.

(** [len(s)]: the number of characters of a [str], each of them one byte
    that is no continuation byte followed by its continuation bytes. *)
Fixpoint len (s : string) : nat :=
  match s with
  | EmptyString => 0%nat
  | String c s' => if is_continuation c then len s' else S (len s')
  end.

(** A time cut down to whole milliseconds, in microseconds. *)
Definition millis (t : Z) : Z := t / 1000 * 1000.

(** What the store keeps of a value: BSON datetimes have milliseconds, so
    the driver drops the microseconds below them when it encodes a
    [datetime]; the other values are kept as they are. *)
Definition bson_value (v : value) : value :=
  match v with
  | VDate t => VDate (millis t)
  | _ => v
  end.

(** A document as the driver encodes it. *)
Definition bson (d : document) : document := bson_value <$> d.

(** Truthiness of what [find_one] returns: [None] and the empty dict are
    false. *)
Definition truthy_doc (o : option document) : bool :=
  match o with
  | None => false
  | Some d => negb (bool_decide (d = ∅))
  end.

(** [d.get(k, default)] *)
Definition dict_get (d : document) (k : string) (default : value) : value :=
  match d !! k with
  | Some v => v
  | None => default
  end.

(** Optional[str] fields as stored in a dict. *)
Definition opt_str (o : option string) : value :=
  match o with
  | Some s => VStr s
  | None => VNone
  end.

(** ** Exceptions *)

(** The exception classes that occur; every one is a subclass of
    [Exception].  [headers] of an [HTTPException] defaults to no headers. *)
Inductive exn :=
| HTTPException (status_code : Z) (detail : string) (headers : list (string * string))
| KeyError (key : string)
| ValidationError (field : string)
| PyMongoError (msg : string)
| SMTPAuthenticationError (msg : string)
| SMTPServerDisconnected (msg : string)
| SMTPException (msg : string)
| OtherException (msg : string).

(** [except smtplib.SMTPAuthenticationError] *)
Definition is_SMTPAuthenticationError (e : exn) : bool :=
  match e with
  | SMTPAuthenticationError _ => true
  | _ => false
  end.

(** [except smtplib.SMTPServerDisconnected] *)
Definition is_SMTPServerDisconnected (e : exn) : bool :=
  match e with
  | SMTPServerDisconnected _ => true
  | _ => false
  end.

(** [except smtplib.SMTPException]: the base class of smtplib's errors. *)
Definition is_SMTPException (e : exn) : bool :=
  match e with
  | SMTPAuthenticationError _ | SMTPServerDisconnected _ | SMTPException _ => true
  | _ => false
  end.

Inductive result (A : Type) :=
| Ok (a : A)
| Raise (e : exn).
Arguments Ok {A} a.
Arguments Raise {A} e.

(** ** The world a request runs in *)

(** What the SMTP server answers to each step of a session: [None] when the
    step goes through, [Some e] when smtplib raises [e]. *)
Record smtp_server := {
  on_connect : option exn;
  on_starttls : option exn;
  on_login : option exn;
  on_sendmail : option exn;
  on_quit : option exn;
}.

(** A MIME multipart/alternative message. *)
Record mime_message := {
  msg_subject : string;
  msg_from : string;
  msg_to : string;
  msg_parts : list (string * string);
}.

(** The steps of an SMTP session, recorded as they are attempted. *)
Inductive smtp_event :=
| EvConnect (host : string) (port : Z)
| EvStartTLS
| EvLogin (username password : string)
| EvSendmail (from_addr to_addr : string) (msg : mime_message)
| EvQuit.

Inductive log_level := WARNING | INFO | ERROR.

(** One call of the logging module: level, message text, and the exception
    formatted into the message when there is one. *)
Record log_record := {
  log_lvl : log_level;
  log_msg : string;
  log_exc : option exn;
}.

Record world := {
  admin_users_collection : list document;
  bookings_collection : list document;
  db_online : bool;
  utc_clock : Z;
  entropy : nat -> string;
  drawn : nat;
  smtp : smtp_server;
  smtp_trace : list smtp_event;
  logs : list log_record;
}.

Definition set_admin_users (c : list document) (w : world) : world :=
  {| admin_users_collection := c;
     bookings_collection := bookings_collection w;
     db_online := db_online w; utc_clock := utc_clock w;
     entropy := entropy w; drawn := drawn w;
     smtp := smtp w; smtp_trace := smtp_trace w; logs := logs w |}.

Definition set_bookings (c : list document) (w : world) : world :=
  {| admin_users_collection := admin_users_collection w;
     bookings_collection := c;
     db_online := db_online w; utc_clock := utc_clock w;
     entropy := entropy w; drawn := drawn w;
     smtp := smtp w; smtp_trace := smtp_trace w; logs := logs w |}.

Definition set_drawn (n : nat) (w : world) : world :=
  {| admin_users_collection := admin_users_collection w;
     bookings_collection := bookings_collection w;
     db_online := db_online w; utc_clock := utc_clock w;
     entropy := entropy w; drawn := n;
     smtp := smtp w; smtp_trace := smtp_trace w; logs := logs w |}.

Definition set_smtp_trace (t : list smtp_event) (w : world) : world :=
  {| admin_users_collection := admin_users_collection w;
     bookings_collection := bookings_collection w;
     db_online := db_online w; utc_clock := utc_clock w;
     entropy := entropy w; drawn := drawn w;
     smtp := smtp w; smtp_trace := t; logs := logs w |}.

Definition set_logs (l : list log_record) (w : world) : world :=
  {| admin_users_collection := admin_users_collection w;
     bookings_collection := bookings_collection w;
     db_online := db_online w; utc_clock := utc_clock w;
     entropy := entropy w; drawn := drawn w;
     smtp := smtp w; smtp_trace := smtp_trace w; logs := l |}.

(** ** The monad of handlers *)

(** A computation reads and changes the world and either returns or raises;
    what it did to the world before raising stays done. *)
Definition M (A : Type) : Type := world -> result A * world.

#[global] Instance M_ret : MRet M := fun A a w => (Ok a, w).

#[global] Instance M_bind : MBind M := fun A B f m w =>
  match m w with
  | (Ok a, w') => f a w'
  | (Raise e, w') => (Raise e, w')
  end.

Definition raise {A : Type} (e : exn) : M A := fun w => (Raise e, w).

(** [try: body  except <cls>: handler]; an exception the clause does not
    match propagates. *)
Definition try_except {A : Type} (body : M A) (catches : exn -> bool) (handler : exn -> M A) : M A :=
  fun w =>
    match body w with
    | (Ok a, w') => (Ok a, w')
    | (Raise e, w') => if catches e then handler e w' else (Raise e, w')
    end.

(** [except Exception] *)
Definition any_Exception (e : exn) : bool := true.

Definition get_world : M world := fun w => (Ok w, w).

(** [datetime.utcnow()]: the clock is read to the microsecond. *)
Definition utcnow : M Z := fun w => (Ok (utc_clock w), w).

(** One draw from the random source: [uuid.uuid4()] or a fresh salt. *)
Definition urandom : M string := fun w => (Ok (entropy w (drawn w)), set_drawn (S (drawn w)) w).

Definition uuid4 : M string := urandom.

Definition log (lvl : log_level) (msg : string) (e : option exn) : M unit :=
  fun w => (Ok tt, set_logs (logs w ++ [ {| log_lvl := lvl; log_msg := msg; log_exc := e |} ]) w).

(** [d[k]] raises [KeyError] on a missing key. *)
Definition subscript (d : document) (k : string) : M value :=
  match d !! k with
  | Some v => mret v
  | None => raise (KeyError k)
  end.

(** ** The document store *)

(** An equality filter such as [{"username": u}]. *)
Definition filter_doc := list (string * value).

Definition matches (q : filter_doc) (d : document) : bool :=
  forallb (fun kv => bool_decide (d !! kv.1 = Some kv.2)) q.

Record UpdateResult := {
  matched_count : nat;
  modified_count : nat;
}.

Module Collection.

(** The first document, in insertion order, that matches. *)
Definition find_one (q : filter_doc) (c : list document) : option document :=
  List.find (matches q) c.

(** The document is stored as it is encoded. *)
Definition insert_one (d : document) (c : list document) : list document :=
  c ++ [bson d].

(** [update_one(q, {"$set": fields})]: the first match gets the fields, as
    they are encoded; it counts as modified when that changes the
    document. *)
Fixpoint update_one (q : filter_doc) (fields : document) (c : list document)
  : list document * UpdateResult :=
  match c with
  | [] => ([], {| matched_count := 0; modified_count := 0 |})
  | d :: rest =>
      if matches q d then
        let d' := bson fields ∪ d in
        (d' :: rest,
         {| matched_count := 1;
            modified_count := if bool_decide (d' = d) then 0 else 1 |})
      else
        let r := update_one q fields rest in
        (d :: r.1, r.2)
  end.

End Collection.

(** Every storage call is awaited over the network and raises when the
    server cannot be reached. *)
Definition storage {A : Type} (op : world -> A * world) : M A :=
  fun w =>
    if db_online w then let r := op w in (Ok r.1, r.2)
    else (Raise (PyMongoError "server unreachable"), w).

Module admin_users.
Definition find_one (q : filter_doc) : M (option document) :=
  storage (fun w => (Collection.find_one q (admin_users_collection w), w)).
Definition insert_one (d : document) : M unit :=
  storage (fun w => (tt, set_admin_users (Collection.insert_one d (admin_users_collection w)) w)).
Definition update_one (q : filter_doc) (fields : document) : M UpdateResult :=
  storage (fun w =>
    let r := Collection.update_one q fields (admin_users_collection w) in
    (r.2, set_admin_users r.1 w)).
End admin_users.

Module bookings.
Definition find_one (q : filter_doc) : M (option document) :=
  storage (fun w => (Collection.find_one q (bookings_collection w), w)).
Definition insert_one (d : document) : M unit :=
  storage (fun w => (tt, set_bookings (Collection.insert_one d (bookings_collection w)) w)).
Definition update_one (q : filter_doc) (fields : document) : M UpdateResult :=
  storage (fun w =>
    let r := Collection.update_one q fields (bookings_collection w) in
    (r.2, set_bookings r.1 w)).
End bookings.

(** ** Pydantic models ([models.py]) *)

(** Reading the fields of a model built from the keywords of a dict [d].  A missing required field or a value
    of another type is a validation error; type coercions are not modelled. *)
Definition field_str (d : document) (k : string) : M string :=
  match d !! k with
  | Some (VStr s) => mret s
  | _ => raise (ValidationError k)
  end.

Definition field_int (d : document) (k : string) : M Z :=
  match d !! k with
  | Some (VInt z) => mret z
  | _ => raise (ValidationError k)
  end.

Definition field_opt_str (d : document) (k : string) : M (option string) :=
  match d !! k with
  | None | Some VNone => mret None
  | Some (VStr s) => mret (Some s)
  | _ => raise (ValidationError k)
  end.

Definition field_str_default (d : document) (k : string) (default : M string) : M string :=
  match d !! k with
  | None => default
  | Some (VStr s) => mret s
  | _ => raise (ValidationError k)
  end.

Definition field_bool_default (d : document) (k : string) (default : bool) : M bool :=
  match d !! k with
  | None => mret default
  | Some (VBool b) => mret b
  | _ => raise (ValidationError k)
  end.

Definition field_date_default (d : document) (k : string) (default : M Z) : M Z :=
  match d !! k with
  | None => default
  | Some (VDate t) => mret t
  | _ => raise (ValidationError k)
  end.

Module Booking.

Record t := {
  id : string;
  name : string;
  email : string;
  phone : string;
  event_type : string;
  date : string;
  guests : Z;
  message : option string;
  status : string;
  created_at : Z;
}.

(** [Booking] built from the keywords of [d]: [id], [status] and
    [created_at] have defaults. *)
Definition new (d : document) : M t :=
  id ← field_str_default d "id" uuid4;
  name ← field_str d "name";
  email ← field_str d "email";
  phone ← field_str d "phone";
  event_type ← field_str d "event_type";
  date ← field_str d "date";
  guests ← field_int d "guests";
  message ← field_opt_str d "message";
  status ← field_str_default d "status" (mret "pending");
  created_at ← field_date_default d "created_at" utcnow;
  mret {| id := id; name := name; email := email; phone := phone;
          event_type := event_type; date := date; guests := guests;
          message := message; status := status; created_at := created_at |}.

Definition dict (b : t) : document :=
  {[ "id" := VStr (id b);
     "name" := VStr (name b);
     "email" := VStr (email b);
     "phone" := VStr (phone b);
     "event_type" := VStr (event_type b);
     "date" := VStr (date b);
     "guests" := VInt (guests b);
     "message" := opt_str (message b);
     "status" := VStr (status b);
     "created_at" := VDate (created_at b) ]}.

End Booking.

Module BookingCreate.

Record t := {
  name : string;
  email : string;
  phone : string;
  event_type : string;
  date : string;
  guests : Z;
  message : option string;
}.

Definition dict (b : t) : document :=
  {[ "name" := VStr (name b);
     "email" := VStr (email b);
     "phone" := VStr (phone b);
     "event_type" := VStr (event_type b);
     "date" := VStr (date b);
     "guests" := VInt (guests b);
     "message" := opt_str (message b) ]}.

End BookingCreate.

Module AdminUser.

Record t := {
  id : string;
  username : string;
  email : string;
  hashed_password : string;
  full_name : option string;
  is_active : bool;
  is_superuser : bool;
  created_at : Z;
}.

(** [AdminUser] built from the keywords of [d]. *)
Definition new (d : document) : M t :=
  id ← field_str_default d "id" uuid4;
  username ← field_str d "username";
  email ← field_str d "email";
  hashed_password ← field_str d "hashed_password";
  full_name ← field_opt_str d "full_name";
  is_active ← field_bool_default d "is_active" true;
  is_superuser ← field_bool_default d "is_superuser" false;
  created_at ← field_date_default d "created_at" utcnow;
  mret {| id := id; username := username; email := email;
          hashed_password := hashed_password; full_name := full_name;
          is_active := is_active; is_superuser := is_superuser;
          created_at := created_at |}.

Definition dict (u : t) : document :=
  {[ "id" := VStr (id u);
     "username" := VStr (username u);
     "email" := VStr (email u);
     "hashed_password" := VStr (hashed_password u);
     "full_name" := opt_str (full_name u);
     "is_active" := VBool (is_active u);
     "is_superuser" := VBool (is_superuser u);
     "created_at" := VDate (created_at u) ]}.

End AdminUser.

Module AdminUserCreate.

Record t := {
  username : string;
  email : string;
  password : string;
  full_name : option string;
}.

Definition dict (u : t) : document :=
  {[ "username" := VStr (username u);
     "email" := VStr (email u);
     "password" := VStr (password u);
     "full_name" := opt_str (full_name u) ]}.

End AdminUserCreate.

Module AdminUserLogin.
Record t := {
  username : string;
  password : string;
}.
End AdminUserLogin.

Module PasswordChange.
Record t := {
  current_password : string;
  new_password : string;
}.
End PasswordChange.

(** ** The [auth] module *)

(** [auth_routes.py] imports [get_password_hash], [verify_password] and
    [create_access_token] from the [auth] module.  The handlers are
    written against this interface: the salted hash as a function of what
    the random source gives, the check of a plaintext against a stored value,
    and the token built from the claims, the validity and the time of
    issue. *)
Class Auth := {
  token : Type;
  password_hash : string -> string -> string;
  verify_password : string -> value -> bool;
  issue_token : document -> Z -> Z -> token;
}.

(** [timedelta(minutes=m)], in microseconds. *)
Definition timedelta_minutes (m : Z) : Z := m * 60 * 1000000.

(** [timedelta(hours=h)], in microseconds. *)
Definition timedelta_hours (h : Z) : Z := h * 60 * 60 * 1000000.

Module Token.
Record t `{Auth} := {
  access_token : token;
  token_type : string;
}.
End Token.

(** [if not doc: raise e]; past it [doc] is a non-empty dict. *)
Definition unless_found (o : option document) (e : exn) : M document :=
  if negb (truthy_doc o) then raise e
  else match o with
       | Some d => mret d
       | None => raise e
       end.

(** ** [auth_routes.py] *)

Section AuthRoutes.

Context `{Auth}.

(** Modelled from the spec: [auth.get_password_hash], which is imported
    from the [auth] module and not defined in this file of the repository:
    the hash is randomly salted, so each call takes a fresh draw from the
    random source. *)
Definition get_password_hash (password : string) : M string :=
  random ← urandom;
  mret (password_hash random password).

(** Modelled from the spec: [auth.create_access_token], which is imported
    from the [auth] module and not defined in this file of the repository:
    the token is issued at the current time for the given validity. *)
Definition create_access_token (data : document) (expires_delta : Z) : M token :=
  now ← utcnow;
  mret (issue_token data expires_delta now).

Definition register_admin (user : AdminUserCreate.t) : M AdminUser.t :=
  existing ← admin_users.find_one [("username", VStr (AdminUserCreate.username user))];
  if truthy_doc existing then
    raise (HTTPException 400 "Username already registered" [])
  else
    existing_email ← admin_users.find_one [("email", VStr (AdminUserCreate.email user))];
    if truthy_doc existing_email then
      raise (HTTPException 400 "Email already registered" [])
    else
      let admin_dict := AdminUserCreate.dict user in
      hashed ← get_password_hash (AdminUserCreate.password user);
      let admin_dict := <["hashed_password" := VStr hashed]> (delete "password" admin_dict) in
      admin_obj ← AdminUser.new admin_dict;
      admin_users.insert_one (AdminUser.dict admin_obj);;
      mret admin_obj.

Definition login (credentials : AdminUserLogin.t) : M Token.t :=
  user ← admin_users.find_one [("username", VStr (AdminUserLogin.username credentials))];
  user ← unless_found user
    (HTTPException 401 "Incorrect username or password" [("WWW-Authenticate", "Bearer")]);
  stored ← subscript user "hashed_password";
  if negb (verify_password (AdminUserLogin.password credentials) stored) then
    raise (HTTPException 401 "Incorrect username or password" [("WWW-Authenticate", "Bearer")])
  else if negb (truthy (dict_get user "is_active" (VBool true))) then
    raise (HTTPException 400 "Inactive user" [])
  else
    sub ← subscript user "username";
    user_id ← subscript user "id";
    access_token ← create_access_token
      {[ "sub" := sub; "user_id" := user_id ]} (timedelta_minutes 1440);
    mret {| Token.access_token := access_token; Token.token_type := "bearer" |}.

Definition get_current_user_info (current_user : document) : M document :=
  username ← subscript current_user "username";
  user ← admin_users.find_one [("username", username)];
  user ← unless_found user (HTTPException 404 "User not found" []);
  mret (delete "_id" (delete "hashed_password" user)).

Definition logout (current_user : document) : M document :=
  mret {[ "message" := VStr "Successfully logged out" ]}.

Definition change_password (password_data : PasswordChange.t) (current_user : document)
  : M document :=
  username ← subscript current_user "username";
  user ← admin_users.find_one [("username", username)];
  user ← unless_found user (HTTPException 404 "User not found" []);
  stored ← subscript user "hashed_password";
  if negb (verify_password (PasswordChange.current_password password_data) stored) then
    raise (HTTPException 400 "Current password is incorrect" [])
  else if (len (PasswordChange.new_password password_data) <? 6)%nat then
    raise (HTTPException 400 "New password must be at least 6 characters long" [])
  else if String.eqb (PasswordChange.current_password password_data)
                     (PasswordChange.new_password password_data) then
    raise (HTTPException 400 "New password must be different from current password" [])
  else
    new_hashed_password ← get_password_hash (PasswordChange.new_password password_data);
    username ← subscript current_user "username";
    admin_users.update_one [("username", username)]
      {[ "hashed_password" := VStr new_hashed_password ]};;
    mret {[ "message" := VStr "Password changed successfully" ]}.

End AuthRoutes.

(** ** [email_service.py] *)

(** The module constants read from the environment at import. *)
Record email_config := {
  SMTP_HOST : string;
  SMTP_PORT : Z;
  SMTP_USERNAME : string;
  SMTP_PASSWORD : string;
  SMTP_FROM_EMAIL : string;
  SMTP_FROM_NAME : string;
  NOTIFICATION_EMAIL : string;
}.

(** Truthiness of a [str]. *)
Definition nonempty (s : string) : bool := negb (String.eqb s "").

(** One call on the SMTP connection: it is recorded, then goes through or
    raises as the server decides. *)
Definition smtp_step (ev : smtp_event) (outcome : smtp_server -> option exn) : M unit :=
  fun w =>
    let w' := set_smtp_trace (smtp_trace w ++ [ev]) w in
    match outcome (smtp w) with
    | None => (Ok tt, w')
    | Some e => (Raise e, w')
    end.

(** [SMTP.__exit__]: leaving the block, also by an exception, sends QUIT,
    where only a dropped connection is ignored; an error of QUIT replaces
    the outcome of the block. *)
Definition leaving_SMTP {A : Type} (body : M A) : M A :=
  fun w =>
    let r := body w in
    match try_except (smtp_step EvQuit on_quit) is_SMTPServerDisconnected (fun _ => mret tt) r.2 with
    | (Ok _, w') => (r.1, w')
    | (Raise e, w') => (Raise e, w')
    end.

(** [with smtplib.SMTP(host, port, timeout=30) as server: body].  The
    constructor connects. *)
Definition with_SMTP {A : Type} (host : string) (port : Z) (body : M A) : M A :=
  smtp_step (EvConnect host port) on_connect;;
  leaving_SMTP body.

(** Whether a session with this server breaks: connecting, logging in or
    sending raises, STARTTLS raises something else than an SMTP error, or
    QUIT raises something else than a dropped connection. *)
Definition transmission_fails (s : smtp_server) : bool :=
  bool_decide (is_Some (on_connect s))
  || match on_starttls s with
     | Some e => negb (is_SMTPException e)
     | None => false
     end
  || bool_decide (is_Some (on_login s))
  || bool_decide (is_Some (on_sendmail s))
  || match on_quit s with
     | Some e => negb (is_SMTPServerDisconnected e)
     | None => false
     end.

Section EmailService.

Variable cfg : email_config.

(** The text of the two message templates, as functions of the booking and
    of the formatted date, and [strftime('%A, %d %B %Y')]. *)
Variable html_template : document -> value -> string.
Variable text_template : document -> value -> string.
Variable strftime : Z -> string.
(** [str(v)], as an f-string formats a value. *)
Variable str : value -> string.
(** What [msg.as_string()] raises, if anything: the email package refuses
    to write out some header values, such as a subject with a line break
    in it. *)
Variable as_string : mime_message -> option exn.

(** The message [send_email] builds: subject, sender and recipient, then
    the plain text part when there is a text, then the HTML part. *)
Definition make_message (to_email subject html_body : string) (text_body : option string)
  : mime_message :=
  {| msg_subject := subject;
     msg_from := SMTP_FROM_NAME cfg ++ " <" ++ SMTP_FROM_EMAIL cfg ++ ">";
     msg_to := to_email;
     msg_parts :=
       (match text_body with
        | Some t => if nonempty t then [("plain", t)] else []
        | None => []
        end ++ [("html", html_body)])%list |}.

(** [server.sendmail(sender, recipient, msg.as_string())]: the argument is
    evaluated first, and the call is not made when that raises. *)
Definition sendmail (from_addr to_addr : string) (msg : mime_message) : M unit :=
  match as_string msg with
  | Some e => raise e
  | None => smtp_step (EvSendmail from_addr to_addr msg) on_sendmail
  end.

Definition send_email (to_email subject html_body : string) (text_body : option string)
  : M bool :=
  if negb (forallb nonempty
             [SMTP_HOST cfg; SMTP_USERNAME cfg; SMTP_PASSWORD cfg; SMTP_FROM_EMAIL cfg]) then
    log WARNING "SMTP not configured - email not sent" None;;
    mret false
  else
    try_except
      (let msg := make_message to_email subject html_body text_body in
       with_SMTP (SMTP_HOST cfg) (SMTP_PORT cfg)
         (try_except (smtp_step EvStartTLS on_starttls) is_SMTPException (fun _ => mret tt);;
          smtp_step (EvLogin (SMTP_USERNAME cfg) (SMTP_PASSWORD cfg)) on_login;;
          sendmail (SMTP_FROM_EMAIL cfg) to_email msg);;
       log INFO ("Email sent successfully to " ++ to_email) None;;
       mret true)
      any_Exception
      (fun e =>
         if is_SMTPAuthenticationError e then
           log ERROR "SMTP Authentication failed: " (Some e);; mret false
         else if is_SMTPException e then
           log ERROR "SMTP error sending email: " (Some e);; mret false
         else
           log ERROR "Failed to send email: " (Some e);; mret false).

Definition send_booking_notification (booking : document) : M bool :=
  if negb (nonempty (NOTIFICATION_EMAIL cfg)) then
    log WARNING "NOTIFICATION_EMAIL not configured" None;;
    mret false
  else
    let booking_date := dict_get booking "date" (VStr "Not specified") in
    let booking_date :=
      match booking_date with
      | VDate t => VStr (strftime t)
      | v => v
      end in
    let subject :=
      "New Hall Booking Enquiry - " ++ str (dict_get booking "name" (VStr "Unknown")) in
    let html_body := html_template booking booking_date in
    let text_body := text_template booking booking_date in
    send_email (NOTIFICATION_EMAIL cfg) subject html_body (Some text_body).

End EmailService.

(** ** Bookings ([routes.py]) *)

Section BookingRoutes.

(** The function [create_booking] imports from [email_service] when it
    runs. *)
Variable send_booking_notification : document -> M bool.

Definition create_booking (booking : BookingCreate.t) : M Booking.t :=
  let booking_dict := BookingCreate.dict booking in
  booking_obj ← Booking.new booking_dict;
  bookings.insert_one (Booking.dict booking_obj);;
  try_except
    (send_booking_notification (Booking.dict booking_obj);; mret tt)
    any_Exception
    (fun e => log ERROR "Failed to send booking notification email: " (Some e));;
  mret booking_obj.

End BookingRoutes.

Definition get_booking (booking_id : string) : M Booking.t :=
  booking ← bookings.find_one [("id", VStr booking_id)];
  booking ← unless_found booking (HTTPException 404 "Booking not found" []);
  Booking.new booking.

Definition update_booking_status (booking_id status : string) : M Booking.t :=
  if negb (bool_decide (status ∈ ["pending"; "approved"; "rejected"])) then
    raise (HTTPException 400 "Invalid status" [])
  else
    now ← utcnow;
    result ← bookings.update_one [("id", VStr booking_id)]
               {[ "status" := VStr status; "updated_at" := VDate now ]};
    if (modified_count result =? 0)%nat then
      raise (HTTPException 404 "Booking not found" [])
    else
      updated ← bookings.find_one [("id", VStr booking_id)];
      match updated with
      | Some d => Booking.new d
      | None => raise (OtherException "TypeError")
      end.

(** ** The HTTP boundary *)

Inductive http_body (B : Type) :=
| Json (b : B)
| Detail (d : string)
| InternalServerError.
Arguments Json {B} b.
Arguments Detail {B} d.
Arguments InternalServerError {B}.

Record http_response (B : Type) := {
  resp_status : Z;
  resp_body : http_body B;
  resp_headers : list (string * string);
}.
Arguments resp_status {B} _.
Arguments resp_body {B} _.
Arguments resp_headers {B} _.

(** What the route decorator makes of a handler's outcome: the returned
    object goes through the response model with the route's status code, an
    [HTTPException] becomes its status, detail and headers, anything else is
    a 500. *)
Definition respond {A B : Type} (status_code : Z) (response_model : A -> B) (r : result A)
  : http_response B :=
  match r with
  | Ok a => {| resp_status := status_code; resp_body := Json (response_model a);
               resp_headers := [] |}
  | Raise (HTTPException c d h) =>
      {| resp_status := c; resp_body := Detail d; resp_headers := h |}
  | Raise _ =>
      {| resp_status := 500; resp_body := InternalServerError; resp_headers := [] |}
  end.

Section Routes.

Context `{Auth}.

(** [@auth_router.post("/register", response_model=AdminUser, status_code=201)] *)
Definition POST_auth_register (user : AdminUserCreate.t) (w : world) : http_response document :=
  respond 201 AdminUser.dict (register_admin user w).1.

(** [@auth_router.post("/login", response_model=Token)] *)
Definition POST_auth_login (credentials : AdminUserLogin.t) (w : world) : http_response Token.t :=
  respond 200 id (login credentials w).1.

(** [@auth_router.get("/me")] *)
Definition GET_auth_me (current_user : document) (w : world) : http_response document :=
  respond 200 id (get_current_user_info current_user w).1.

(** [@auth_router.post("/change-password")] *)
Definition POST_auth_change_password (password_data : PasswordChange.t)
  (current_user : document) (w : world) : http_response document :=
  respond 200 id (change_password password_data current_user w).1.

End Routes.

(** [@router.post("/bookings", response_model=Booking, status_code=201)] *)
Definition POST_bookings (notify : document -> M bool) (booking : BookingCreate.t) (w : world)
  : http_response document :=
  respond 201 Booking.dict (create_booking notify booking w).1.

(** [@router.put("/bookings/{booking_id}/status")] *)
Definition PUT_bookings_status (booking_id status : string) (w : world)
  : http_response document :=
  respond 200 Booking.dict (update_booking_status booking_id status w).1.

(** ** The password hasher and the token service *)

Fixpoint str_take (n : nat) (s : string) : string :=
  match n, s with
  | S n', String c s' => String c (str_take n' s')
  | _, _ => ""
  end.

Fixpoint str_drop (n : nat) (s : string) : string :=
  match n, s with
  | S n', String c s' => str_drop n' s'
  | _, _ => s
  end.

Module Hasher.
Section Hasher.

(** The one-way function under the hasher, of the salt and the
    plaintext. *)
Variable digest : string -> string -> string.

(** The length of a salt. *)
Definition SALT_LEN : nat := 22.

Definition padding : string := "......................".

(** The salt made of one draw from the random source: its first [SALT_LEN]
    characters, padded when the draw is shorter. *)
Definition gensalt (random : string) : string :=
  str_take SALT_LEN (random ++ padding).

(** Modelled from the spec: [auth.get_password_hash], whose source is not
    part of the repository files at hand.  The hash string is a
    randomly-salted digest that embeds its salt: the salt, then the digest
    of the plaintext under that salt. *)
Definition hash (random plaintext : string) : string :=
  let salt := gensalt random in
  salt ++ digest salt plaintext.

(** The salt and the digest a stored hash string embeds; a string too
    short to hold a salt is malformed. *)
Definition parse (stored : string) : option (string * string) :=
  if (String.length stored <? SALT_LEN)%nat then None
  else Some (str_take SALT_LEN stored, str_drop SALT_LEN stored).

(** Modelled from the spec: [auth.verify_password], whose source is not
    part of the repository files at hand.  True iff the plaintext, hashed
    with the salt embedded in the stored hash, matches the stored hash; a
    malformed stored hash is a non-match, not an exception. *)
Definition verify (plaintext stored : string) : bool :=
  match parse stored with
  | Some (salt, d) => String.eqb (digest salt plaintext) d
  | None => false
  end.

End Hasher.
End Hasher.

Module TokenService.

(** The signed payload of a bearer token: the claims of the subject, the
    time of issue and the time of expiry, and the signature over them. *)
Record token := {
  claims : document;
  issued_at : Z;
  expires_at : Z;
  signature : string;
}.

Inductive AuthError := InvalidSignature | Expired.

Section TokenService.

(** The secret held by the server and the signature scheme. *)
Variable secret : string.
Variable sign : string -> document * Z * Z -> string.

(** Modelled from the spec: [auth.create_access_token], whose source is
    not part of the repository files at hand.  [issue] embeds the claims,
    issued-at and expires-at = issued-at + validity, and signs the payload
    with the server's secret. *)
Definition issue (data : document) (validity now : Z) : token :=
  {| claims := data;
     issued_at := now;
     expires_at := now + validity;
     signature := sign secret (data, now, now + validity) |}.

(** Modelled from the spec: the token check of [auth.get_current_user],
    whose source is not part of the repository files at hand.  [verify]
    checks the signature first, then fails with [Expired] if the current
    time is at or past expires-at, then returns the embedded claims. *)
Definition verify (tok : token) (now : Z) : document + AuthError :=
  if negb (String.eqb (signature tok)
             (sign secret (claims tok, issued_at tok, expires_at tok))) then
    inr InvalidSignature
  else if expires_at tok <=? now then inr Expired
  else inl (claims tok).

End TokenService.
End TokenService.

(** The [auth] module assembled from the hasher and the token service. *)
Definition spec_auth (digest : string -> string -> string) (secret : string)
  (sign : string -> document * Z * Z -> string) : Auth :=
  {| token := TokenService.token;
     password_hash := Hasher.hash digest;
     verify_password := fun plaintext stored =>
       match stored with
       | VStr s => Hasher.verify digest plaintext s
       | _ => false
       end;
     issue_token := TokenService.issue secret sign |}.

(** ** Concrete collaborators for examples *)

Module Demo.

Definition digest (salt plaintext : string) : string := "#" ++ plaintext ++ "#" ++ salt.

Definition sign (secret : string) (payload : document * Z * Z) : string :=
  secret ++ match payload.1.1 !! "sub" with
            | Some (VStr s) => s
            | _ => ""
            end.

Definition auth : Auth := spec_auth digest "server-secret" sign.

Definition salts (n : nat) : string :=
  match n with
  | O => "saltsaltsaltsaltsalt00"
  | S O => "saltsaltsaltsaltsalt01"
  | S (S O) => "saltsaltsaltsaltsalt02"
  | _ => "saltsaltsaltsaltsalt99"
  end.

Definition quiet_server : smtp_server :=
  {| on_connect := None; on_starttls := None; on_login := None;
     on_sendmail := None; on_quit := None |}.

(** An empty store, the clock a quarter of a millisecond past noon of some
    day. *)
Definition w0 : world :=
  {| admin_users_collection := [];
     bookings_collection := [];
     db_online := true;
     utc_clock := 43200000250;
     entropy := salts;
     drawn := 0;
     smtp := quiet_server;
     smtp_trace := [];
     logs := [] |}.

Definition alice : AdminUserCreate.t :=
  {| AdminUserCreate.username := "alice";
     AdminUserCreate.email := "alice@example.org";
     AdminUserCreate.password := "s3cret!";
     AdminUserCreate.full_name := None |}.

Definition enquiry : BookingCreate.t :=
  {| BookingCreate.name := "Jan";
     BookingCreate.email := "jan@example.org";
     BookingCreate.phone := "0400";
     BookingCreate.event_type := "wedding";
     BookingCreate.date := "2026-01-10";
     BookingCreate.guests := 80;
     BookingCreate.message := None |}.

Definition cfg : email_config :=
  {| SMTP_HOST := "mail.example.org"; SMTP_PORT := 25;
     SMTP_USERNAME := "mailer"; SMTP_PASSWORD := "pw";
     SMTP_FROM_EMAIL := "noreply@example.org";
     SMTP_FROM_NAME := "Polish Association of Newcastle";
     NOTIFICATION_EMAIL := "office@example.org" |}.

Definition str (v : value) : string :=
  match v with
  | VStr s => s
  | VNone => "None"
  | VBool true => "True"
  | VBool false => "False"
  | VInt _ | VDate _ => "?"
  end.

Definition template (booking : document) (booking_date : value) : string :=
  str (dict_get booking "name" (VStr "Not provided")) ++ " " ++ str booking_date.

Definition strftime (t : Z) : string := "Saturday, 10 January 2026".

Fixpoint has_line_break (s : string) : bool :=
  match s with
  | EmptyString => false
  | String c s' =>
      bool_decide (c = "010"%char) || bool_decide (c = "013"%char) || has_line_break s'
  end.

(** A writer of messages that refuses a subject with a line break. *)
Definition as_string (msg : mime_message) : option exn :=
  if has_line_break (msg_subject msg) then Some (OtherException "HeaderParseError")
  else None.

(** Five characters in ten bytes of UTF-8 text. *)
Definition accented : string := "ééééé".

(** A notifier that always raises. *)
Definition failing_notifier (booking : document) : M bool :=
  raise (OtherException "mail is down").

(** The world after alice has registered. *)
Definition registered : world := (@register_admin auth alice w0).2.

(** An account written before the [is_active] field existed. *)
Definition legacy_account : document :=
  {[ "id" := VStr "legacy-1";
     "username" := VStr "bob";
     "hashed_password" := VStr (Hasher.hash digest "saltsaltsaltsaltsalt07" "hunter2!") ]}.

Definition legacy : world := set_admin_users [legacy_account] w0.

(** The world after the enquiry was submitted while mail was down. *)
Definition booked : world := (create_booking failing_notifier enquiry w0).2.

(** The id that enquiry was given. *)
Definition booking_id : string := "saltsaltsaltsaltsalt00".

(** A server that refuses the login. *)
Definition refusing_server : smtp_server :=
  {| on_connect := None; on_starttls := None;
     on_login := Some (SMTPAuthenticationError "535");
     on_sendmail := None; on_quit := None |}.

End Demo.


(** ** Invariants of the stores *)

(** The values the documents of a collection hold under a key, in order;
    a document without the key contributes none. *)
Definition field_values (k : string) (c : list document) : list value :=
  omap (fun d : document => d !! k) c.

(** No two documents hold the same value under the key. *)
Definition unique_field (k : string) (c : list document) : Prop :=
  NoDup (field_values k c).

(** The models as they are read back from the store: their datetimes cut
    to milliseconds. *)
Definition stored_Booking (b : Booking.t) : Booking.t :=
  {| Booking.id := Booking.id b; Booking.name := Booking.name b;
     Booking.email := Booking.email b; Booking.phone := Booking.phone b;
     Booking.event_type := Booking.event_type b; Booking.date := Booking.date b;
     Booking.guests := Booking.guests b; Booking.message := Booking.message b;
     Booking.status := Booking.status b;
     Booking.created_at := millis (Booking.created_at b) |}.

Definition stored_AdminUser (u : AdminUser.t) : AdminUser.t :=
  {| AdminUser.id := AdminUser.id u; AdminUser.username := AdminUser.username u;
     AdminUser.email := AdminUser.email u;
     AdminUser.hashed_password := AdminUser.hashed_password u;
     AdminUser.full_name := AdminUser.full_name u;
     AdminUser.is_active := AdminUser.is_active u;
     AdminUser.is_superuser := AdminUser.is_superuser u;
     AdminUser.created_at := millis (AdminUser.created_at u) |}.

(** Requests served one after another: each call runs to its end before
    the next one starts. *)
Definition one_after_another {A B : Type} (handler : A -> M B) (requests : list A)
  (w : world) : world :=
  foldl (fun (w : world) (request : A) => (handler request w).2) w requests.

Section RegisterOverlap.

Context `{Auth}.

(** [register_admin] up to its insert: the two look-ups, each of them
    awaited, and the checks of what they found. *)
Definition register_admin_lookups (user : AdminUserCreate.t) : M unit :=
  existing ← admin_users.find_one [("username", VStr (AdminUserCreate.username user))];
  if truthy_doc existing then
    raise (HTTPException 400 "Username already registered" [])
  else
    existing_email ← admin_users.find_one [("email", VStr (AdminUserCreate.email user))];
    if truthy_doc existing_email then
      raise (HTTPException 400 "Email already registered" [])
    else mret tt.

(** [register_admin] from there on: the account is built and inserted,
    which is awaited, and returned. *)
Definition register_admin_insert (user : AdminUserCreate.t) : M AdminUser.t :=
  let admin_dict := AdminUserCreate.dict user in
  hashed ← get_password_hash (AdminUserCreate.password user);
  let admin_dict := <["hashed_password" := VStr hashed]> (delete "password" admin_dict) in
  admin_obj ← AdminUser.new admin_dict;
  admin_users.insert_one (AdminUser.dict admin_obj);;
  mret admin_obj.

(** Two calls of [register_admin] that overlap.  While a call waits at an
    [await] the event loop runs other calls; here the look-ups of the
    second call are answered before the insert of the first one reaches
    the store. *)
Definition register_admin_overlapping (first second : AdminUserCreate.t)
  : M (AdminUser.t * AdminUser.t) :=
  register_admin_lookups first;;
  register_admin_lookups second;;
  a ← register_admin_insert first;
  b ← register_admin_insert second;
  mret (a, b).

End RegisterOverlap.

(** The status of an enquiry is one of the three. *)
Definition status_valid (d : document) : Prop :=
  exists s : string,
    d !! "status" = Some (VStr s) /\ s ∈ ["pending"; "approved"; "rejected"].

(** A collection with one field of every document left out. *)
Definition without (k : string) (c : list document) : list document :=
  (fun d : document => delete k d) <$> c.

(** The SMTP steps attempted between two worlds: what the later trace holds
    beyond the earlier one. *)
Definition smtp_added (w w' : world) : list smtp_event :=
  drop (length (smtp_trace w)) (smtp_trace w').

(** Whether the four SMTP settings are all there. *)
Definition smtp_configured (cfg : email_config) : bool :=
  forallb nonempty [SMTP_HOST cfg; SMTP_USERNAME cfg; SMTP_PASSWORD cfg; SMTP_FROM_EMAIL cfg].

(** ** Sorted reads *)

(** The order MongoDB sorts values in: null and missing fields first, then
    numbers, strings, booleans, dates; strings by their characters, false
    before true. *)
Definition bson_rank (v : option value) : Z :=
  match v with
  | None | Some VNone => 1
  | Some (VInt _) => 2
  | Some (VStr _) => 3
  | Some (VBool _) => 8
  | Some (VDate _) => 9
  end.

Definition bson_leb (a b : option value) : bool :=
  match a, b with
  | Some (VInt x), Some (VInt y) => x <=? y
  | Some (VStr x), Some (VStr y) =>
      match String.compare x y with
      | Gt => false
      | _ => true
      end
  | Some (VBool x), Some (VBool y) => implb x y
  | Some (VDate x), Some (VDate y) => x <=? y
  | _, _ => bson_rank a <=? bson_rank b
  end.

(** [pymongo.ASCENDING] (1) and [pymongo.DESCENDING] (-1). *)
Inductive direction := Ascending | Descending.

(** Whether a document may come before another under [sort(k, dir)]. *)
Definition key_leb (k : string) (dir : direction) (a b : document) : bool :=
  match dir with
  | Ascending => bson_leb (a !! k) (b !! k)
  | Descending => bson_leb (b !! k) (a !! k)
  end.

Fixpoint insert_sorted {A : Type} (leb : A -> A -> bool) (x : A) (l : list A) : list A :=
  match l with
  | [] => [x]
  | y :: l' => if leb x y then x :: y :: l' else y :: insert_sorted leb x l'
  end.

(** A sort that keeps documents of equal key in the order they had. *)
Definition sort_by {A : Type} (leb : A -> A -> bool) (l : list A) : list A :=
  foldr (insert_sorted leb) [] l.

(** [find().sort(k, dir).to_list(n)] *)
Definition find_sorted (k : string) (dir : direction) (n : nat) (c : list document)
  : list document :=
  take n (sort_by (key_leb k dir) c).

(** A list comprehension whose element expression may raise: the elements
    are built left to right and the first exception ends it. *)
Fixpoint mapM {A B : Type} (f : A -> M B) (l : list A) : M (list B) :=
  match l with
  | [] => mret []
  | x :: l' =>
      y ← f x;
      ys ← mapM f l';
      mret (y :: ys)
  end.

(** [routes.py], [get_bookings] *)
Definition get_bookings : M (list Booking.t) :=
  bookings ← storage (fun w =>
                (find_sorted "created_at" Descending 1000 (bookings_collection w), w));
  mapM Booking.new bookings.

(** ** The other collections of the database *)

(** [models.py] takes every collection from the one database by name,
    [db['events']], [db['governance_documents']], ...  The world of the
    handlers above with the collections it does not hold, by their names; a
    name that was never written to is an empty collection. *)
Record site := {
  core : world;
  collections : gmap string (list document);
}.

(** A handler over the whole site. *)
Definition Site (A : Type) : Type := site -> result A * site.

#[global] Instance Site_ret : MRet Site := fun A a s => (Ok a, s).

#[global] Instance Site_bind : MBind Site := fun A B f m s =>
  match m s with
  | (Ok a, s') => f a s'
  | (Raise e, s') => (Raise e, s')
  end.

Definition raise_site {A : Type} (e : exn) : Site A := fun s => (Raise e, s).

(** A computation on the world, run on the world of the site. *)
Definition lift {A : Type} (m : M A) : Site A :=
  fun s =>
    let r := m (core s) in
    (r.1, {| core := r.2; collections := collections s |}).

Definition collection (name : string) (s : site) : list document :=
  default [] (collections s !! name).

Definition set_collection (name : string) (c : list document) (s : site) : site :=
  {| core := core s; collections := <[name := c]> (collections s) |}.

(** A storage call that reads a collection. *)
Definition reading {A : Type} (name : string) (f : list document -> A) : Site A :=
  fun s =>
    if db_online (core s) then (Ok (f (collection name s)), s)
    else (Raise (PyMongoError "server unreachable"), s).

(** A storage call that writes a collection. *)
Definition writing {A : Type} (name : string) (op : list document -> A * list document)
  : Site A :=
  fun s =>
    if db_online (core s) then
      let r := op (collection name s) in
      (Ok r.1, set_collection name r.2 s)
    else (Raise (PyMongoError "server unreachable"), s).

(** [delete_one(q)]: the first match goes; the count of deleted documents. *)
Fixpoint delete_one (q : filter_doc) (c : list document) : nat * list document :=
  match c with
  | [] => (0%nat, [])
  | d :: rest =>
      if matches q d then (1%nat, rest)
      else let r := delete_one q rest in (r.1, d :: r.2)
  end.

(** [update_one(q, {"$set": fields}, upsert=True)]: without a match, a
    document made of the filter and the fields is inserted. *)
Definition upsert_one (q : filter_doc) (fields : document) (c : list document)
  : list document :=
  match Collection.find_one q c with
  | Some _ => (Collection.update_one q fields c).1
  | None => Collection.insert_one (fields ∪ list_to_map q) c
  end.

(** The projection [{"_id": 0}]. *)
Definition without_id (d : document) : document := delete "_id" d.

(** [if not doc: raise e], for a handler over the site. *)
Definition unless_found_site (o : option document) (e : exn) : Site document :=
  if negb (truthy_doc o) then raise_site e
  else match o with
       | Some d => mret d
       | None => raise_site e
       end.

Definition field_int_default (d : document) (k : string) (default : Z) : M Z :=
  match d !! k with
  | None => mret default
  | Some (VInt z) => mret z
  | _ => raise (ValidationError k)
  end.

Module GovernanceDocument.

Record t := {
  id : string;
  title : string;
  file_url : string;
  file_type : string;
  file_size : Z;
  order : Z;
  created_at : Z;
  updated_at : Z;
}.

(** [GovernanceDocument] built from the keywords of [d]. *)
Definition new (d : document) : M t :=
  id ← field_str_default d "id" uuid4;
  title ← field_str d "title";
  file_url ← field_str d "file_url";
  file_type ← field_str d "file_type";
  file_size ← field_int_default d "file_size" 0;
  order ← field_int_default d "order" 0;
  created_at ← field_date_default d "created_at" utcnow;
  updated_at ← field_date_default d "updated_at" utcnow;
  mret {| id := id; title := title; file_url := file_url; file_type := file_type;
          file_size := file_size; order := order; created_at := created_at;
          updated_at := updated_at |}.

Definition dict (g : t) : document :=
  {[ "id" := VStr (id g);
     "title" := VStr (title g);
     "file_url" := VStr (file_url g);
     "file_type" := VStr (file_type g);
     "file_size" := VInt (file_size g);
     "order" := VInt (order g);
     "created_at" := VDate (created_at g);
     "updated_at" := VDate (updated_at g) ]}.

End GovernanceDocument.

Module GovernanceDocumentCreate.

Record t := {
  title : string;
  file_url : string;
  file_type : string;
  file_size : Z;
  order : Z;
}.

Definition dict (g : t) : document :=
  {[ "title" := VStr (title g);
     "file_url" := VStr (file_url g);
     "file_type" := VStr (file_type g);
     "file_size" := VInt (file_size g);
     "order" := VInt (order g) ]}.

End GovernanceDocumentCreate.

(** ** Governance documents ([routes.py]) *)

(** [documents_collection = db['governance_documents']] *)
Definition documents_collection : string := "governance_documents".


Definition get_documents : Site (list document) :=
  reading documents_collection
    (fun c => without_id <$> find_sorted "order" Ascending 1000 c).





Definition delete_document (document_id : string) : Site unit :=
  deleted_count ← writing documents_collection (delete_one [("id", VStr document_id)]);
  if (deleted_count =? 0)%nat then
    raise_site (HTTPException 404 "Document not found" [])
  else mret tt.

(** ** Activities ([routes.py]) *)

(** [activities_collection = db['activities']] *)
Definition activities_collection : string := "activities".

Definition toggle_activity_visibility (activity_id : string) : Site (option document) :=
  existing ← reading activities_collection
               (Collection.find_one [("id", VStr activity_id)]);
  existing ← unless_found_site existing (HTTPException 404 "Activity not found" []);
  let current_visibility := dict_get existing "is_visible" (VBool true) in
  let new_visibility := negb (truthy current_visibility) in
  now ← lift utcnow;
  writing activities_collection
    (fun c =>
       let r := Collection.update_one [("id", VStr activity_id)]
                  {[ "is_visible" := VBool new_visibility; "updated_at" := VDate now ]} c in
       (r.2, r.1));;
  reading activities_collection
    (fun c => without_id <$> Collection.find_one [("id", VStr activity_id)] c).

(** ** Site settings ([routes.py]) *)

(** [settings_collection = db['settings']] *)
Definition settings_collection : string := "settings".

Module SiteSettingsUpdate.

(** The fields of [SiteSettingsUpdate], all of them [Optional[str]] with
    default [None]. *)
Definition fields : list string :=
  [ "hero_image"; "welcome_image";
    "hero_title_en"; "hero_title_pl"; "hero_subtitle_en"; "hero_subtitle_pl";
    "welcome_text1_en"; "welcome_text1_pl"; "welcome_text2_en"; "welcome_text2_pl";
    "hall_image_1"; "hall_image_2"; "hall_image_3";
    "hall_image_4"; "hall_image_5"; "hall_image_6";
    "agm_title_en"; "agm_title_pl"; "agm_date_en"; "agm_date_pl";
    "agm_time_en"; "agm_time_pl"; "agm_description_en"; "agm_description_pl";
    "agm_document_url"; "membership_form_url" ].

(** A value of the model: what each of its fields holds.  Only the values
    at [fields] are looked at. *)
Definition t : Type := string -> option string.

Definition dict (u : t) : document :=
  list_to_map ((fun k => (k, opt_str (u k))) <$> fields).

End SiteSettingsUpdate.

(** [{k: v for k, v in d.items() if v is not None}] *)
Definition drop_none (d : document) : document :=
  filter (fun kv : string * value => kv.2 <> VNone) d.

(** The settings answered while none are stored. *)
Definition default_settings : document :=
  <["id" := VStr "site_settings"]>
    (<["hero_image" := VStr "https://images.unsplash.com/photo-1768333377265-cb6c3ca2885a"]>
       (<["welcome_image" :=
            VStr "https://images.unsplash.com/photo-1763733593826-d51c270cc8b4"]>
          (list_to_map ((fun k => (k, VNone)) <$> SiteSettingsUpdate.fields)))).

Definition get_site_settings : Site document :=
  settings ← reading settings_collection
               (fun c => without_id <$> Collection.find_one [("id", VStr "site_settings")] c);
  if negb (truthy_doc settings) then mret default_settings
  else match settings with
       | Some d => mret d
       | None => mret default_settings
       end.

Definition update_site_settings (settings : SiteSettingsUpdate.t) : Site (option document) :=
  let update_dict := drop_none (SiteSettingsUpdate.dict settings) in
  now ← lift utcnow;
  let update_dict := <["updated_at" := VDate now]> update_dict in
  let update_dict := <["id" := VStr "site_settings"]> update_dict in
  writing settings_collection
    (fun c => (tt, upsert_one [("id", VStr "site_settings")] update_dict c));;
  reading settings_collection
    (fun c => without_id <$> Collection.find_one [("id", VStr "site_settings")] c).

(** ** The database handle ([models.py]) *)

(** A database of a client: the URL the client was made for and the name of
    the database. *)
Record database := {
  db_url : string;
  db_name : string;
}.

(** The globals of [models.py] and what it logged. *)
Record models_module := {
  _client : option string;
  _db : option database;
  module_logs : list log_record;
}.

Section GetDatabase.

(** What [AsyncIOMotorClient(url)] and [client[name]] raise, if anything:
    the driver refuses some URLs and some names. *)
Variable client_error : string -> option exn.
Variable name_error : string -> option exn.

(** [os.environ] *)
Variable environ : gmap string string.

Definition get_database (m : models_module) : result database * models_module :=
  match _db m with
  | None =>
      let mongo_url := environ !! "MONGO_URL" in
      let db_name := default "pan_database" (environ !! "DB_NAME") in
      match mongo_url with
      | Some url =>
          if nonempty url then
            let logged :=
              (module_logs m ++
               [ {| log_lvl := INFO;
                    log_msg := "Connecting to MongoDB database: " ++ db_name;
                    log_exc := None |} ])%list in
            match client_error url with
            | Some e =>
                (Raise e, {| _client := _client m; _db := None; module_logs := logged |})
            | None =>
                match name_error db_name with
                | Some e =>
                    (Raise e, {| _client := Some url; _db := None; module_logs := logged |})
                | None =>
                    let db := {| db_url := url; db_name := db_name |} in
                    (Ok db, {| _client := Some url; _db := Some db; module_logs := logged |})
                end
            end
          else
            (Raise (OtherException "MONGO_URL environment variable is required"),
             {| _client := _client m; _db := None;
                module_logs :=
                  (module_logs m ++
                   [ {| log_lvl := ERROR;
                        log_msg := "MONGO_URL environment variable not set!";
                        log_exc := None |} ])%list |})
      | None =>
          (Raise (OtherException "MONGO_URL environment variable is required"),
           {| _client := _client m; _db := None;
              module_logs :=
                (module_logs m ++
                 [ {| log_lvl := ERROR;
                      log_msg := "MONGO_URL environment variable not set!";
                      log_exc := None |} ])%list |})
      end
  | Some db => (Ok db, m)
  end.

(** [LazyDB.__getitem__]: [db[name]] asks for the database and takes the
    collection of that name from it. *)
Definition LazyDB_getitem (name : string) (m : models_module)
  : result (database * string) * models_module :=
  match get_database m with
  | (Ok db, m') => (Ok (db, name), m')
  | (Raise e, m') => (Raise e, m')
  end.

(** The collections [models.py] binds when it is imported, in order. *)
Definition collection_names : list string :=
  [ "events"; "activities"; "bookings"; "committee"; "groups"; "admin_users";
    "news"; "settings"; "governance_documents" ].

(** The assignments [events_collection = db['events']], ... from [names]
    on. *)
Fixpoint bind_collections (names : list string) (m : models_module)
  : result (list (database * string)) * models_module :=
  match names with
  | [] => (Ok [], m)
  | name :: rest =>
      match LazyDB_getitem name m with
      | (Ok c, m') =>
          match bind_collections rest m' with
          | (Ok cs, m'') => (Ok (c :: cs), m'')
          | (Raise e, m'') => (Raise e, m'')
          end
      | (Raise e, m') => (Raise e, m')
      end
  end.

End GetDatabase.

(** ** Sample data for the site *)

Module Samples.

(** The account [Demo.registered] holds. *)
Definition alice_account : document :=
  AdminUser.dict
    {| AdminUser.id := "saltsaltsaltsaltsalt01";
       AdminUser.username := "alice";
       AdminUser.email := "alice@example.org";
       AdminUser.hashed_password := "saltsaltsaltsaltsalt00#s3cret!#saltsaltsaltsaltsalt00";
       AdminUser.full_name := None;
       AdminUser.is_active := true;
       AdminUser.is_superuser := false;
       AdminUser.created_at := 43200000000 |}.

(** A second administrator, and a request that takes alice's username with
    another email. *)
Definition bob : AdminUserCreate.t :=
  {| AdminUserCreate.username := "bob";
     AdminUserCreate.email := "bob@example.org";
     AdminUserCreate.password := "hunter2!";
     AdminUserCreate.full_name := Some "Bob" |}.

Definition alice_again : AdminUserCreate.t :=
  {| AdminUserCreate.username := "alice";
     AdminUserCreate.email := "alice@elsewhere.org";
     AdminUserCreate.password := "0ther-pw";
     AdminUserCreate.full_name := None |}.

(** An account that was switched off. *)
Definition suspended_account : document :=
  {[ "id" := VStr "old-2";
     "username" := VStr "carol";
     "hashed_password" := VStr (Hasher.hash Demo.digest "saltsaltsaltsaltsalt08" "letmein1");
     "is_active" := VBool false ]}.

Definition suspended : world := set_admin_users [suspended_account] Demo.w0.

(** A new password of six characters in ten bytes of UTF-8 text. *)
Definition new_password : PasswordChange.t :=
  {| PasswordChange.current_password := "s3cret!";
     PasswordChange.new_password := "zażółć" |}.

(** The world after alice changed her password. *)
Definition rekeyed : world :=
  (@change_password Demo.auth new_password {[ "username" := VStr "alice" ]}
     Demo.registered).2.

(** A subject with a line break in it, as a visitor's name can put one
    there. *)
Definition broken_subject : string :=
  "New Hall Booking Enquiry - Jan" ++ String "010"%char "Bcc: all@example.org".

(** A server without STARTTLS. *)
Definition plain_server : smtp_server :=
  {| on_connect := None; on_starttls := Some (SMTPException "STARTTLS not supported");
     on_login := None; on_sendmail := None; on_quit := None |}.

(** A server that drops the connection with an error at QUIT. *)
Definition rude_server : smtp_server :=
  {| on_connect := None; on_starttls := None; on_login := None;
     on_sendmail := None; on_quit := Some (SMTPException "421") |}.

(** The empty store of [Demo.w0] behind another mail server. *)
Definition mailing (server : smtp_server) : world :=
  {| admin_users_collection := [];
     bookings_collection := [];
     db_online := true;
     utc_clock := 43200000250;
     entropy := Demo.salts;
     drawn := 0;
     smtp := server;
     smtp_trace := [];
     logs := [] |}.

(** The submission of [Demo.enquiry] with the mailer of [email_service] as
    notifier. *)
Definition submitted : result Booking.t * world :=
  create_booking
    (send_booking_notification Demo.cfg Demo.template Demo.template Demo.strftime
       Demo.str Demo.as_string)
    Demo.enquiry Demo.w0.

Definition early : Booking.t :=
  {| Booking.id := "b-1"; Booking.name := "Jan"; Booking.email := "jan@example.org";
     Booking.phone := "0400"; Booking.event_type := "wedding";
     Booking.date := "2026-01-10"; Booking.guests := 80; Booking.message := None;
     Booking.status := "pending"; Booking.created_at := 43200000 |}.

Definition late : Booking.t :=
  {| Booking.id := "b-2"; Booking.name := "Ewa"; Booking.email := "ewa@example.org";
     Booking.phone := "0401"; Booking.event_type := "birthday";
     Booking.date := "2026-02-14"; Booking.guests := 30; Booking.message := Some "Cake";
     Booking.status := "approved"; Booking.created_at := 43260000 |}.

Definition two_enquiries : world :=
  set_bookings (Booking.dict <$> [early; late]) Demo.w0.

(** A stored enquiry that lost its name. *)
Definition nameless : document :=
  {[ "id" := VStr "b-3"; "email" := VStr "anon@example.org" ]}.

Definition damaged : world :=
  set_bookings [Booking.dict early; nameless] Demo.w0.

Definition statute : GovernanceDocument.t :=
  {| GovernanceDocument.id := "doc-1"; GovernanceDocument.title := "Statute";
     GovernanceDocument.file_url := "/api/uploads/statute.pdf";
     GovernanceDocument.file_type := "pdf"; GovernanceDocument.file_size := 120000;
     GovernanceDocument.order := 0; GovernanceDocument.created_at := 43000000;
     GovernanceDocument.updated_at := 43000000 |}.

Definition minutes : GovernanceDocument.t :=
  {| GovernanceDocument.id := "doc-2"; GovernanceDocument.title := "Minutes 2025";
     GovernanceDocument.file_url := "/api/uploads/minutes.pdf";
     GovernanceDocument.file_type := "pdf"; GovernanceDocument.file_size := 80000;
     GovernanceDocument.order := 1; GovernanceDocument.created_at := 43100000;
     GovernanceDocument.updated_at := 43100000 |}.


Definition dance_class : document :=
  {[ "id" := VStr "act-1"; "title_en" := VStr "Folk dance"; "is_visible" := VBool false ]}.

(** A site with two governance documents, one hidden activity and no saved
    settings. *)
Definition library : site :=
  {| core := Demo.w0;
     collections :=
       {[ "governance_documents" :=
            [GovernanceDocument.dict statute; GovernanceDocument.dict minutes];
          "activities" := [dance_class] ]} |}.

(** A settings form with the English title filled in. *)
Definition retitled : SiteSettingsUpdate.t :=
  fun k => if String.eqb k "hero_title_en" then Some "Welcome" else None.

(** A driver that accepts every URL and every name. *)
Definition willing (x : string) : option exn := None.

Definition environ : gmap string string :=
  {[ "MONGO_URL" := "mongodb://localhost:27017" ]}.

(** [models.py] before its first use. *)
Definition unloaded : models_module :=
  {| _client := None; _db := None; module_logs := [] |}.

Definition pan_database : database :=
  {| db_url := "mongodb://localhost:27017"; db_name := "pan_database" |}.

Definition connected : models_module :=
  {| _client := Some "mongodb://localhost:27017";
     _db := Some pan_database;
     module_logs :=
       [ {| log_lvl := INFO;
            log_msg := "Connecting to MongoDB database: pan_database";
            log_exc := None |} ] |}.

End Samples.
(** * Properties *)

(** ** Stepping through the monad *)

Lemma bind_ok {A B : Type} (m : M A) (f : A -> M B) (w w' : world) (a : A) :
  m w = (Ok a, w') -> (m ≫= f) w = f a w'.
Proof. intros E. unfold mbind, M_bind. by rewrite E. Qed.

Lemma bind_raise {A B : Type} (m : M A) (f : A -> M B) (w w' : world) (e : exn) :
  m w = (Raise e, w') -> (m ≫= f) w = (Raise e, w').
Proof. intros E. unfold mbind, M_bind. by rewrite E. Qed.

Lemma storage_online {A : Type} (op : world -> A * world) (w : world) :
  db_online w = true -> storage op w = (Ok (op w).1, (op w).2).
Proof. intros E. unfold storage. by rewrite E. Qed.

Lemma matches_single (k : string) (v : value) (d : document) :
  matches [(k, v)] d = true <-> d !! k = Some v.
Proof.
  unfold matches. simpl. rewrite andb_true_r. apply bool_decide_eq_true.
Qed.

Lemma find_one_matches (q : filter_doc) (c : list document) (d : document) :
  Collection.find_one q c = Some d -> matches q d = true /\ In d c.
Proof. intros E. apply find_some in E. tauto. Qed.

Lemma lookup_truthy (d : document) (k : string) (v : value) :
  d !! k = Some v -> truthy_doc (Some d) = true.
Proof.
  intros E. unfold truthy_doc. rewrite bool_decide_eq_false_2; [done|].
  intros ->. by rewrite lookup_empty in E.
Qed.

Lemma found_lookup (k : string) (v : value) (c : list document) (d : document) :
  Collection.find_one [(k, v)] c = Some d -> d !! k = Some v.
Proof. intros E. apply find_one_matches in E as [E _]. by apply matches_single in E. Qed.

Lemma found_truthy (k : string) (v : value) (c : list document) (d : document) :
  Collection.find_one [(k, v)] c = Some d -> truthy_doc (Some d) = true.
Proof. intros E. eapply lookup_truthy, found_lookup, E. Qed.

Lemma AdminUser_dict_username (u : AdminUser.t) :
  AdminUser.dict u !! "username" = Some (VStr (AdminUser.username u)).
Proof. reflexivity. Qed.

(** ** What the store keeps *)

Lemma millis_millis (t : Z) : millis (millis t) = millis t.
Proof. unfold millis. rewrite Z.div_mul by lia. reflexivity. Qed.

Lemma millis_le (t : Z) : millis t <= t < millis t + 1000.
Proof.
  unfold millis. pose proof (Z.div_mod t 1000 ltac:(lia)).
  pose proof (Z.mod_pos_bound t 1000 ltac:(lia)). lia.
Qed.

Lemma bson_value_bson_value (v : value) : bson_value (bson_value v) = bson_value v.
Proof. destruct v; simpl; [done..|]. by rewrite millis_millis. Qed.

Lemma bson_lookup (d : document) (k : string) :
  bson d !! k = bson_value <$> d !! k.
Proof. apply lookup_fmap. Qed.

Lemma bson_lookup_Some (d : document) (k : string) (v : value) :
  d !! k = Some v -> bson d !! k = Some (bson_value v).
Proof. intros E. by rewrite bson_lookup, E. Qed.


Lemma bson_insert (k : string) (v : value) (d : document) :
  bson (<[k := v]> d) = <[k := bson_value v]> (bson d).
Proof. apply fmap_insert. Qed.

Lemma bson_singleton (k : string) (v : value) :
  bson ({[ k := v ]} : document) = {[ k := bson_value v ]}.
Proof. apply map_fmap_singleton. Qed.

Lemma bson_bson (d : document) : bson (bson d) = bson d.
Proof.
  apply map_eq. intros k. rewrite !bson_lookup.
  destruct (d !! k); simpl; [|done]. by rewrite bson_value_bson_value.
Qed.

Lemma bson_opt_str (o : option string) : bson_value (opt_str o) = opt_str o.
Proof. by destruct o. Qed.

Lemma bson_AdminUser_dict (u : AdminUser.t) :
  bson (AdminUser.dict u) = AdminUser.dict (stored_AdminUser u).
Proof.
  unfold AdminUser.dict, bson. rewrite !fmap_insert, map_fmap_singleton.
  simpl. by rewrite bson_opt_str.
Qed.

Lemma bson_Booking_dict (b : Booking.t) :
  bson (Booking.dict b) = Booking.dict (stored_Booking b).
Proof.
  unfold Booking.dict, bson. rewrite !fmap_insert, map_fmap_singleton.
  simpl. by rewrite bson_opt_str.
Qed.

Lemma find_one_insert_one (q : filter_doc) (c : list document) (d : document) :
  Collection.find_one q c = None ->
  Collection.find_one q (Collection.insert_one d c)
    = if matches q (bson d) then Some (bson d) else None.
Proof.
  unfold Collection.find_one, Collection.insert_one.
  induction c as [|x c IH]; simpl; [done|].
  destruct (matches q x); [done|]. exact IH.
Qed.

Section RegisterProps.
Context `{Auth}.

Lemma AdminUser_new_admin_dict (user : AdminUserCreate.t) (hashed : string) (w : world) :
  AdminUser.new
    (<["hashed_password" := VStr hashed]> (delete "password" (AdminUserCreate.dict user))) w =
  (Ok {| AdminUser.id := entropy w (drawn w);
         AdminUser.username := AdminUserCreate.username user;
         AdminUser.email := AdminUserCreate.email user;
         AdminUser.hashed_password := hashed;
         AdminUser.full_name := AdminUserCreate.full_name user;
         AdminUser.is_active := true;
         AdminUser.is_superuser := false;
         AdminUser.created_at := utc_clock w |},
   set_drawn (S (drawn w)) w).
Proof. destruct user as [u e p [fn|]]; reflexivity. Qed.

Lemma register_admin_fresh (user : AdminUserCreate.t) (w : world) :
  db_online w = true ->
  Collection.find_one [("username", VStr (AdminUserCreate.username user))]
    (admin_users_collection w) = None ->
  Collection.find_one [("email", VStr (AdminUserCreate.email user))]
    (admin_users_collection w) = None ->
  let admin_obj :=
    {| AdminUser.id := entropy w (S (drawn w));
       AdminUser.username := AdminUserCreate.username user;
       AdminUser.email := AdminUserCreate.email user;
       AdminUser.hashed_password :=
         password_hash (entropy w (drawn w)) (AdminUserCreate.password user);
       AdminUser.full_name := AdminUserCreate.full_name user;
       AdminUser.is_active := true;
       AdminUser.is_superuser := false;
       AdminUser.created_at := utc_clock w |} in
  register_admin user w =
    (Ok admin_obj,
     set_admin_users (admin_users_collection w ++ [bson (AdminUser.dict admin_obj)])
       (set_drawn (S (S (drawn w))) w)).
Proof.
  intros Hdb Hu He admin_obj. unfold register_admin.
  erewrite bind_ok; [|unfold admin_users.find_one; by apply storage_online].
  simpl. rewrite Hu. simpl.
  erewrite bind_ok; [|unfold admin_users.find_one; by apply storage_online].
  simpl. rewrite He. simpl.
  unfold get_password_hash.
  erewrite bind_ok; [|reflexivity].
  erewrite bind_ok; [|apply AdminUser_new_admin_dict].
  erewrite bind_ok; [|unfold admin_users.insert_one; by apply storage_online].
  reflexivity.
Qed.

(** C5: registering the same username twice.  When neither the username nor
    the email of the first call is stored yet, the first call succeeds and is
    answered 201; any later call with the same username, while the account
    store holds what the first call left, is refused with 400 and detail
    "Username already registered" and leaves the whole world, the account
    store included, as it was.  A call whose email is already stored is
    refused with 400 as well, with nothing persisted. *)
Theorem register_duplicate_rejected (first second : AdminUserCreate.t) (w : world) :
  db_online w = true ->
  Collection.find_one [("username", VStr (AdminUserCreate.username first))]
    (admin_users_collection w) = None ->
  Collection.find_one [("email", VStr (AdminUserCreate.email first))]
    (admin_users_collection w) = None ->
  AdminUserCreate.username second = AdminUserCreate.username first ->
  (exists admin_obj, (register_admin first w).1 = Ok admin_obj)
  /\ resp_status (POST_auth_register first w) = 201
  /\ (forall w1 : world,
        db_online w1 = true ->
        admin_users_collection w1 = admin_users_collection (register_admin first w).2 ->
        register_admin second w1 =
          (Raise (HTTPException 400 "Username already registered" []), w1)
        /\ resp_status (POST_auth_register second w1) = 400
        /\ resp_body (POST_auth_register second w1) = Detail "Username already registered")
  /\ (forall (user : AdminUserCreate.t) (w1 : world),
        db_online w1 = true ->
        is_Some (Collection.find_one [("email", VStr (AdminUserCreate.email user))]
                   (admin_users_collection w1)) ->
        exists detail,
          register_admin user w1 = (Raise (HTTPException 400 detail []), w1)
          /\ resp_status (POST_auth_register user w1) = 400).
Proof.
  intros Hdb Hu He Hsame.
  pose proof (register_admin_fresh first w Hdb Hu He) as Hreg. simpl in Hreg.
  split; [rewrite Hreg; eauto|].
  split; [unfold POST_auth_register; by rewrite Hreg|].
  split.
  - intros w1 Hdb1 Hstore.
    assert (register_admin second w1 =
              (Raise (HTTPException 400 "Username already registered" []), w1)) as Hsecond.
    { unfold register_admin.
      erewrite bind_ok; [|unfold admin_users.find_one; by apply storage_online].
      simpl. rewrite Hstore, Hreg, Hsame. simpl.
      fold (Collection.insert_one
              (AdminUser.dict
                 {| AdminUser.id := entropy w (S (drawn w));
                    AdminUser.username := AdminUserCreate.username first;
                    AdminUser.email := AdminUserCreate.email first;
                    AdminUser.hashed_password :=
                      password_hash (entropy w (drawn w)) (AdminUserCreate.password first);
                    AdminUser.full_name := AdminUserCreate.full_name first;
                    AdminUser.is_active := true;
                    AdminUser.is_superuser := false;
                    AdminUser.created_at := utc_clock w |})
              (admin_users_collection w)).
      rewrite (find_one_insert_one _ _ _ Hu).
      match goal with
      | |- context [matches ?q ?d] =>
          assert (matches q d = true) as -> by (apply matches_single; reflexivity);
          by rewrite (lookup_truthy d "username" _ (AdminUser_dict_username _))
      end. }
    unfold POST_auth_register. by rewrite Hsecond.
  - intros user w1 Hdb1 [d Hd].
    destruct (Collection.find_one [("username", VStr (AdminUserCreate.username user))]
                (admin_users_collection w1)) as [d'|] eqn:Hfu.
    + exists "Username already registered".
      assert (register_admin user w1 =
                (Raise (HTTPException 400 "Username already registered" []), w1)) as Hr.
      { unfold register_admin.
        erewrite bind_ok; [|unfold admin_users.find_one; by apply storage_online].
        simpl. rewrite Hfu, (found_truthy _ _ _ _ Hfu). reflexivity. }
      unfold POST_auth_register. by rewrite Hr.
    + exists "Email already registered".
      assert (register_admin user w1 =
                (Raise (HTTPException 400 "Email already registered" []), w1)) as Hr.
      { unfold register_admin.
        erewrite bind_ok; [|unfold admin_users.find_one; by apply storage_online].
        simpl. rewrite Hfu. simpl.
        erewrite bind_ok; [|unfold admin_users.find_one; by apply storage_online].
        simpl. rewrite Hd, (found_truthy _ _ _ _ Hd). reflexivity. }
      unfold POST_auth_register. by rewrite Hr.
Qed.
End RegisterProps.

(** ** Login *)

Section LoginProps.
Context `{Auth}.

Lemma unless_found_found (k : string) (v : value) (c : list document) (d : document)
  (e : exn) (w : world) :
  Collection.find_one [(k, v)] c = Some d ->
  unless_found (Some d) e w = (Ok d, w).
Proof. intros E. unfold unless_found. by rewrite (found_truthy _ _ _ _ E). Qed.

Lemma subscript_present (d : document) (k : string) (v : value) (w : world) :
  d !! k = Some v -> subscript d k w = (Ok v, w).
Proof. intros E. unfold subscript. by rewrite E. Qed.

Lemma find_admin_online (q : filter_doc) (w : world) :
  db_online w = true ->
  admin_users.find_one q w = (Ok (Collection.find_one q (admin_users_collection w)), w).
Proof. intros E. unfold admin_users.find_one. by rewrite storage_online. Qed.

(** C3: a login with a username that is not stored and a login with a stored
    username whose password does not verify fail alike: both raise the same
    401 with detail "Incorrect username or password" and the Bearer
    challenge header, neither changes the world, and the two HTTP responses
    are equal. *)
Theorem login_failures_indistinguishable (unknown known : AdminUserLogin.t) (w : world)
  (user : document) (stored : value) :
  db_online w = true ->
  Collection.find_one [("username", VStr (AdminUserLogin.username unknown))]
    (admin_users_collection w) = None ->
  Collection.find_one [("username", VStr (AdminUserLogin.username known))]
    (admin_users_collection w) = Some user ->
  user !! "hashed_password" = Some stored ->
  verify_password (AdminUserLogin.password known) stored = false ->
  login unknown w =
    (Raise (HTTPException 401 "Incorrect username or password"
              [("WWW-Authenticate", "Bearer")]), w)
  /\ login known w = login unknown w
  /\ POST_auth_login known w = POST_auth_login unknown w
  /\ resp_status (POST_auth_login unknown w) = 401.
Proof.
  intros Hdb Hnone Hsome Hhash Hbad.
  assert (login unknown w =
            (Raise (HTTPException 401 "Incorrect username or password"
                      [("WWW-Authenticate", "Bearer")]), w)) as Hu.
  { unfold login.
    erewrite bind_ok; [|by apply find_admin_online].
    rewrite Hnone. reflexivity. }
  assert (login known w = login unknown w) as Hk.
  { rewrite Hu. unfold login.
    erewrite bind_ok; [|by apply find_admin_online].
    rewrite Hsome.
    erewrite bind_ok; [|by eapply unless_found_found].
    erewrite bind_ok; [|by apply subscript_present].
    rewrite Hbad. reflexivity. }
  repeat split; [done|done| |].
  - unfold POST_auth_login. by rewrite Hk.
  - unfold POST_auth_login. by rewrite Hu.
Qed.

(** C10: a stored account with no [is_active] field at all is treated as
    active: with the right password, login returns the token built from the
    account's username and id, valid for 1440 minutes, and the response is
    200, not the 400 of an inactive account. *)
Theorem login_missing_is_active (credentials : AdminUserLogin.t) (w : world)
  (user : document) (stored user_id : value) :
  db_online w = true ->
  Collection.find_one [("username", VStr (AdminUserLogin.username credentials))]
    (admin_users_collection w) = Some user ->
  user !! "hashed_password" = Some stored ->
  verify_password (AdminUserLogin.password credentials) stored = true ->
  user !! "id" = Some user_id ->
  user !! "is_active" = None ->
  login credentials w =
    (Ok {| Token.access_token :=
             issue_token
               {[ "sub" := VStr (AdminUserLogin.username credentials); "user_id" := user_id ]}
               (timedelta_minutes 1440) (utc_clock w);
           Token.token_type := "bearer" |}, w)
  /\ resp_status (POST_auth_login credentials w) = 200.
Proof.
  intros Hdb Hsome Hhash Hgood Hid Hact.
  assert (login credentials w =
    (Ok {| Token.access_token :=
             issue_token
               {[ "sub" := VStr (AdminUserLogin.username credentials); "user_id" := user_id ]}
               (timedelta_minutes 1440) (utc_clock w);
           Token.token_type := "bearer" |}, w)) as Hl.
  { unfold login.
    erewrite bind_ok; [|by apply find_admin_online].
    rewrite Hsome.
    erewrite bind_ok; [|by eapply unless_found_found].
    erewrite bind_ok; [|by apply subscript_present].
    rewrite Hgood. unfold dict_get. rewrite Hact. simpl.
    erewrite bind_ok; [|apply subscript_present, (found_lookup _ _ _ _ Hsome)].
    erewrite bind_ok; [|by apply subscript_present].
    reflexivity. }
  split; [done|]. unfold POST_auth_login. by rewrite Hl.
Qed.

(** The flag is read: an account stored with [is_active] false is refused. *)
Lemma login_inactive (credentials : AdminUserLogin.t) (w : world)
  (user : document) (stored : value) :
  db_online w = true ->
  Collection.find_one [("username", VStr (AdminUserLogin.username credentials))]
    (admin_users_collection w) = Some user ->
  user !! "hashed_password" = Some stored ->
  verify_password (AdminUserLogin.password credentials) stored = true ->
  user !! "is_active" = Some (VBool false) ->
  login credentials w = (Raise (HTTPException 400 "Inactive user" []), w).
Proof.
  intros Hdb Hsome Hhash Hgood Hact. unfold login.
  erewrite bind_ok; [|by apply find_admin_online].
  rewrite Hsome.
  erewrite bind_ok; [|by eapply unless_found_found].
  erewrite bind_ok; [|by apply subscript_present].
  rewrite Hgood. unfold dict_get. by rewrite Hact.
Qed.

End LoginProps.

(** ** Password change *)

Lemma find_one_update_one (q : filter_doc) (fields : document) (c : list document)
  (d : document) :
  Collection.find_one q c = Some d ->
  matches q (bson fields ∪ d) = true ->
  Collection.find_one q (Collection.update_one q fields c).1 = Some (bson fields ∪ d).
Proof.
  unfold Collection.find_one. intros Hfind Hkeep.
  induction c as [|x c IH]; simpl in *; [done|].
  destruct (matches q x) eqn:Hx.
  - injection Hfind as ->. simpl. by rewrite Hkeep.
  - simpl. rewrite Hx. by apply IH.
Qed.

Lemma update_one_no_match (q : filter_doc) (fields : document) (c : list document) :
  Collection.find_one q c = None ->
  Collection.update_one q fields c = (c, {| matched_count := 0; modified_count := 0 |}).
Proof.
  unfold Collection.find_one.
  induction c as [|x c IH]; simpl; [done|].
  destruct (matches q x); [done|].
  intros E. by rewrite (IH E).
Qed.

Section PasswordProps.
Context `{Auth}.

(** C4: for an authenticated user whose account is stored, a password change
    is refused with 400, the world (the stored hash with it) left as it
    was, when the current password does not verify, when the new password
    has fewer than 6 characters, or when it equals the current one.  When all
    three checks pass, and only then, the call succeeds and the account's
    stored hash is the hash of the new password. *)
Theorem change_password_guards (password_data : PasswordChange.t) (current_user : document)
  (w : world) (username : value) (user : document) (stored : value) :
  db_online w = true ->
  current_user !! "username" = Some username ->
  Collection.find_one [("username", username)] (admin_users_collection w) = Some user ->
  user !! "hashed_password" = Some stored ->
  let current := PasswordChange.current_password password_data in
  let new := PasswordChange.new_password password_data in
  let r := change_password password_data current_user w in
  if verify_password current stored
     && negb (len new <? 6)%nat
     && negb (String.eqb current new)
  then
    r.1 = Ok {[ "message" := VStr "Password changed successfully" ]}
    /\ resp_status (POST_auth_change_password password_data current_user w) = 200
    /\ admin_users_collection r.2 =
         (Collection.update_one [("username", username)]
            {[ "hashed_password" := VStr (password_hash (entropy w (drawn w)) new) ]}
            (admin_users_collection w)).1
    /\ exists user',
         Collection.find_one [("username", username)] (admin_users_collection r.2)
           = Some user'
         /\ user' !! "hashed_password"
              = Some (VStr (password_hash (entropy w (drawn w)) new))
  else
    (exists detail, r.1 = Raise (HTTPException 400 detail []))
    /\ resp_status (POST_auth_change_password password_data current_user w) = 400
    /\ r.2 = w.
Proof.
  intros Hdb Huser Hfind Hhash current new r.
  assert (change_password password_data current_user w =
            (if negb (verify_password current stored) then
               raise (HTTPException 400 "Current password is incorrect" [])
             else if (len new <? 6)%nat then
               raise (HTTPException 400 "New password must be at least 6 characters long" [])
             else if String.eqb current new then
               raise (HTTPException 400 "New password must be different from current password" [])
             else
               new_hashed_password ← get_password_hash new;
               username ← subscript current_user "username";
               admin_users.update_one [("username", username)]
                 {[ "hashed_password" := VStr new_hashed_password ]};;
               mret {[ "message" := VStr "Password changed successfully" ]}) w) as Hstep.
  { unfold change_password.
    erewrite bind_ok; [|by apply subscript_present].
    erewrite bind_ok; [|by apply find_admin_online].
    rewrite Hfind.
    erewrite bind_ok; [|by eapply unless_found_found].
    erewrite bind_ok; [|by apply subscript_present].
    reflexivity. }
  unfold POST_auth_change_password. subst r. rewrite Hstep. clear Hstep.
  destruct (verify_password current stored); simpl;
    [|by eauto].
  destruct (len new <? 6)%nat; simpl; [by eauto|].
  destruct (String.eqb current new); simpl; [by eauto|].
  unfold get_password_hash.
  erewrite bind_ok; [|reflexivity].
  erewrite bind_ok; [|by apply subscript_present].
  erewrite bind_ok; [|unfold admin_users.update_one; by apply storage_online].
  simpl. repeat split; [].
  eexists. split.
  - apply find_one_update_one; [exact Hfind|].
    rewrite bson_singleton.
    apply matches_single. apply lookup_union_Some_raw. right.
    split; [|by apply (found_lookup _ _ _ _ Hfind)].
    by rewrite lookup_singleton_ne.
  - rewrite bson_singleton.
    apply lookup_union_Some_raw. left. apply lookup_singleton_eq.
Qed.

End PasswordProps.

(** ** Tokens *)

Section TokenProps.
Context `{Auth}.

(** What a successful login went through. *)
Lemma login_ok_inv (credentials : AdminUserLogin.t) (w w' : world) (tok : Token.t) :
  login credentials w = (Ok tok, w') ->
  exists (user : document) (user_id : value),
    Collection.find_one [("username", VStr (AdminUserLogin.username credentials))]
      (admin_users_collection w) = Some user
    /\ user !! "id" = Some user_id
    /\ tok = {| Token.access_token :=
                  issue_token
                    {[ "sub" := VStr (AdminUserLogin.username credentials);
                       "user_id" := user_id ]}
                    (timedelta_minutes 1440) (utc_clock w);
                Token.token_type := "bearer" |}
    /\ w' = w.
Proof.
  unfold login, admin_users.find_one, storage, mbind, M_bind.
  destruct (db_online w); [|done]. simpl.
  destruct (Collection.find_one _ (admin_users_collection w)) as [user|] eqn:Hfind;
    [|done].
  rewrite (unless_found_found _ _ _ _ _ _ Hfind).
  unfold subscript at 1.
  destruct (user !! "hashed_password") as [stored|]; [|done]. simpl.
  destruct (verify_password _ stored); [|done]. simpl.
  destruct (truthy _); [|done]. simpl.
  rewrite (subscript_present _ _ _ _ (found_lookup _ _ _ _ Hfind)).
  unfold subscript.
  destruct (user !! "id") as [user_id|] eqn:Hid; [|done]. simpl.
  intros [= <- <-]. by exists user, user_id.
Qed.

End TokenProps.

(** C7: a token issued at login expires 24 hours after it was issued; checked
    at the time of issue it yields its claims, the username and the id of
    the account, and checked at any time at or after issue + 24 hours it is
    [Expired]. *)
Theorem login_token_validity (digest : string -> string -> string) (secret : string)
  (sign : string -> document * Z * Z -> string)
  (credentials : AdminUserLogin.t) (w w' : world)
  (tok : @Token.t (spec_auth digest secret sign)) :
  @login (spec_auth digest secret sign) credentials w = (Ok tok, w') ->
  let t : TokenService.token := Token.access_token tok in
  TokenService.issued_at t = utc_clock w
  /\ TokenService.expires_at t = TokenService.issued_at t + timedelta_hours 24
  /\ (exists (user : document) (user_id : value),
        Collection.find_one [("username", VStr (AdminUserLogin.username credentials))]
          (admin_users_collection w) = Some user
        /\ user !! "id" = Some user_id
        /\ TokenService.claims t =
             {[ "sub" := VStr (AdminUserLogin.username credentials); "user_id" := user_id ]})
  /\ TokenService.verify secret sign t (TokenService.issued_at t)
       = inl (TokenService.claims t)
  /\ forall now : Z,
       TokenService.issued_at t + timedelta_hours 24 <= now ->
       TokenService.verify secret sign t now = inr TokenService.Expired.
Proof.
  intros Hlogin t.
  apply login_ok_inv in Hlogin as (user & user_id & Hfind & Hid & -> & ->).
  subst t. simpl.
  split; [done|]. split; [reflexivity|]. split; [eauto|].
  unfold TokenService.verify. simpl. rewrite String.eqb_refl. simpl.
  split.
  - destruct (Z.leb_spec (utc_clock w + timedelta_minutes 1440) (utc_clock w)) as [Hle|];
      [|done].
    unfold timedelta_minutes in Hle. lia.
  - intros now Hnow.
    destruct (Z.leb_spec (utc_clock w + timedelta_minutes 1440) now) as [|Hlt]; [done|].
    unfold timedelta_minutes in Hlt. unfold timedelta_hours in Hnow. lia.
Qed.

(** ** The password hasher *)

Lemma str_take_app (s t : string) : str_take (String.length s) (s ++ t) = s.
Proof. induction s as [|c s IH]; simpl; [by destruct t|by rewrite IH]. Qed.

Lemma str_drop_app (s t : string) : str_drop (String.length s) (s ++ t) = t.
Proof. induction s as [|c s IH]; simpl; [by destruct t|done]. Qed.

Lemma str_length_app (s t : string) :
  String.length (s ++ t) = (String.length s + String.length t)%nat.
Proof. induction s as [|c s IH]; simpl; [done|by rewrite IH]. Qed.

Lemma str_take_length (n : nat) (s : string) :
  (n <= String.length s)%nat -> String.length (str_take n s) = n.
Proof.
  revert s. induction n as [|n IH]; intros [|c s]; simpl; try done; try lia.
  intros Hle. rewrite IH; [done|lia].
Qed.

Lemma gensalt_length (random : string) :
  String.length (Hasher.gensalt random) = Hasher.SALT_LEN.
Proof.
  unfold Hasher.gensalt. apply str_take_length.
  rewrite str_length_app. unfold Hasher.SALT_LEN, Hasher.padding. simpl. lia.
Qed.

Lemma parse_hash (digest : string -> string -> string) (random plaintext : string) :
  Hasher.parse (Hasher.hash digest random plaintext)
    = Some (Hasher.gensalt random, digest (Hasher.gensalt random) plaintext).
Proof.
  unfold Hasher.parse, Hasher.hash. cbv zeta.
  pose proof (gensalt_length random) as Hlen.
  rewrite str_length_app, Hlen.
  destruct (Nat.ltb_spec
              (Hasher.SALT_LEN
               + String.length (digest (Hasher.gensalt random) plaintext))
              Hasher.SALT_LEN) as [Hlt|_]; [lia|].
  by rewrite <- Hlen, str_take_app, str_drop_app.
Qed.

(** C8: hashing a plaintext and verifying the plaintext against the result
    is true, whatever the random draw; two hashings of the same plaintext
    whose salts differ give two different hash strings, each of which
    verifies; and against a malformed stored hash, or a stored value that is
    not a string, verification answers false. *)
Theorem hash_verify_roundtrip (digest : string -> string -> string) :
  (forall plaintext random : string,
     Hasher.verify digest plaintext (Hasher.hash digest random plaintext) = true)
  /\ (forall plaintext random1 random2 : string,
        Hasher.gensalt random1 <> Hasher.gensalt random2 ->
        Hasher.hash digest random1 plaintext <> Hasher.hash digest random2 plaintext
        /\ Hasher.verify digest plaintext (Hasher.hash digest random1 plaintext) = true
        /\ Hasher.verify digest plaintext (Hasher.hash digest random2 plaintext) = true)
  /\ (forall plaintext stored : string,
        Hasher.parse stored = None -> Hasher.verify digest plaintext stored = false)
  /\ (forall (secret : string) (sign : string -> document * Z * Z -> string)
        (plaintext : string) (stored : value),
        (forall s, stored = VStr s -> Hasher.parse s = None) ->
        @verify_password (spec_auth digest secret sign) plaintext stored = false).
Proof.
  assert (forall plaintext random : string,
            Hasher.verify digest plaintext (Hasher.hash digest random plaintext) = true)
    as Hverify.
  { intros plaintext random. unfold Hasher.verify.
    rewrite parse_hash. apply String.eqb_refl. }
  split; [exact Hverify|].
  split.
  - intros plaintext random1 random2 Hne.
    split; [|by split].
    intros Heq. apply Hne.
    pose proof (parse_hash digest random1 plaintext) as P1.
    pose proof (parse_hash digest random2 plaintext) as P2.
    rewrite Heq in P1. rewrite P1 in P2. by injection P2.
  - split.
    + intros plaintext stored Hbad. unfold Hasher.verify. by rewrite Hbad.
    + intros secret sign plaintext stored Hbad. simpl.
      destruct stored as [| | |s|]; try done.
      unfold Hasher.verify. by rewrite (Hbad s eq_refl).
Qed.

(** ** Bookings *)

Lemma Booking_new_create (booking : BookingCreate.t) (w : world) :
  Booking.new (BookingCreate.dict booking) w =
  (Ok {| Booking.id := entropy w (drawn w);
         Booking.name := BookingCreate.name booking;
         Booking.email := BookingCreate.email booking;
         Booking.phone := BookingCreate.phone booking;
         Booking.event_type := BookingCreate.event_type booking;
         Booking.date := BookingCreate.date booking;
         Booking.guests := BookingCreate.guests booking;
         Booking.message := BookingCreate.message booking;
         Booking.status := "pending";
         Booking.created_at := utc_clock w |},
   set_drawn (S (drawn w)) w).
Proof. destruct booking as [n e p t d g [m|]]; reflexivity. Qed.

(** C2: when the store takes the insert, a booking submission returns the
    enquiry it persisted (the store keeps its document with the creation
    time cut to milliseconds), with status "pending", and is answered 201
    with that enquiry, whatever the notification function does: it is run in the
    world where the enquiry is already stored, its result is dropped, and
    an exception it raises only adds an error record to the log.  When the
    store refuses the insert, the call fails and the notification function
    is not run. *)
Theorem create_booking_ignores_notifier (notify : document -> M bool)
  (booking : BookingCreate.t) (w : world) :
  let booking_obj :=
    {| Booking.id := entropy w (drawn w);
       Booking.name := BookingCreate.name booking;
       Booking.email := BookingCreate.email booking;
       Booking.phone := BookingCreate.phone booking;
       Booking.event_type := BookingCreate.event_type booking;
       Booking.date := BookingCreate.date booking;
       Booking.guests := BookingCreate.guests booking;
       Booking.message := BookingCreate.message booking;
       Booking.status := "pending";
       Booking.created_at := utc_clock w |} in
  let persisted :=
    set_bookings (bookings_collection w ++ [bson (Booking.dict booking_obj)])
      (set_drawn (S (drawn w)) w) in
  (db_online w = true ->
     (create_booking notify booking w).1 = Ok booking_obj
     /\ POST_bookings notify booking w =
          {| resp_status := 201; resp_body := Json (Booking.dict booking_obj);
             resp_headers := [] |}
     /\ Booking.status booking_obj = "pending"
     /\ Collection.find_one [("id", VStr (Booking.id booking_obj))]
          (bookings_collection persisted) <> None
     /\ (create_booking notify booking w).2 =
          match notify (Booking.dict booking_obj) persisted with
          | (Ok _, w') => w'
          | (Raise e, w') =>
              set_logs (logs w' ++
                [ {| log_lvl := ERROR;
                     log_msg := "Failed to send booking notification email: ";
                     log_exc := Some e |} ]) w'
          end)
  /\ (db_online w = false ->
        create_booking notify booking w =
          (Raise (PyMongoError "server unreachable"), set_drawn (S (drawn w)) w)).
Proof.
  intros booking_obj persisted. split.
  - intros Hdb.
    assert (create_booking notify booking w =
              (Ok booking_obj,
               match notify (Booking.dict booking_obj) persisted with
               | (Ok _, w') => w'
               | (Raise e, w') =>
                   set_logs (logs w' ++
                     [ {| log_lvl := ERROR;
                          log_msg := "Failed to send booking notification email: ";
                          log_exc := Some e |} ]) w'
               end)) as Hrun.
    { subst persisted booking_obj. unfold create_booking.
      erewrite bind_ok; [|apply Booking_new_create].
      erewrite bind_ok; [|unfold bookings.insert_one; by apply storage_online].
      unfold Collection.insert_one, mbind, M_bind, try_except. cbn [fst snd bookings_collection set_drawn].
      destruct (notify _ _) as [[b|e] w']; reflexivity. }
    rewrite Hrun. unfold POST_bookings. rewrite Hrun. simpl.
    repeat split; [].
    subst persisted. simpl.
    unfold Collection.find_one. intros Hnone.
    eapply find_none in Hnone; [|apply in_app_iff; right; left; reflexivity].
    assert (matches [("id", VStr (entropy w (drawn w)))] (bson (Booking.dict booking_obj))
              = true)
      as Hm by (apply matches_single; reflexivity).
    eapply eq_true_false_abs; [exact Hm|exact Hnone].
  - intros Hdb. unfold create_booking.
    erewrite bind_ok; [|apply Booking_new_create].
    unfold mbind, M_bind, bookings.insert_one, storage. simpl. by rewrite Hdb.
Qed.

Lemma find_booking_online (q : filter_doc) (w : world) :
  db_online w = true ->
  bookings.find_one q w = (Ok (Collection.find_one q (bookings_collection w)), w).
Proof. intros E. unfold bookings.find_one. by rewrite storage_online. Qed.

(** A status outside the three is refused before anything is written. *)
Lemma update_booking_status_invalid (booking_id status : string) (w : world) :
  status ∉ ["pending"; "approved"; "rejected"] ->
  update_booking_status booking_id status w = (Raise (HTTPException 400 "Invalid status" []), w).
Proof.
  intros Hbad. unfold update_booking_status.
  by rewrite bool_decide_eq_false_2.
Qed.

(** With a valid status and no enquiry of that id, the answer is 404 and the
    store is as it was. *)
Lemma update_booking_status_missing (booking_id status : string) (w : world) :
  db_online w = true ->
  status ∈ ["pending"; "approved"; "rejected"] ->
  Collection.find_one [("id", VStr booking_id)] (bookings_collection w) = None ->
  (update_booking_status booking_id status w).1 = Raise (HTTPException 404 "Booking not found" [])
  /\ bookings_collection (update_booking_status booking_id status w).2 = bookings_collection w.
Proof.
  intros Hdb Hok Hnone. unfold update_booking_status.
  rewrite bool_decide_eq_true_2 by done. simpl.
  erewrite bind_ok; [|reflexivity].
  erewrite bind_ok; [|unfold bookings.update_one; by apply storage_online].
  simpl. rewrite (update_one_no_match _ _ _ Hnone). done.
Qed.

Lemma update_one_modified (q : filter_doc) (fields : document) (c : list document)
  (d : document) :
  Collection.find_one q c = Some d ->
  modified_count (Collection.update_one q fields c).2
    = if bool_decide (bson fields ∪ d = d) then 0%nat else 1%nat.
Proof.
  unfold Collection.find_one.
  induction c as [|x c IH]; simpl; [done|].
  destruct (matches q x) eqn:Hx.
  - by intros [= ->].
  - simpl. apply IH.
Qed.

Lemma bson_status_fields (status : string) (t : Z) :
  bson ({[ "status" := VStr status; "updated_at" := VDate t ]} : document)
    = {[ "status" := VStr status; "updated_at" := VDate (millis t) ]}.
Proof. unfold bson. by rewrite fmap_insert, map_fmap_singleton. Qed.

(** With a valid status and an enquiry of that id which the update changes
    (another status, or another millisecond than that of its last update),
    the stored status becomes the requested one and the enquiry read back is
    returned. *)
Lemma update_booking_status_modified (booking_id status : string) (w : world) (d : document) :
  db_online w = true ->
  status ∈ ["pending"; "approved"; "rejected"] ->
  Collection.find_one [("id", VStr booking_id)] (bookings_collection w) = Some d ->
  ({[ "status" := VStr status; "updated_at" := VDate (millis (utc_clock w)) ]} ∪ d
     : document) <> d ->
  let d' : document :=
    {[ "status" := VStr status; "updated_at" := VDate (millis (utc_clock w)) ]} ∪ d in
  let w' := set_bookings
              (Collection.update_one [("id", VStr booking_id)]
                 {[ "status" := VStr status; "updated_at" := VDate (utc_clock w) ]}
                 (bookings_collection w)).1 w in
  update_booking_status booking_id status w = Booking.new d' w'
  /\ Collection.find_one [("id", VStr booking_id)] (bookings_collection w') = Some d'
  /\ d' !! "status" = Some (VStr status).
Proof.
  intros Hdb Hok Hfind Hmod d' w'.
  assert (Collection.find_one [("id", VStr booking_id)] (bookings_collection w') = Some d')
    as Hfind'.
  { subst w' d'. simpl. rewrite <- bson_status_fields.
    apply find_one_update_one; [done|]. rewrite bson_status_fields.
    apply matches_single, lookup_union_Some_raw. right.
    split; [reflexivity|]. apply (found_lookup _ _ _ _ Hfind). }
  split; [|split; [done|]].
  - unfold update_booking_status.
    rewrite bool_decide_eq_true_2 by done. simpl.
    erewrite bind_ok; [|reflexivity].
    erewrite bind_ok; [|unfold bookings.update_one; by apply storage_online].
    simpl. rewrite (update_one_modified _ _ _ _ Hfind), bson_status_fields.
    rewrite bool_decide_eq_false_2 by done. simpl.
    fold w'.
    erewrite bind_ok; [|by apply find_booking_online].
    by rewrite Hfind'.
  - subst d'. apply lookup_union_Some_raw. left. reflexivity.
Qed.

(** With a valid status and an enquiry of that id which already has that
    status and was last updated in this very millisecond, the update changes
    nothing, and the answer is 404. *)
Lemma update_booking_status_unmodified (booking_id status : string) (w : world) (d : document) :
  db_online w = true ->
  status ∈ ["pending"; "approved"; "rejected"] ->
  Collection.find_one [("id", VStr booking_id)] (bookings_collection w) = Some d ->
  ({[ "status" := VStr status; "updated_at" := VDate (millis (utc_clock w)) ]} ∪ d
     : document) = d ->
  (update_booking_status booking_id status w).1
    = Raise (HTTPException 404 "Booking not found" []).
Proof.
  intros Hdb Hok Hfind Hsame. unfold update_booking_status.
  rewrite bool_decide_eq_true_2 by done. simpl.
  erewrite bind_ok; [|reflexivity].
  erewrite bind_ok; [|unfold bookings.update_one; by apply storage_online].
  simpl. rewrite (update_one_modified _ _ _ _ Hfind), bson_status_fields.
  by rewrite bool_decide_eq_true_2.
Qed.

(** ** The notification sender *)

(** Case analysis on what the server answers at each step and on the class
    of what it raises. *)
Ltac smtp_cases w :=
  destruct w as [? ? ? ? ? ? [[?|] [?|] [?|] [?|] [?|]] ? ?]; simpl;
  repeat match goal with
         | |- context [is_SMTPException ?e] => destruct (is_SMTPException e) eqn:?; simpl
         | |- context [is_SMTPAuthenticationError ?e] =>
             destruct (is_SMTPAuthenticationError e) eqn:?; simpl
         | |- context [is_SMTPServerDisconnected ?e] =>
             destruct (is_SMTPServerDisconnected e) eqn:?; simpl
         end.

Section EmailProps.

Variable cfg : email_config.
Variables html_template text_template : document -> value -> string.
Variable strftime : Z -> string.
Variable str : value -> string.
Variable as_string : mime_message -> option exn.

Lemma send_email_unconfigured (to_email subject html_body : string)
  (text_body : option string) (w : world) :
  forallb nonempty
    [SMTP_HOST cfg; SMTP_USERNAME cfg; SMTP_PASSWORD cfg; SMTP_FROM_EMAIL cfg] = false ->
  send_email cfg as_string to_email subject html_body text_body w =
    (Ok false,
     set_logs (logs w ++ [ {| log_lvl := WARNING;
                              log_msg := "SMTP not configured - email not sent";
                              log_exc := None |} ]) w).
Proof. intros Hcfg. unfold send_email. rewrite Hcfg. reflexivity. Qed.

Lemma send_email_returns (to_email subject html_body : string)
  (text_body : option string) (w : world) :
  exists (b : bool) (w' : world),
    send_email cfg as_string to_email subject html_body text_body w = (Ok b, w').
Proof.
  unfold send_email.
  destruct (forallb nonempty _); simpl; [|by eauto].
  unfold with_SMTP, leaving_SMTP, sendmail, smtp_step, try_except, log, any_Exception,
    raise, mbind, M_bind, mret, M_ret.
  destruct (as_string _) as [ex|]; smtp_cases w; eauto.
Qed.

Lemma send_email_result (to_email subject html_body : string)
  (text_body : option string) (w : world) :
  forallb nonempty
    [SMTP_HOST cfg; SMTP_USERNAME cfg; SMTP_PASSWORD cfg; SMTP_FROM_EMAIL cfg] = true ->
  (send_email cfg as_string to_email subject html_body text_body w).1
    = Ok (match as_string (make_message cfg to_email subject html_body text_body) with
          | None => negb (transmission_fails (smtp w))
          | Some _ => false
          end).
Proof.
  intros Hcfg. unfold send_email. rewrite Hcfg. simpl.
  unfold with_SMTP, leaving_SMTP, sendmail, smtp_step, try_except, log, any_Exception,
    raise, mbind, M_bind, mret, M_ret, transmission_fails.
  destruct (as_string _) as [ex|]; smtp_cases w; reflexivity.
Qed.

Lemma send_email_failure (to_email subject html_body : string)
  (text_body : option string) (w : world) :
  transmission_fails (smtp w) = true ->
  (send_email cfg as_string to_email subject html_body text_body w).1 = Ok false.
Proof.
  intros Hfail.
  destruct (forallb nonempty
              [SMTP_HOST cfg; SMTP_USERNAME cfg; SMTP_PASSWORD cfg; SMTP_FROM_EMAIL cfg])
    eqn:Hcfg.
  - rewrite send_email_result by done. rewrite Hfail. by destruct (as_string _).
  - by rewrite send_email_unconfigured.
Qed.

Lemma send_email_delivered (to_email subject html_body : string)
  (text_body : option string) (w : world) :
  forallb nonempty
    [SMTP_HOST cfg; SMTP_USERNAME cfg; SMTP_PASSWORD cfg; SMTP_FROM_EMAIL cfg] = true ->
  smtp w = {| on_connect := None; on_starttls := None; on_login := None;
              on_sendmail := None; on_quit := None |} ->
  as_string (make_message cfg to_email subject html_body text_body) = None ->
  (send_email cfg as_string to_email subject html_body text_body w).1 = Ok true.
Proof.
  intros Hcfg Hsmtp Hmsg. rewrite send_email_result by done.
  rewrite Hmsg. unfold transmission_fails. by rewrite Hsmtp.
Qed.

(** C9: the notification sender always returns a boolean and never raises:
    [send_email] and [send_booking_notification] return on every input and
    in every world; with the SMTP configuration incomplete, or with no
    notification address, they return False and no SMTP step is attempted;
    and when the transmission fails at any step, both return False. *)
Theorem notification_sender_never_raises :
  (forall (to_email subject html_body : string) (text_body : option string) (w : world),
     exists (b : bool) (w' : world),
       send_email cfg as_string to_email subject html_body text_body w = (Ok b, w'))
  /\ (forall (booking : document) (w : world),
        exists (b : bool) (w' : world),
          send_booking_notification cfg html_template text_template strftime str as_string booking w
            = (Ok b, w'))
  /\ (forall (to_email subject html_body : string) (text_body : option string) (w : world),
        forallb nonempty
          [SMTP_HOST cfg; SMTP_USERNAME cfg; SMTP_PASSWORD cfg; SMTP_FROM_EMAIL cfg] = false ->
        (send_email cfg as_string to_email subject html_body text_body w).1 = Ok false
        /\ smtp_trace (send_email cfg as_string to_email subject html_body text_body w).2
             = smtp_trace w)
  /\ (forall (booking : document) (w : world),
        NOTIFICATION_EMAIL cfg = ""
        \/ forallb nonempty
             [SMTP_HOST cfg; SMTP_USERNAME cfg; SMTP_PASSWORD cfg; SMTP_FROM_EMAIL cfg] = false ->
        (send_booking_notification cfg html_template text_template strftime str as_string booking w).1
          = Ok false
        /\ smtp_trace
             (send_booking_notification cfg html_template text_template strftime str as_string
                booking w).2 = smtp_trace w)
  /\ (forall (to_email subject html_body : string) (text_body : option string) (w : world),
        transmission_fails (smtp w) = true ->
        (send_email cfg as_string to_email subject html_body text_body w).1 = Ok false
        /\ forall booking : document,
             (send_booking_notification cfg html_template text_template strftime str as_string
                booking w).1 = Ok false).
Proof.
  split; [apply send_email_returns|].
  split.
  { intros booking w. unfold send_booking_notification.
    destruct (nonempty (NOTIFICATION_EMAIL cfg)); simpl; [|by eauto].
    apply send_email_returns. }
  split.
  { intros to_email subject html_body text_body w Hcfg.
    by rewrite send_email_unconfigured. }
  split.
  { intros booking w Hmissing. unfold send_booking_notification.
    destruct (nonempty (NOTIFICATION_EMAIL cfg)) eqn:Hn; simpl; [|done].
    destruct Hmissing as [Hempty|Hcfg].
    - unfold nonempty in Hn. by rewrite Hempty in Hn.
    - by rewrite send_email_unconfigured. }
  intros to_email subject html_body text_body w Hfail.
  split; [by apply send_email_failure|].
  intros booking. unfold send_booking_notification.
  destruct (nonempty (NOTIFICATION_EMAIL cfg)); simpl; [|done].
  by apply send_email_failure.
Qed.

End EmailProps.

(** ** What the responses show of the password hash *)

Section ExposureProps.
Context `{Auth}.

(** [/me] strips the hash before it answers. *)
Lemma me_hides_hash (current_user : document) (w : world) (body : document) :
  resp_body (GET_auth_me current_user w) = Json body ->
  body !! "hashed_password" = None.
Proof.
  unfold GET_auth_me, get_current_user_info, mbind, M_bind.
  destruct (subscript current_user "username" w) as [[username|e] w1]; simpl;
    [|by destruct e].
  destruct (admin_users.find_one _ w1) as [[user|e] w2]; simpl; [|by destruct e].
  destruct (unless_found user _ w2) as [[d|e] w3]; simpl; [|by destruct e].
  intros [= <-]. rewrite lookup_delete_ne by done. apply lookup_delete_eq.
Qed.

(** The answer to a registration is the created account run through the
    [AdminUser] response model, stored hash included. *)
Lemma register_response_carries_hash (user : AdminUserCreate.t) (w w' : world)
  (admin_obj : AdminUser.t) :
  register_admin user w = (Ok admin_obj, w') ->
  exists body : document,
    resp_body (POST_auth_register user w) = Json body
    /\ body !! "hashed_password" = Some (VStr (AdminUser.hashed_password admin_obj)).
Proof.
  intros Hreg. unfold POST_auth_register. rewrite Hreg. simpl.
  eexists. split; reflexivity.
Qed.

End ExposureProps.

(** C1: the password hash in the answer to a registration.  Registering
    alice in the empty store is answered 201, and the body of that answer
    has a "hashed_password" entry holding the very hash that was stored for
    her; the specification says the answer does not include the hash. *)
Theorem register_response_exposes_hash :
  resp_status (@POST_auth_register Demo.auth Demo.alice Demo.w0) = 201
  /\ exists (body stored : document) (h : string),
       resp_body (@POST_auth_register Demo.auth Demo.alice Demo.w0) = Json body
       /\ body !! "hashed_password" = Some (VStr h)
       /\ Collection.find_one [("username", VStr "alice")]
            (admin_users_collection Demo.registered) = Some stored
       /\ stored !! "hashed_password" = Some (VStr h).
Proof.
  split; [reflexivity|].
  eexists _, _, _. repeat split; reflexivity.
Qed.

(** C6: a status update that finds its enquiry and is answered 404.  After
    an enquiry was submitted, setting its status to "approved" succeeds;
    the same request once more, before the clock has moved on, finds the
    enquiry (it is still stored under that id) but is answered 404 "Booking
    not found"; the specification says 404 is for an id that matches no
    enquiry and that otherwise the answer is 200 with the updated
    enquiry. *)
Theorem update_status_repeat_not_found :
  let first := update_booking_status Demo.booking_id "approved" Demo.booked in
  let again := update_booking_status Demo.booking_id "approved" first.2 in
  "approved" ∈ ["pending"; "approved"; "rejected"]
  /\ (exists approved : Booking.t,
        first.1 = Ok approved /\ Booking.status approved = "approved")
  /\ utc_clock first.2 = utc_clock Demo.booked
  /\ Collection.find_one [("id", VStr Demo.booking_id)] (bookings_collection first.2)
       <> None
  /\ again.1 = Raise (HTTPException 404 "Booking not found" [])
  /\ resp_status (PUT_bookings_status Demo.booking_id "approved" first.2) = 404
  /\ resp_body (PUT_bookings_status Demo.booking_id "approved" first.2)
       = Detail "Booking not found".
Proof.
  cbv zeta.
  split; [set_solver|].
  split; [eexists; split; reflexivity|].
  split; [reflexivity|].
  split; [|repeat split; reflexivity].
  intros Hnone.
  assert (match Collection.find_one [("id", VStr Demo.booking_id)]
                  (bookings_collection
                     (update_booking_status Demo.booking_id "approved" Demo.booked).2)
          with Some _ => true | None => false end = true) as Hfound
    by reflexivity.
  rewrite Hnone in Hfound. discriminate Hfound.
Qed.

(** ** The theorems at work on the demo worlds *)

Lemma login_failures_indistinguishable_witness :
  @login Demo.auth
    {| AdminUserLogin.username := "alice"; AdminUserLogin.password := "guess" |}
    Demo.registered
  = @login Demo.auth
      {| AdminUserLogin.username := "mallory"; AdminUserLogin.password := "guess" |}
      Demo.registered.
Proof.
  refine (proj1 (proj2
    (@login_failures_indistinguishable Demo.auth
       {| AdminUserLogin.username := "mallory"; AdminUserLogin.password := "guess" |}
       {| AdminUserLogin.username := "alice"; AdminUserLogin.password := "guess" |}
       Demo.registered
       (AdminUser.dict
          {| AdminUser.id := "saltsaltsaltsaltsalt01";
             AdminUser.username := "alice";
             AdminUser.email := "alice@example.org";
             AdminUser.hashed_password :=
               "saltsaltsaltsaltsalt00#s3cret!#saltsaltsaltsaltsalt00";
             AdminUser.full_name := None;
             AdminUser.is_active := true;
             AdminUser.is_superuser := false;
             AdminUser.created_at := 43200000000 |})
       (VStr "saltsaltsaltsaltsalt00#s3cret!#saltsaltsaltsaltsalt00")
       _ _ _ _ _))); reflexivity.
Defined.

Lemma login_missing_is_active_witness :
  resp_status
    (@POST_auth_login Demo.auth
       {| AdminUserLogin.username := "bob"; AdminUserLogin.password := "hunter2!" |}
       Demo.legacy) = 200.
Proof.
  refine (proj2
    (@login_missing_is_active Demo.auth
       {| AdminUserLogin.username := "bob"; AdminUserLogin.password := "hunter2!" |}
       Demo.legacy Demo.legacy_account
       (VStr (Hasher.hash Demo.digest "saltsaltsaltsaltsalt07" "hunter2!"))
       (VStr "legacy-1") _ _ _ _ _ _)); reflexivity.
Defined.

Lemma change_password_guards_witness :
  resp_status
    (@POST_auth_change_password Demo.auth
       {| PasswordChange.current_password := "s3cret!";
          PasswordChange.new_password := Demo.accented |}
       {[ "username" := VStr "alice" ]} Demo.registered) = 400
  /\ (@change_password Demo.auth
        {| PasswordChange.current_password := "s3cret!";
           PasswordChange.new_password := Demo.accented |}
        {[ "username" := VStr "alice" ]} Demo.registered).2 = Demo.registered.
Proof.
  refine (proj2
    (@change_password_guards Demo.auth
       {| PasswordChange.current_password := "s3cret!";
          PasswordChange.new_password := Demo.accented |}
       {[ "username" := VStr "alice" ]} Demo.registered (VStr "alice")
       (AdminUser.dict
          {| AdminUser.id := "saltsaltsaltsaltsalt01";
             AdminUser.username := "alice";
             AdminUser.email := "alice@example.org";
             AdminUser.hashed_password :=
               "saltsaltsaltsaltsalt00#s3cret!#saltsaltsaltsaltsalt00";
             AdminUser.full_name := None;
             AdminUser.is_active := true;
             AdminUser.is_superuser := false;
             AdminUser.created_at := 43200000000 |})
       (VStr "saltsaltsaltsaltsalt00#s3cret!#saltsaltsaltsaltsalt00")
       _ _ _ _)); reflexivity.
Defined.

Lemma login_token_validity_witness :
  exists tok : @Token.t Demo.auth,
    (@login Demo.auth
       {| AdminUserLogin.username := "alice"; AdminUserLogin.password := "s3cret!" |}
       Demo.registered).1 = Ok tok
    /\ TokenService.expires_at (Token.access_token tok) = 43200000250 + 86400000000.
Proof.
  destruct (@login Demo.auth
              {| AdminUserLogin.username := "alice"; AdminUserLogin.password := "s3cret!" |}
              Demo.registered) as [[tok|e] w'] eqn:Hlogin.
  - exists tok. split; [reflexivity|].
    destruct (login_token_validity Demo.digest "server-secret" Demo.sign _ _ _ _ Hlogin)
      as (Hiat & Hexp & _).
    exact (eq_trans Hexp (f_equal (fun x => x + timedelta_hours 24) Hiat)).
  - exfalso.
    assert (match (@login Demo.auth
                     {| AdminUserLogin.username := "alice";
                        AdminUserLogin.password := "s3cret!" |}
                     Demo.registered).1
            with Ok _ => true | Raise _ => false end = true) as Hok
      by reflexivity.
    rewrite Hlogin in Hok. discriminate Hok.
Defined.

Lemma hash_verify_roundtrip_witness :
  Hasher.hash Demo.digest "saltsaltsaltsaltsalt00" "s3cret!"
    <> Hasher.hash Demo.digest "saltsaltsaltsaltsalt01" "s3cret!".
Proof.
  refine (proj1 (proj1 (proj2 (hash_verify_roundtrip Demo.digest))
                   "s3cret!" "saltsaltsaltsaltsalt00" "saltsaltsaltsaltsalt01" _)).
  discriminate.
Defined.

Lemma create_booking_ignores_notifier_witness :
  resp_status (POST_bookings Demo.failing_notifier Demo.enquiry Demo.w0) = 201.
Proof.
  destruct (create_booking_ignores_notifier Demo.failing_notifier Demo.enquiry Demo.w0)
    as [Hup _].
  destruct (Hup eq_refl) as (_ & Hresp & _).
  rewrite Hresp. reflexivity.
Defined.

Lemma notification_sender_never_raises_witness :
  (send_booking_notification Demo.cfg Demo.template Demo.template Demo.strftime Demo.str Demo.as_string
     (Booking.dict
        {| Booking.id := "b1"; Booking.name := "Jan"; Booking.email := "jan@example.org";
           Booking.phone := "0400"; Booking.event_type := "wedding";
           Booking.date := "2026-01-10"; Booking.guests := 80; Booking.message := None;
           Booking.status := "pending"; Booking.created_at := 43200000250 |})
     {| admin_users_collection := []; bookings_collection := []; db_online := true;
        utc_clock := 43200000250; entropy := Demo.salts; drawn := 0;
        smtp := Demo.refusing_server; smtp_trace := []; logs := [] |}).1 = Ok false.
Proof.
  refine (proj2
    (proj2 (proj2 (proj2 (proj2
       (notification_sender_never_raises Demo.cfg Demo.template Demo.template
          Demo.strftime Demo.str Demo.as_string))))
       "office@example.org" "subject" "body" None
       {| admin_users_collection := []; bookings_collection := []; db_online := true;
          utc_clock := 43200000250; entropy := Demo.salts; drawn := 0;
          smtp := Demo.refusing_server; smtp_trace := []; logs := [] |}
       _) _).
  reflexivity.
Defined.

Lemma register_duplicate_rejected_witness :
  (@register_admin Demo.auth Demo.alice (@register_admin Demo.auth Demo.alice Demo.w0).2).1
  = Raise (HTTPException 400 "Username already registered" []).
Proof.
  destruct (@register_duplicate_rejected Demo.auth Demo.alice Demo.alice Demo.w0
              eq_refl eq_refl eq_refl eq_refl) as (_ & _ & Hsecond & _).
  destruct (Hsecond (@register_admin Demo.auth Demo.alice Demo.w0).2 eq_refl eq_refl)
    as (Hraise & _).
  by rewrite Hraise.
Defined.


(** * Further properties *)

(** ** Reading handlers *)

(** Case analysis on every test a handler makes. *)
Ltac handler_cases :=
  repeat (simpl;
          match goal with
          | |- context [match ?x with _ => _ end] =>
              lazymatch x with
              | context [match _ with _ => _ end] => fail
              | _ => destruct x eqn:?
              end
          end).

Section ReadOnlyProps.
Context `{Auth}.

(** X1: login, the identity echo and logout only read: whatever they are
    given and whatever they answer, the world after the call is the world
    before it. *)
Theorem auth_reads_leave_world (credentials : AdminUserLogin.t) (current_user : document)
  (w : world) :
  (login credentials w).2 = w
  /\ (get_current_user_info current_user w).2 = w
  /\ (logout current_user w).2 = w.
Proof.
  split; [|split; [|reflexivity]].
  - unfold login, admin_users.find_one, storage, unless_found, subscript,
      create_access_token, utcnow, raise, mbind, M_bind, mret, M_ret.
    handler_cases; reflexivity.
  - unfold get_current_user_info, admin_users.find_one, storage, unless_found, subscript,
      raise, mbind, M_bind, mret, M_ret.
    handler_cases; reflexivity.
Qed.

End ReadOnlyProps.

Section AccountProps.
Context `{Auth}.

(** X2: the identity echo.  For a caller whose username is stored, the answer
    is the stored record without its "hashed_password" and "_id" entries and
    with every other entry as stored; for a caller whose username is not
    stored it is 404 "User not found". *)
Theorem me_echoes_account (current_user : document) (w : world) (username : value) :
  db_online w = true ->
  current_user !! "username" = Some username ->
  match Collection.find_one [("username", username)] (admin_users_collection w) with
  | Some user =>
      exists body : document,
        (get_current_user_info current_user w).1 = Ok body
        /\ body !! "hashed_password" = None
        /\ body !! "_id" = None
        /\ forall k : string,
             k <> "hashed_password" -> k <> "_id" -> body !! k = user !! k
  | None =>
      (get_current_user_info current_user w).1 = Raise (HTTPException 404 "User not found" [])
  end.
Proof.
  intros Hdb Hname. unfold get_current_user_info.
  erewrite bind_ok; [|by apply subscript_present].
  erewrite bind_ok; [|by apply find_admin_online].
  destruct (Collection.find_one _ _) as [user|] eqn:Hfind; [|reflexivity].
  erewrite bind_ok; [|by eapply unless_found_found].
  eexists. split; [reflexivity|].
  split; [by rewrite lookup_delete_ne, lookup_delete_eq|].
  split; [by rewrite lookup_delete_eq|].
  intros k Hk1 Hk2. by rewrite !lookup_delete_ne.
Qed.

(** X3: an account whose stored [is_active] is false, None, 0 or the empty
    string cannot log in, and says so only to a caller who has the password:
    with the right password the answer is 400 "Inactive user", with a wrong
    one it is the 401 of every failed login. *)
Theorem inactive_account_login (credentials : AdminUserLogin.t) (w : world)
  (user : document) (stored flag : value) :
  db_online w = true ->
  Collection.find_one [("username", VStr (AdminUserLogin.username credentials))]
    (admin_users_collection w) = Some user ->
  user !! "hashed_password" = Some stored ->
  user !! "is_active" = Some flag ->
  truthy flag = false ->
  (login credentials w).1 =
    if verify_password (AdminUserLogin.password credentials) stored
    then Raise (HTTPException 400 "Inactive user" [])
    else Raise (HTTPException 401 "Incorrect username or password"
                  [("WWW-Authenticate", "Bearer")]).
Proof.
  intros Hdb Hfind Hhash Hflag Hfalsy. unfold login.
  erewrite bind_ok; [|by apply find_admin_online].
  rewrite Hfind.
  erewrite bind_ok; [|by eapply unless_found_found].
  erewrite bind_ok; [|by apply subscript_present].
  destruct (verify_password _ stored); simpl; [|reflexivity].
  unfold dict_get. by rewrite Hflag, Hfalsy.
Qed.

(** X4: an account that was just registered can log in.  When the hasher
    verifies the password against the hash it made of it, a login with the
    username and password of a successful registration succeeds, and its
    token carries that username and the id the registration returned. *)
Theorem register_then_login (user : AdminUserCreate.t) (w : world) :
  db_online w = true ->
  Collection.find_one [("username", VStr (AdminUserCreate.username user))]
    (admin_users_collection w) = None ->
  Collection.find_one [("email", VStr (AdminUserCreate.email user))]
    (admin_users_collection w) = None ->
  verify_password (AdminUserCreate.password user)
    (VStr (password_hash (entropy w (drawn w)) (AdminUserCreate.password user))) = true ->
  exists (admin_obj : AdminUser.t) (w1 : world),
    register_admin user w = (Ok admin_obj, w1)
    /\ login {| AdminUserLogin.username := AdminUserCreate.username user;
                AdminUserLogin.password := AdminUserCreate.password user |} w1
       = (Ok {| Token.access_token :=
                  issue_token
                    {[ "sub" := VStr (AdminUserCreate.username user);
                       "user_id" := VStr (AdminUser.id admin_obj) ]}
                    (timedelta_minutes 1440) (utc_clock w1);
                Token.token_type := "bearer" |}, w1).
Proof.
  intros Hdb Hu He Hverify.
  pose proof (register_admin_fresh user w Hdb Hu He) as Hreg. cbv zeta in Hreg.
  eexists _, _. split; [exact Hreg|].
  unfold login.
  erewrite bind_ok; [|by apply find_admin_online].
  simpl.
  fold (Collection.insert_one
          (AdminUser.dict
             {| AdminUser.id := entropy w (S (drawn w));
                AdminUser.username := AdminUserCreate.username user;
                AdminUser.email := AdminUserCreate.email user;
                AdminUser.hashed_password :=
                  password_hash (entropy w (drawn w)) (AdminUserCreate.password user);
                AdminUser.full_name := AdminUserCreate.full_name user;
                AdminUser.is_active := true;
                AdminUser.is_superuser := false;
                AdminUser.created_at := utc_clock w |})
          (admin_users_collection w)).
  rewrite (find_one_insert_one _ _ _ Hu), !bson_AdminUser_dict.
  match goal with
  | |- context [matches ?q ?d] =>
      assert (matches q d = true) as -> by (apply matches_single; reflexivity)
  end.
  erewrite bind_ok;
    [|unfold unless_found;
      by rewrite (lookup_truthy _ "username" _ (AdminUser_dict_username _))].
  erewrite bind_ok;
    [|apply (subscript_present _ _
               (VStr (password_hash (entropy w (drawn w))
                        (AdminUserCreate.password user)))); reflexivity].
  simpl. rewrite Hverify. simpl.
  reflexivity.
Qed.

End AccountProps.

(** ** Invariants of the account store *)

Lemma field_values_snoc (k : string) (c : list document) (d : document) :
  field_values k (c ++ [d])%list =
  (field_values k c ++ match d !! k with Some v => [v] | None => [] end)%list.
Proof.
  unfold field_values. rewrite omap_app. simpl. by destruct (d !! k).
Qed.

Lemma find_one_none_values (k : string) (v : value) (c : list document) :
  Collection.find_one [(k, v)] c = None -> v ∉ field_values k c.
Proof.
  unfold Collection.find_one, field_values.
  induction c as [|d c IH]; simpl; [intros _; apply not_elem_of_nil|].
  rewrite andb_true_r. case_bool_decide as Hd; [done|].
  intros Hnone. specialize (IH Hnone).
  destruct (d !! k) as [x|]; [|done].
  apply not_elem_of_cons. split; [congruence|done].
Qed.

Lemma unique_field_snoc (k : string) (v : value) (c : list document) (d : document) :
  unique_field k c ->
  Collection.find_one [(k, v)] c = None ->
  d !! k = Some v ->
  unique_field k (c ++ [d])%list.
Proof.
  unfold unique_field. intros Hc Hnone Hd.
  rewrite field_values_snoc, Hd.
  apply NoDup_app. split; [done|]. split; [|apply NoDup_singleton].
  intros x Hx Hx'. apply list_elem_of_singleton in Hx' as ->.
  by apply (find_one_none_values _ _ _ Hnone).
Qed.

Lemma update_one_erase (erase : document -> document) (q : filter_doc)
  (fields : document) (c : list document) :
  (forall d : document, erase (bson fields ∪ d) = erase d) ->
  erase <$> (Collection.update_one q fields c).1 = erase <$> c.
Proof.
  intros Herase. induction c as [|d c IH]; [done|].
  cbn [Collection.update_one]. destruct (matches q d); csimpl.
  - by rewrite Herase.
  - by rewrite IH.
Qed.

Lemma delete_set_field (k : string) (v : value) (d : document) :
  delete k ({[ k := v ]} ∪ d) = delete k d.
Proof.
  apply map_eq. intros i. destruct (decide (i = k)) as [->|Hne].
  - by rewrite !lookup_delete_eq.
  - rewrite !lookup_delete_ne by done.
    rewrite lookup_union_r; [done|]. by rewrite lookup_singleton_ne.
Qed.

Section AccountInvariants.
Context `{Auth}.

(** What a registration does to the account store: nothing, or it appends
    one document with the requested username and email, neither of which
    was stored. *)
Lemma register_admin_store (user : AdminUserCreate.t) (w : world) :
  admin_users_collection (register_admin user w).2 = admin_users_collection w
  \/ exists d : document,
       admin_users_collection (register_admin user w).2
         = (admin_users_collection w ++ [d])%list
       /\ d !! "username" = Some (VStr (AdminUserCreate.username user))
       /\ d !! "email" = Some (VStr (AdminUserCreate.email user))
       /\ d !! "password" = None
       /\ d !! "is_active" = Some (VBool true)
       /\ d !! "is_superuser" = Some (VBool false)
       /\ Collection.find_one [("username", VStr (AdminUserCreate.username user))]
            (admin_users_collection w) = None
       /\ Collection.find_one [("email", VStr (AdminUserCreate.email user))]
            (admin_users_collection w) = None.
Proof.
  destruct (db_online w) eqn:Hdb.
  - destruct (Collection.find_one [("username", VStr (AdminUserCreate.username user))]
                (admin_users_collection w)) as [d|] eqn:Hu.
    { left. unfold register_admin.
      erewrite bind_ok; [|by apply find_admin_online].
      by rewrite Hu, (found_truthy _ _ _ _ Hu). }
    destruct (Collection.find_one [("email", VStr (AdminUserCreate.email user))]
                (admin_users_collection w)) as [d|] eqn:He.
    { left. unfold register_admin.
      erewrite bind_ok; [|by apply find_admin_online].
      rewrite Hu. simpl.
      erewrite bind_ok; [|by apply find_admin_online].
      by rewrite He, (found_truthy _ _ _ _ He). }
    right. rewrite (register_admin_fresh user w Hdb Hu He). simpl.
    eexists. split; [reflexivity|]. repeat split; reflexivity || done.
  - left. unfold register_admin, admin_users.find_one, storage, mbind, M_bind.
    by rewrite Hdb.
Qed.

(** One call that runs from its first look-up to its end with no other
    call in between keeps usernames and emails unique. *)
Lemma register_admin_unique (user : AdminUserCreate.t) (w : world) :
  unique_field "username" (admin_users_collection w) ->
  unique_field "email" (admin_users_collection w) ->
  unique_field "username" (admin_users_collection (register_admin user w).2)
  /\ unique_field "email" (admin_users_collection (register_admin user w).2).
Proof.
  intros Hu He.
  destruct (register_admin_store user w)
    as [->|(d & -> & Hdu & Hde & _ & _ & _ & Hnu & Hne)]; [done|].
  split; by eapply unique_field_snoc.
Qed.

(** X5: registration calls that run one after another keep usernames and
    emails unique: in a store where no two accounts share a username and no
    two share an email, that is still so after any sequence of registration
    calls, accepted or refused, each of which ran to its end before the
    next one started.  Calls that overlap do not keep it. *)
Theorem register_keeps_unique (users : list AdminUserCreate.t) (w : world) :
  unique_field "username" (admin_users_collection w) ->
  unique_field "email" (admin_users_collection w) ->
  unique_field "username"
    (admin_users_collection (one_after_another register_admin users w))
  /\ unique_field "email"
       (admin_users_collection (one_after_another register_admin users w)).
Proof.
  revert w. induction users as [|user users IH]; intros w Hu He; [done|].
  cbn [one_after_another foldl].
  destruct (register_admin_unique user w Hu He) as [Hu' He'].
  exact (IH _ Hu' He').
Qed.

Lemma register_admin_lookups_fresh (user : AdminUserCreate.t) (w : world) :
  db_online w = true ->
  Collection.find_one [("username", VStr (AdminUserCreate.username user))]
    (admin_users_collection w) = None ->
  Collection.find_one [("email", VStr (AdminUserCreate.email user))]
    (admin_users_collection w) = None ->
  register_admin_lookups user w = (Ok tt, w).
Proof.
  intros Hdb Hu He. unfold register_admin_lookups.
  erewrite bind_ok; [|by apply find_admin_online].
  rewrite Hu. simpl.
  erewrite bind_ok; [|by apply find_admin_online].
  by rewrite He.
Qed.

Lemma register_admin_insert_online (user : AdminUserCreate.t) (w : world) :
  db_online w = true ->
  let admin_obj :=
    {| AdminUser.id := entropy w (S (drawn w));
       AdminUser.username := AdminUserCreate.username user;
       AdminUser.email := AdminUserCreate.email user;
       AdminUser.hashed_password :=
         password_hash (entropy w (drawn w)) (AdminUserCreate.password user);
       AdminUser.full_name := AdminUserCreate.full_name user;
       AdminUser.is_active := true;
       AdminUser.is_superuser := false;
       AdminUser.created_at := utc_clock w |} in
  register_admin_insert user w =
    (Ok admin_obj,
     set_admin_users (admin_users_collection w ++ [bson (AdminUser.dict admin_obj)])
       (set_drawn (S (S (drawn w))) w)).
Proof.
  intros Hdb admin_obj. unfold register_admin_insert, get_password_hash.
  erewrite bind_ok; [|reflexivity].
  erewrite bind_ok; [|apply AdminUser_new_admin_dict].
  erewrite bind_ok; [|unfold admin_users.insert_one; by apply storage_online].
  reflexivity.
Qed.

(** X30: registration calls that overlap can leave two accounts of one
    username.  [register_admin] is its two look-ups followed by its insert,
    with an [await] at each of them; when two calls with the same username,
    neither username nor emails stored yet, overlap so that both have their
    look-ups answered before either insert reaches the store, both succeed,
    both accounts are stored, and usernames are no longer unique. *)
Theorem register_overlap_duplicates (first second : AdminUserCreate.t) (w : world) :
  db_online w = true ->
  AdminUserCreate.username second = AdminUserCreate.username first ->
  Collection.find_one [("username", VStr (AdminUserCreate.username first))]
    (admin_users_collection w) = None ->
  Collection.find_one [("email", VStr (AdminUserCreate.email first))]
    (admin_users_collection w) = None ->
  Collection.find_one [("email", VStr (AdminUserCreate.email second))]
    (admin_users_collection w) = None ->
  (forall (user : AdminUserCreate.t) (w0 : world),
     register_admin user w0
       = (register_admin_lookups user;; register_admin_insert user) w0)
  /\ exists (a b : AdminUser.t) (w' : world),
       register_admin_overlapping first second w = (Ok (a, b), w')
       /\ admin_users_collection w'
          = (admin_users_collection w
               ++ [bson (AdminUser.dict a); bson (AdminUser.dict b)])%list
       /\ AdminUser.username a = AdminUserCreate.username first
       /\ AdminUser.username b = AdminUserCreate.username first
       /\ ~ unique_field "username" (admin_users_collection w').
Proof.
  intros Hdb Hsame Hu He1 He2. split.
  { intros user w0.
    unfold register_admin, register_admin_lookups, register_admin_insert,
      mbind, M_bind, raise, mret, M_ret.
    destruct (admin_users.find_one _ w0) as [[existing|e] w1]; [|done].
    destruct (truthy_doc existing); [done|].
    destruct (admin_users.find_one _ w1) as [[existing_email|e] w2]; [|done].
    by destruct (truthy_doc existing_email). }
  unfold register_admin_overlapping.
  erewrite bind_ok; [|by apply register_admin_lookups_fresh].
  erewrite bind_ok;
    [|apply register_admin_lookups_fresh; [done| by rewrite Hsame |done]].
  erewrite bind_ok; [|by apply register_admin_insert_online].
  erewrite bind_ok; [|by apply register_admin_insert_online].
  eexists _, _, _. split; [reflexivity|].
  cbn [admin_users_collection set_admin_users set_drawn].
  split; [by rewrite <- app_assoc|].
  split; [reflexivity|]. split; [exact Hsame|].
  unfold unique_field, field_values. rewrite <- app_assoc, omap_app.
  intros Hnodup. apply NoDup_app in Hnodup as (_ & _ & Hpair).
  cbn [omap list_omap] in Hpair.
  rewrite !bson_AdminUser_dict in Hpair.
  change (NoDup [VStr (AdminUserCreate.username first);
                 VStr (AdminUserCreate.username second)]) in Hpair.
  rewrite Hsame in Hpair.
  apply NoDup_cons in Hpair as [Hnot _]. apply Hnot, list_elem_of_here.
Qed.

(** X6: what registration adds.  Every call leaves the accounts already
    stored as they are, in place, and a call that adds an account adds one
    that is active, is no superuser and has no "password" entry, whatever
    the request holds. *)
Theorem register_adds_plain_account (user : AdminUserCreate.t) (w : world) :
  exists added : list document,
    admin_users_collection (register_admin user w).2
      = (admin_users_collection w ++ added)%list
    /\ (length added <= 1)%nat
    /\ forall d : document,
         d ∈ added ->
         d !! "is_active" = Some (VBool true)
         /\ d !! "is_superuser" = Some (VBool false)
         /\ d !! "password" = None.
Proof.
  destruct (register_admin_store user w)
    as [->|(d & -> & _ & _ & Hp & Ha & Hs & _)].
  - exists []. rewrite app_nil_r. split; [done|]. split; [simpl; lia|].
    intros d Hd. by apply elem_of_nil in Hd.
  - exists [d]. split; [done|]. split; [simpl; lia|].
    intros d' Hd'. by apply list_elem_of_singleton in Hd' as ->.
Qed.

(** X7: a password change touches nothing but password hashes: whatever
    the request and its outcome, the account store with the
    "hashed_password" entries left out is the same before and after, and
    the bookings are as they were. *)
Theorem change_password_frame (password_data : PasswordChange.t) (current_user : document)
  (w : world) :
  without "hashed_password"
    (admin_users_collection (change_password password_data current_user w).2)
  = without "hashed_password" (admin_users_collection w)
  /\ bookings_collection (change_password password_data current_user w).2
     = bookings_collection w.
Proof.
  unfold change_password, get_password_hash, urandom, admin_users.find_one,
    admin_users.update_one, storage, unless_found, subscript, raise,
    mbind, M_bind, mret, M_ret.
  handler_cases; try (split; reflexivity).
  split; [|reflexivity].
  unfold without. apply update_one_erase. intros d.
  rewrite bson_singleton. apply delete_set_field.
Qed.

End AccountInvariants.

Section PasswordLoginProps.
Context `{Auth}.

Lemma login_active (credentials : AdminUserLogin.t) (w : world)
  (user : document) (stored user_id : value) :
  db_online w = true ->
  Collection.find_one [("username", VStr (AdminUserLogin.username credentials))]
    (admin_users_collection w) = Some user ->
  user !! "hashed_password" = Some stored ->
  user !! "id" = Some user_id ->
  truthy (dict_get user "is_active" (VBool true)) = true ->
  login credentials w =
    if verify_password (AdminUserLogin.password credentials) stored
    then (Ok {| Token.access_token :=
                  issue_token
                    {[ "sub" := VStr (AdminUserLogin.username credentials);
                       "user_id" := user_id ]}
                    (timedelta_minutes 1440) (utc_clock w);
                Token.token_type := "bearer" |}, w)
    else (Raise (HTTPException 401 "Incorrect username or password"
                   [("WWW-Authenticate", "Bearer")]), w).
Proof.
  intros Hdb Hfind Hhash Hid Hact. unfold login.
  erewrite bind_ok; [|by apply find_admin_online].
  rewrite Hfind.
  erewrite bind_ok; [|by eapply unless_found_found].
  erewrite bind_ok; [|by apply subscript_present].
  destruct (verify_password _ stored); simpl; [|reflexivity].
  rewrite Hact. simpl.
  erewrite bind_ok; [|apply subscript_present, (found_lookup _ _ _ _ Hfind)].
  erewrite bind_ok; [|by apply subscript_present].
  reflexivity.
Qed.

(** X8: after a password change the new password is the one that counts.
    For an active account, once a change went through, a login is decided by
    checking the password given against the new hash alone: with a password
    that verifies against it the login succeeds with the account's id, with
    one that does not it is the 401. *)
Theorem change_password_then_login (password_data : PasswordChange.t) (name attempt : string)
  (w : world) (user : document) (stored user_id : value) :
  db_online w = true ->
  Collection.find_one [("username", VStr name)] (admin_users_collection w) = Some user ->
  user !! "hashed_password" = Some stored ->
  user !! "id" = Some user_id ->
  truthy (dict_get user "is_active" (VBool true)) = true ->
  verify_password (PasswordChange.current_password password_data) stored = true ->
  (6 <= len (PasswordChange.new_password password_data))%nat ->
  PasswordChange.current_password password_data
    <> PasswordChange.new_password password_data ->
  let w1 := (change_password password_data {[ "username" := VStr name ]} w).2 in
  let new_hash :=
    VStr (password_hash (entropy w (drawn w)) (PasswordChange.new_password password_data)) in
  login {| AdminUserLogin.username := name; AdminUserLogin.password := attempt |} w1 =
    if verify_password attempt new_hash
    then (Ok {| Token.access_token :=
                  issue_token {[ "sub" := VStr name; "user_id" := user_id ]}
                    (timedelta_minutes 1440) (utc_clock w);
                Token.token_type := "bearer" |}, w1)
    else (Raise (HTTPException 401 "Incorrect username or password"
                   [("WWW-Authenticate", "Bearer")]), w1).
Proof.
  intros Hdb Hfind Hhash Hid Hact Hcur Hlen Hne w1 new_hash.
  assert (w1 = set_admin_users
                 (Collection.update_one [("username", VStr name)]
                    {[ "hashed_password" := new_hash ]} (admin_users_collection w)).1
                 (set_drawn (S (drawn w)) w)) as Hw1.
  { subst w1. unfold change_password.
    erewrite bind_ok; [|by apply subscript_present].
    erewrite bind_ok; [|by apply find_admin_online].
    rewrite Hfind.
    erewrite bind_ok; [|by eapply unless_found_found].
    erewrite bind_ok; [|by apply subscript_present].
    rewrite Hcur. simpl.
    destruct (Nat.ltb_spec (len (PasswordChange.new_password password_data)) 6)
      as [Hlt|_]; [lia|].
    destruct (String.eqb_spec (PasswordChange.current_password password_data)
                (PasswordChange.new_password password_data)) as [Heq|_]; [done|].
    unfold get_password_hash.
    erewrite bind_ok; [|reflexivity].
    erewrite bind_ok; [|by apply subscript_present].
    erewrite bind_ok; [|unfold admin_users.update_one; by apply storage_online].
    reflexivity. }
  assert (Collection.find_one [("username", VStr name)] (admin_users_collection w1)
          = Some ({[ "hashed_password" := new_hash ]} ∪ user)) as Hfind1.
  { rewrite Hw1. cbn [admin_users_collection set_admin_users set_drawn].
    pose proof (find_one_update_one [("username", VStr name)]
                  {[ "hashed_password" := new_hash ]} _ _ Hfind) as Hup.
    rewrite bson_singleton in Hup. apply Hup.
    apply matches_single, lookup_union_Some_raw. right.
    split; [by rewrite lookup_singleton_ne|apply (found_lookup _ _ _ _ Hfind)]. }
  assert (utc_clock w1 = utc_clock w) as Hclock by (by rewrite Hw1).
  rewrite <- Hclock.
  apply (login_active {| AdminUserLogin.username := name; AdminUserLogin.password := attempt |}
           w1 ({[ "hashed_password" := new_hash ]} ∪ user) new_hash user_id).
  - by rewrite Hw1.
  - exact Hfind1.
  - apply lookup_union_Some_raw. left. apply lookup_singleton_eq.
  - apply lookup_union_Some_raw. right. split; [by rewrite lookup_singleton_ne|done].
  - unfold dict_get in *. rewrite lookup_union_r; [done|]. by rewrite lookup_singleton_ne.
Qed.

End PasswordLoginProps.

(** ** Models and documents *)

Lemma Booking_new_dict (b : Booking.t) (w : world) :
  Booking.new (Booking.dict b) w = (Ok b, w).
Proof. destruct b as [i n e p t d g [m|] s c]; reflexivity. Qed.

Lemma AdminUser_new_dict (u : AdminUser.t) (w : world) :
  AdminUser.new (AdminUser.dict u) w = (Ok u, w).
Proof. destruct u as [i n e h [f|] a s c]; reflexivity. Qed.

(** X9: a model written out as a document and read back is the same model:
    building a [Booking] or an [AdminUser] from the dict of one gives that
    one back, and draws neither an id nor the clock. *)
Theorem model_dict_round_trip (b : Booking.t) (u : AdminUser.t) (w : world) :
  Booking.new (Booking.dict b) w = (Ok b, w)
  /\ AdminUser.new (AdminUser.dict u) w = (Ok u, w).
Proof. split; [apply Booking_new_dict|apply AdminUser_new_dict]. Qed.

(** ** Bookings, further *)

(** X10: reading one enquiry only reads: [get_booking] leaves the world as it
    was on every input, and for an id that no stored enquiry has it answers
    404 "Booking not found". *)
Theorem get_booking_reads (booking_id : string) (w : world) :
  (get_booking booking_id w).2 = w
  /\ (db_online w = true ->
      Collection.find_one [("id", VStr booking_id)] (bookings_collection w) = None ->
      (get_booking booking_id w).1 = Raise (HTTPException 404 "Booking not found" [])).
Proof.
  split.
  - unfold get_booking, bookings.find_one, storage, mbind, M_bind.
    destruct (db_online w); [|reflexivity]. simpl.
    destruct (Collection.find_one _ _) as [d|] eqn:Hfind; [|reflexivity].
    rewrite (unless_found_found _ _ _ _ _ _ Hfind).
    unfold Booking.new, field_str_default.
    rewrite (found_lookup _ _ _ _ Hfind).
    unfold field_str, field_int, field_opt_str, field_date_default, utcnow, raise,
      mbind, M_bind, mret, M_ret.
    handler_cases; reflexivity.
  - intros Hdb Hnone. unfold get_booking.
    erewrite bind_ok; [|by apply find_booking_online].
    by rewrite Hnone.
Qed.

Lemma update_one_length (q : filter_doc) (fields : document) (c : list document) :
  length (Collection.update_one q fields c).1 = length c.
Proof.
  induction c as [|d c IH]; [done|].
  cbn [Collection.update_one]. destruct (matches q d); simpl; [done|by rewrite IH].
Qed.

(** What a status update does to the world: nothing, or it sets a valid
    status and the time on the first enquiry of that id. *)
Lemma update_booking_status_store (booking_id status : string) (w : world) :
  (update_booking_status booking_id status w).2 = w
  \/ status ∈ ["pending"; "approved"; "rejected"]
     /\ (update_booking_status booking_id status w).2 =
          set_bookings
            (Collection.update_one [("id", VStr booking_id)]
               {[ "status" := VStr status; "updated_at" := VDate (utc_clock w) ]}
               (bookings_collection w)).1 w.
Proof.
  unfold update_booking_status.
  case_bool_decide as Hstatus; simpl; [|by left].
  unfold bookings.update_one, bookings.find_one, storage, utcnow, mbind, M_bind.
  destruct (db_online w) eqn:Hdb; simpl; [|by left].
  right. split; [done|].
  destruct (modified_count _ =? 0)%nat; simpl; [reflexivity|].
  rewrite Hdb. simpl.
  destruct (Collection.find_one _ _) as [d|] eqn:Hfind; [|reflexivity].
  unfold Booking.new, field_str_default.
  rewrite (found_lookup _ _ _ _ Hfind).
  unfold field_str, field_int, field_opt_str, field_date_default, utcnow, raise,
    mbind, M_bind, mret, M_ret.
  handler_cases; reflexivity.
Qed.

Lemma delete2_set_fields (k1 k2 : string) (v1 v2 : value) (d : document) :
  delete k1 (delete k2 ({[ k1 := v1; k2 := v2 ]} ∪ d)) = delete k1 (delete k2 d).
Proof.
  apply map_eq. intros i.
  destruct (decide (i = k1)) as [->|H1]; [by rewrite !lookup_delete_eq|].
  rewrite !(lookup_delete_ne _ k1) by done.
  destruct (decide (i = k2)) as [->|H2]; [by rewrite !lookup_delete_eq|].
  rewrite !(lookup_delete_ne _ k2) by done.
  rewrite lookup_union_r; [done|].
  rewrite lookup_insert_ne by done. by rewrite lookup_singleton_ne.
Qed.

(** X11: a status update changes nothing but the status and the update time:
    on every input and with every outcome, the bookings with their "status"
    and "updated_at" entries left out are the same before and after, in the
    same order, and the accounts are as they were; no enquiry is added or
    removed, and ids and creation times stay. *)
Theorem update_booking_status_frame (booking_id status : string) (w : world) :
  let w' := (update_booking_status booking_id status w).2 in
  without "status" (without "updated_at" (bookings_collection w'))
    = without "status" (without "updated_at" (bookings_collection w))
  /\ length (bookings_collection w') = length (bookings_collection w)
  /\ admin_users_collection w' = admin_users_collection w.
Proof.
  cbv zeta.
  destruct (update_booking_status_store booking_id status w) as [->|[_ ->]]; [done|].
  simpl. split; [|split; [apply update_one_length|done]].
  unfold without. rewrite <- !list_fmap_compose.
  apply update_one_erase. intros d. rewrite bson_status_fields.
  apply delete2_set_fields.
Qed.

Lemma update_one_Forall (P : document -> Prop) (q : filter_doc) (fields : document)
  (c : list document) :
  (forall d : document, P d -> P (bson fields ∪ d)) ->
  Forall P c -> Forall P (Collection.update_one q fields c).1.
Proof.
  intros Hkeep. induction 1 as [|d c Hd Hc IH]; [constructor|].
  cbn [Collection.update_one]. destruct (matches q d); simpl; constructor; auto.
Qed.

(** X12: status updates keep every stored status among "pending", "approved"
    and "rejected": if all stored enquiries have one of these, they still do
    after any call of [update_booking_status], whatever status it asked
    for. *)
Theorem update_booking_status_keeps_valid (booking_id status : string) (w : world) :
  Forall status_valid (bookings_collection w) ->
  Forall status_valid (bookings_collection (update_booking_status booking_id status w).2).
Proof.
  intros Hvalid.
  destruct (update_booking_status_store booking_id status w) as [->|[Hstatus ->]]; [done|].
  simpl. apply update_one_Forall; [|done].
  intros d _. exists status. split; [|done].
  rewrite bson_status_fields.
  apply lookup_union_Some_raw. left. reflexivity.
Qed.

(** ** The mailer, further *)

Lemma smtp_added_app (w w' : world) (added : list smtp_event) :
  smtp_trace w' = (smtp_trace w ++ added)%list -> smtp_added w w' = added.
Proof. intros E. unfold smtp_added. rewrite E. apply drop_app_length. Qed.

Ltac trace_added :=
  apply smtp_added_app; simpl; rewrite <- ?app_assoc; simpl;
  first [reflexivity | by rewrite app_nil_r].

Section MailerProps.

Variable cfg : email_config.
Variables html_template text_template : document -> value -> string.
Variable strftime : Z -> string.
Variable str : value -> string.
Variable as_string : mime_message -> option exn.

(** The steps of a session of [send_email], as the server's answers decide
    them. *)
Lemma send_email_session (to_email subject html_body : string)
  (text_body : option string) (w : world) :
  smtp_configured cfg = true ->
  let msg := make_message cfg to_email subject html_body text_body in
  smtp_added w (send_email cfg as_string to_email subject html_body text_body w).2 =
    EvConnect (SMTP_HOST cfg) (SMTP_PORT cfg) ::
    match on_connect (smtp w) with
    | Some _ => []
    | None =>
        (EvStartTLS ::
         if match on_starttls (smtp w) with
            | Some e => is_SMTPException e
            | None => true
            end
         then
           EvLogin (SMTP_USERNAME cfg) (SMTP_PASSWORD cfg) ::
           match on_login (smtp w) with
           | Some _ => []
           | None =>
               match as_string msg with
               | Some _ => []
               | None => [EvSendmail (SMTP_FROM_EMAIL cfg) to_email msg]
               end
           end
         else []) ++ [EvQuit]
    end%list.
Proof.
  intros Hcfg msg. subst msg. unfold smtp_configured in Hcfg.
  unfold send_email. rewrite Hcfg. simpl.
  unfold with_SMTP, leaving_SMTP, sendmail, smtp_step, try_except, log, any_Exception,
    raise, mbind, M_bind, mret, M_ret.
  destruct (as_string _) as [ex|]; smtp_cases w; trace_added.
Qed.

Lemma send_email_unconfigured_added (to_email subject html_body : string)
  (text_body : option string) (w : world) :
  smtp_configured cfg = false ->
  smtp_added w (send_email cfg as_string to_email subject html_body text_body w).2 = [].
Proof.
  intros Hcfg. rewrite send_email_unconfigured by done.
  apply smtp_added_app. simpl. by rewrite app_nil_r.
Qed.

Lemma send_booking_notification_frame (booking : document) (w : world) :
  let w' :=
    (send_booking_notification cfg html_template text_template strftime str as_string booking w).2 in
  set_logs (logs w) (set_smtp_trace (smtp_trace w) w') = w
  /\ smtp_trace w `prefix_of` smtp_trace w'
  /\ logs w `prefix_of` logs w'.
Proof.
  cbv zeta. unfold send_booking_notification.
  destruct (nonempty (NOTIFICATION_EMAIL cfg)); simpl.
  - unfold send_email.
    destruct (forallb nonempty _); simpl.
    + unfold with_SMTP, leaving_SMTP, sendmail, smtp_step, try_except, log,
        any_Exception, raise, mbind, M_bind, mret, M_ret.
      destruct (as_string _) as [ex|]; smtp_cases w;
        (split; [reflexivity|split; repeat apply prefix_app_r; reflexivity]).
    + destruct w. split; [reflexivity|split; repeat apply prefix_app_r; reflexivity].
  - destruct w. split; [reflexivity|split; repeat apply prefix_app_r; reflexivity].
Qed.

Lemma send_booking_notification_returns (booking : document) (w : world) :
  exists (b : bool) (w' : world),
    send_booking_notification cfg html_template text_template strftime str as_string booking w
      = (Ok b, w').
Proof.
  unfold send_booking_notification.
  destruct (nonempty (NOTIFICATION_EMAIL cfg)); simpl; [|by eauto].
  apply send_email_returns.
Qed.

(** X13: the mailer changes nothing but the SMTP trace and the log, and only
    adds to those: after [send_booking_notification], on every input, the
    accounts, the bookings, the clock and the random source are as before, and
    the trace and the log before the call are prefixes of those after it. *)
Theorem mailer_frame (booking : document) (w : world) :
  let w' :=
    (send_booking_notification cfg html_template text_template strftime str as_string booking w).2 in
  set_logs (logs w) (set_smtp_trace (smtp_trace w) w') = w
  /\ smtp_trace w `prefix_of` smtp_trace w'
  /\ logs w `prefix_of` logs w'.
Proof. apply send_booking_notification_frame. Qed.

(** X14: a session that was opened is closed: with the SMTP settings in place,
    the first step [send_email] attempts is the connection, and once the
    server has accepted it the last step attempted is QUIT, whatever went
    wrong in between; when the connection is refused nothing else is
    attempted. *)
Theorem send_email_closes_session (to_email subject html_body : string)
  (text_body : option string) (w : world) :
  smtp_configured cfg = true ->
  let added := smtp_added w (send_email cfg as_string to_email subject html_body text_body w).2 in
  head added = Some (EvConnect (SMTP_HOST cfg) (SMTP_PORT cfg))
  /\ match on_connect (smtp w) with
     | None => last added = Some EvQuit
     | Some _ => added = [EvConnect (SMTP_HOST cfg) (SMTP_PORT cfg)]
     end.
Proof.
  intros Hcfg added. subst added. rewrite send_email_session by done.
  split; [reflexivity|].
  destruct (on_connect (smtp w)); [reflexivity|].
  rewrite app_comm_cons. apply last_snoc.
Qed.

(** X15: no mail leaves before the login went through, and none goes
    elsewhere: every message [send_email] hands to the server is handed over
    after the connection and the login were accepted, and is sent from
    [SMTP_FROM_EMAIL] to the address asked for. *)
Theorem send_email_sends_after_login (to_email subject html_body : string)
  (text_body : option string) (w : world) (from_addr to_addr : string) (msg : mime_message) :
  EvSendmail from_addr to_addr msg
    ∈ smtp_added w (send_email cfg as_string to_email subject html_body text_body w).2 ->
  smtp_configured cfg = true
  /\ on_connect (smtp w) = None
  /\ on_login (smtp w) = None
  /\ from_addr = SMTP_FROM_EMAIL cfg
  /\ to_addr = to_email
  /\ msg_to msg = to_email.
Proof.
  destruct (smtp_configured cfg) eqn:Hcfg.
  - rewrite send_email_session by done.
    destruct (on_connect (smtp w)); simpl.
    { intros Hin. apply list_elem_of_singleton in Hin. discriminate. }
    destruct (match on_starttls (smtp w) with
              | Some e => is_SMTPException e
              | None => true
              end); simpl.
    + destruct (on_login (smtp w)); [|destruct (as_string _)]; simpl; intros Hin;
        repeat (apply elem_of_cons in Hin as [Hin|Hin]; [try discriminate|]);
        try (by apply elem_of_nil in Hin).
      injection Hin as -> -> ->. done.
    + intros Hin.
      repeat (apply elem_of_cons in Hin as [Hin|Hin]; [try discriminate|]);
        by apply elem_of_nil in Hin.
  - rewrite send_email_unconfigured_added by done.
    intros Hin. by apply elem_of_nil in Hin.
Qed.

(** X16: a server without STARTTLS still gets the mail, when the message
    can be written out.  When STARTTLS raises an SMTP error and every other
    step goes through, [send_email] carries on on the same connection and
    logs in.  A message that [as_string] writes out is then sent and the
    result is True; for one that it refuses nothing is sent, the session is
    closed and the result is False. *)
Theorem send_email_without_starttls (to_email subject html_body : string)
  (text_body : option string) (w : world) (e : exn) :
  smtp_configured cfg = true ->
  smtp w = {| on_connect := None; on_starttls := Some e; on_login := None;
              on_sendmail := None; on_quit := None |} ->
  is_SMTPException e = true ->
  let msg := make_message cfg to_email subject html_body text_body in
  let r := send_email cfg as_string to_email subject html_body text_body w in
  match as_string msg with
  | None =>
      r.1 = Ok true
      /\ smtp_added w r.2 =
           [EvConnect (SMTP_HOST cfg) (SMTP_PORT cfg); EvStartTLS;
            EvLogin (SMTP_USERNAME cfg) (SMTP_PASSWORD cfg);
            EvSendmail (SMTP_FROM_EMAIL cfg) to_email msg; EvQuit]
  | Some _ =>
      r.1 = Ok false
      /\ smtp_added w r.2 =
           [EvConnect (SMTP_HOST cfg) (SMTP_PORT cfg); EvStartTLS;
            EvLogin (SMTP_USERNAME cfg) (SMTP_PASSWORD cfg); EvQuit]
  end.
Proof.
  intros Hcfg Hsmtp He msg r. subst r.
  rewrite send_email_result by done.
  rewrite send_email_session by done. fold msg.
  unfold transmission_fails. rewrite Hsmtp. simpl. rewrite He. simpl.
  by destruct (as_string msg).
Qed.

(** X17: False does not say the mail was not sent.  When the message can
    be written out, every step up to and including the sending goes through
    and the closing QUIT raises anything but a dropped connection,
    [send_email] returns False although the message was handed to the
    server. *)
Theorem send_email_false_after_sending (to_email subject html_body : string)
  (text_body : option string) (w : world) (e : exn) :
  smtp_configured cfg = true ->
  smtp w = {| on_connect := None; on_starttls := None; on_login := None;
              on_sendmail := None; on_quit := Some e |} ->
  let msg := make_message cfg to_email subject html_body text_body in
  as_string msg = None ->
  (send_email cfg as_string to_email subject html_body text_body w).1
    = Ok (is_SMTPServerDisconnected e)
  /\ EvSendmail (SMTP_FROM_EMAIL cfg) to_email msg
       ∈ smtp_added w (send_email cfg as_string to_email subject html_body text_body w).2.
Proof.
  intros Hcfg Hsmtp msg Hmsg. split.
  - rewrite send_email_result by done. fold msg. rewrite Hmsg.
    unfold transmission_fails. rewrite Hsmtp. simpl.
    by destruct (is_SMTPServerDisconnected e).
  - rewrite send_email_session by done. fold msg.
    rewrite Hsmtp. simpl. rewrite Hmsg. repeat constructor.
Qed.

Lemma create_booking_online (notify : document -> M bool) (booking : BookingCreate.t)
  (w : world) :
  db_online w = true ->
  let booking_obj :=
    {| Booking.id := entropy w (drawn w);
       Booking.name := BookingCreate.name booking;
       Booking.email := BookingCreate.email booking;
       Booking.phone := BookingCreate.phone booking;
       Booking.event_type := BookingCreate.event_type booking;
       Booking.date := BookingCreate.date booking;
       Booking.guests := BookingCreate.guests booking;
       Booking.message := BookingCreate.message booking;
       Booking.status := "pending";
       Booking.created_at := utc_clock w |} in
  let persisted :=
    set_bookings (bookings_collection w ++ [bson (Booking.dict booking_obj)])
      (set_drawn (S (drawn w)) w) in
  forall (b : bool) (w' : world),
    notify (Booking.dict booking_obj) persisted = (Ok b, w') ->
    create_booking notify booking w = (Ok booking_obj, w').
Proof.
  intros Hdb booking_obj persisted b w' Hnotify.
  subst persisted booking_obj. unfold create_booking.
  erewrite bind_ok; [|apply Booking_new_create].
  erewrite bind_ok; [|unfold bookings.insert_one; by apply storage_online].
  unfold Collection.insert_one, mbind, M_bind, try_except.
  cbn [fst snd bookings_collection set_drawn].
  cbn [fst snd bookings_collection set_drawn] in Hnotify. by rewrite Hnotify.
Qed.

Lemma create_booking_offline (notify : document -> M bool) (booking : BookingCreate.t)
  (w : world) :
  db_online w = false ->
  create_booking notify booking w
    = (Raise (PyMongoError "server unreachable"), set_drawn (S (drawn w)) w).
Proof.
  intros Hdb. unfold create_booking.
  erewrite bind_ok; [|apply Booking_new_create].
  unfold mbind, M_bind, bookings.insert_one, storage. simpl. by rewrite Hdb.
Qed.

(** X18: an enquiry that was submitted can be read back, to the
    millisecond.  With the mailer of [email_service] as notifier, when a
    submission returns an enquiry [b] whose id no stored enquiry had, [b] is
    pending and was created at the time of the clock; the bookings are as
    they were with the document of [b] appended as the store keeps it,
    whatever the mail server did; and [get_booking] on the id of [b] then
    returns [b] with its creation time cut to milliseconds, which is [b]
    itself only when the clock stood at a whole millisecond. *)
Theorem booking_round_trip (booking : BookingCreate.t) (w w1 : world) (b : Booking.t) :
  create_booking
    (send_booking_notification cfg html_template text_template strftime str as_string)
    booking w = (Ok b, w1) ->
  Collection.find_one [("id", VStr (Booking.id b))] (bookings_collection w) = None ->
  Booking.status b = "pending"
  /\ Booking.created_at b = utc_clock w
  /\ bookings_collection w1 = (bookings_collection w ++ [bson (Booking.dict b)])%list
  /\ get_booking (Booking.id b) w1 = (Ok (stored_Booking b), w1)
  /\ (stored_Booking b = b <-> utc_clock w mod 1000 = 0).
Proof.
  intros Hrun Hfresh.
  destruct (db_online w) eqn:Hdb;
    [|by rewrite create_booking_offline in Hrun].
  set (obj := {| Booking.id := entropy w (drawn w);
                 Booking.name := BookingCreate.name booking;
                 Booking.email := BookingCreate.email booking;
                 Booking.phone := BookingCreate.phone booking;
                 Booking.event_type := BookingCreate.event_type booking;
                 Booking.date := BookingCreate.date booking;
                 Booking.guests := BookingCreate.guests booking;
                 Booking.message := BookingCreate.message booking;
                 Booking.status := "pending";
                 Booking.created_at := utc_clock w |}).
  set (persisted := set_bookings (bookings_collection w ++ [bson (Booking.dict obj)])
                      (set_drawn (S (drawn w)) w)).
  destruct (send_booking_notification_returns (Booking.dict obj) persisted)
    as (b0 & w1' & Hsent).
  pose proof (send_booking_notification_frame (Booking.dict obj) persisted)
    as (Hframe & _ & _).
  cbv zeta in Hframe. rewrite Hsent in Hframe. simpl in Hframe.
  rewrite (create_booking_online _ booking w Hdb b0 w1' Hsent) in Hrun.
  injection Hrun as <- <-.
  split; [reflexivity|]. split; [reflexivity|].
  assert (bookings_collection w1' = Collection.insert_one (Booking.dict obj)
                                      (bookings_collection w)) as Hstore
    by exact (f_equal bookings_collection Hframe).
  assert (db_online w1' = true) as Hdb1
    by (rewrite <- Hdb; exact (f_equal db_online Hframe)).
  split; [exact Hstore|].
  split.
  - unfold get_booking.
    erewrite bind_ok; [|by apply find_booking_online].
    rewrite Hstore, (find_one_insert_one _ _ _ Hfresh), bson_Booking_dict.
    match goal with
    | |- context [matches ?q ?d] =>
        assert (matches q d = true) as -> by (apply matches_single; reflexivity)
    end.
    erewrite bind_ok;
      [|unfold unless_found;
        by rewrite (lookup_truthy (Booking.dict (stored_Booking obj)) "id"
                      (VStr (Booking.id obj)) eq_refl)].
    apply Booking_new_dict.
  - unfold stored_Booking, obj. cbn [Booking.created_at Booking.id Booking.name
      Booking.email Booking.phone Booking.event_type Booking.date Booking.guests
      Booking.message Booking.status].
    pose proof (Z.div_mod (utc_clock w) 1000 ltac:(lia)) as Hdiv.
    unfold millis. split.
    + intros Heq. injection Heq as Heq. lia.
    + intros Hmod. f_equal. lia.
Qed.

End MailerProps.

(** ** Sorted reads *)

Lemma insert_sorted_Permutation {A : Type} (leb : A -> A -> bool) (x : A) (l : list A) :
  insert_sorted leb x l ≡ₚ x :: l.
Proof.
  induction l as [|y l IH]; simpl; [done|].
  destruct (leb x y); [done|]. rewrite IH. apply Permutation_swap.
Qed.

Lemma sort_by_Permutation {A : Type} (leb : A -> A -> bool) (l : list A) :
  sort_by leb l ≡ₚ l.
Proof.
  induction l as [|x l IH]; simpl; [done|].
  rewrite insert_sorted_Permutation. by rewrite IH.
Qed.

Lemma insert_sorted_Sorted {A : Type} (leb : A -> A -> bool) (x : A) (l : list A) :
  (forall a b : A, leb a b = false -> leb b a = true) ->
  Sorted (fun a b => leb a b = true) l ->
  Sorted (fun a b => leb a b = true) (insert_sorted leb x l).
Proof.
  intros Htotal Hl. induction Hl as [|y l Hl IH Hhd]; simpl.
  - repeat constructor.
  - destruct (leb x y) eqn:Hxy.
    + constructor; [by constructor|by constructor].
    + constructor; [done|].
      destruct Hhd as [|z l' Hyz]; simpl.
      * constructor. by apply Htotal.
      * destruct (leb x z); constructor; [by apply Htotal|done].
Qed.

Lemma sort_by_Sorted {A : Type} (leb : A -> A -> bool) (l : list A) :
  (forall a b : A, leb a b = false -> leb b a = true) ->
  Sorted (fun a b => leb a b = true) (sort_by leb l).
Proof.
  intros Htotal. induction l as [|x l IH]; simpl; [constructor|].
  by apply insert_sorted_Sorted.
Qed.

Lemma Sorted_weaken {A : Type} (R1 R2 : A -> A -> Prop) (l : list A) :
  (forall a b : A, R1 a b -> R2 a b) -> Sorted R1 l -> Sorted R2 l.
Proof.
  intros Himpl. induction 1 as [|x l Hl IH Hhd]; constructor; [done|].
  destruct Hhd; constructor. by apply Himpl.
Qed.

Lemma insert_sorted_fmap {A B : Type} (f : A -> B) (lebA : A -> A -> bool)
  (lebB : B -> B -> bool) (x : A) (l : list A) :
  (forall a b : A, lebB (f a) (f b) = lebA a b) ->
  insert_sorted lebB (f x) (f <$> l) = f <$> insert_sorted lebA x l.
Proof.
  intros Hleb. induction l as [|y l IH]; csimpl; [done|].
  rewrite Hleb. destruct (lebA x y); csimpl; [done|by rewrite IH].
Qed.

Lemma sort_by_fmap {A B : Type} (f : A -> B) (lebA : A -> A -> bool)
  (lebB : B -> B -> bool) (l : list A) :
  (forall a b : A, lebB (f a) (f b) = lebA a b) ->
  sort_by lebB (f <$> l) = f <$> sort_by lebA l.
Proof.
  intros Hleb. induction l as [|x l IH]; [done|].
  change (insert_sorted lebB (f x) (sort_by lebB (f <$> l))
          = f <$> insert_sorted lebA x (sort_by lebA l)).
  rewrite IH. by apply insert_sorted_fmap.
Qed.

Lemma mapM_Booking_dict (bs : list Booking.t) (w : world) :
  mapM Booking.new (Booking.dict <$> bs) w = (Ok bs, w).
Proof.
  induction bs as [|b bs IH]; csimpl; [done|].
  erewrite bind_ok; [|apply Booking_new_dict].
  erewrite bind_ok; [|apply IH]. reflexivity.
Qed.

(** X19: the listing of enquiries is newest first and capped at 1000.  When
    the stored documents are those of the enquiries [bs], [get_bookings]
    returns the first 1000 of a rearrangement of [bs] in which every enquiry
    was created no earlier than the one after it, and leaves the world as it
    was. *)
Theorem get_bookings_newest_first (bs : list Booking.t) (w : world) :
  db_online w = true ->
  bookings_collection w = Booking.dict <$> bs ->
  exists sorted : list Booking.t,
    sorted ≡ₚ bs
    /\ Sorted (fun a b => Booking.created_at b <= Booking.created_at a) sorted
    /\ get_bookings w = (Ok (take 1000 sorted), w).
Proof.
  intros Hdb Hstore.
  exists (sort_by (fun a b => Booking.created_at b <=? Booking.created_at a) bs).
  split; [apply sort_by_Permutation|].
  split.
  - eapply Sorted_weaken; [|apply sort_by_Sorted].
    + intros a b Hab. by apply Z.leb_le.
    + intros a b Hab. apply Z.leb_le. apply Z.leb_gt in Hab. lia.
  - unfold get_booking, get_bookings.
    erewrite bind_ok; [|by apply storage_online].
    simpl. unfold find_sorted. rewrite Hstore.
    rewrite (sort_by_fmap Booking.dict
               (fun a b => Booking.created_at b <=? Booking.created_at a)).
    + rewrite <- fmap_take. apply mapM_Booking_dict.
    + intros a b. reflexivity.
Qed.

(** ** Stepping through handlers over the site *)

Lemma site_bind_ok {A B : Type} (m : Site A) (f : A -> Site B) (s s' : site) (a : A) :
  m s = (Ok a, s') -> (m ≫= f) s = f a s'.
Proof. intros E. unfold mbind, Site_bind. by rewrite E. Qed.

Lemma reading_online {A : Type} (name : string) (f : list document -> A) (s : site) :
  db_online (core s) = true -> reading name f s = (Ok (f (collection name s)), s).
Proof. intros E. unfold reading. by rewrite E. Qed.

Lemma writing_online {A : Type} (name : string) (op : list document -> A * list document)
  (s : site) :
  db_online (core s) = true ->
  writing name op s
    = (Ok (op (collection name s)).1, set_collection name (op (collection name s)).2 s).
Proof. intros E. unfold writing. by rewrite E. Qed.

Lemma collection_set (name : string) (c : list document) (s : site) :
  collection name (set_collection name c s) = c.
Proof. unfold collection, set_collection. simpl. by rewrite lookup_insert_eq. Qed.

Lemma lift_utcnow (s : site) : lift utcnow s = (Ok (utc_clock (core s)), s).
Proof. by destruct s. Qed.

(** ** Governance documents *)








Lemma delete_one_spec (q : filter_doc) (c : list document) :
  match Collection.find_one q c with
  | None => delete_one q c = (0%nat, c)
  | Some d =>
      exists before after : list document,
        c = (before ++ d :: after)%list
        /\ Collection.find_one q before = None
        /\ delete_one q c = (1%nat, (before ++ after)%list)
  end.
Proof.
  unfold Collection.find_one. induction c as [|x c IH]; [done|].
  cbn [find delete_one]. destruct (matches q x) eqn:Hx.
  - by exists [], c.
  - destruct (find (matches q) c) as [d|].
    + destruct IH as (before & after & -> & Hnone & ->).
      exists (x :: before), after. split; [done|]. split; [|done].
      cbn [find]. by rewrite Hx.
    + by rewrite IH.
Qed.

Lemma values_none_find_one (k : string) (v : value) (c : list document) :
  v ∉ field_values k c -> Collection.find_one [(k, v)] c = None.
Proof.
  unfold Collection.find_one, field_values. intros Hv.
  destruct (find (matches [(k, v)]) c) as [d|] eqn:Hfind; [|done].
  exfalso. apply Hv. apply find_some in Hfind as [Hd Hm].
  apply list_elem_of_omap. exists d. split; [by apply list_elem_of_In|].
  by apply matches_single.
Qed.

(** X22: deleting a document removes the first stored document of that id
    and nothing else: the others stay, in their order; when ids are distinct
    the id can no longer be found afterwards; and for an id that is not
    stored the answer is 404 "Document not found" with the collection as it
    was. *)
Theorem delete_document_removes_one (document_id : string) (s : site) :
  db_online (core s) = true ->
  let c := collection documents_collection s in
  let c' := collection documents_collection (delete_document document_id s).2 in
  match Collection.find_one [("id", VStr document_id)] c with
  | None =>
      (delete_document document_id s).1 = Raise (HTTPException 404 "Document not found" [])
      /\ c' = c
  | Some d =>
      (delete_document document_id s).1 = Ok tt
      /\ (exists before after : list document,
            c = (before ++ d :: after)%list /\ c' = (before ++ after)%list)
      /\ (unique_field "id" c ->
          Collection.find_one [("id", VStr document_id)] c' = None)
  end.
Proof.
  intros Hdb c c'. subst c'. unfold delete_document.
  erewrite site_bind_ok; [|by apply writing_online].
  fold c. pose proof (delete_one_spec [("id", VStr document_id)] c) as Hspec.
  destruct (Collection.find_one [("id", VStr document_id)] c) as [d|] eqn:Hfind.
  - destruct Hspec as (before & after & Hc & Hnone & ->). simpl.
    rewrite collection_set. split; [done|]. split; [by exists before, after|].
    unfold unique_field. rewrite Hc. unfold field_values. rewrite !omap_app. simpl.
    rewrite (found_lookup _ _ _ _ Hfind).
    intros Hunique. apply values_none_find_one.
    unfold field_values. rewrite omap_app.
    apply NoDup_app in Hunique as (_ & Hdisjoint & Hafter).
    apply NoDup_cons in Hafter as [Hnotin _].
    apply not_elem_of_app. split; [|done].
    intros Hin. apply (Hdisjoint _ Hin). left.
  - rewrite Hspec. simpl. by rewrite collection_set.
Qed.




(** ** Activities *)

Lemma bson_visibility_fields (visible : bool) (t : Z) :
  bson ({[ "is_visible" := VBool visible; "updated_at" := VDate t ]} : document)
    = {[ "is_visible" := VBool visible; "updated_at" := VDate (millis t) ]}.
Proof. unfold bson. by rewrite fmap_insert, map_fmap_singleton. Qed.

(** X24: the visibility switch.  For a stored activity, one call of
    [toggle_activity_visibility] stores and returns the opposite of the
    truth value of its "is_visible" entry, a missing entry counting as
    visible, and a second call stores that truth value itself; both keep
    every entry but "is_visible" and "updated_at".  For an id that is not
    stored the answer is 404 "Activity not found". *)
Theorem toggle_activity_visibility_twice (activity_id : string) (s : site) :
  db_online (core s) = true ->
  match Collection.find_one [("id", VStr activity_id)]
          (collection activities_collection s) with
  | None =>
      toggle_activity_visibility activity_id s
        = (Raise (HTTPException 404 "Activity not found" []), s)
  | Some d =>
      let visible := truthy (dict_get d "is_visible" (VBool true)) in
      exists (d1 d2 : document) (s1 s2 : site),
        toggle_activity_visibility activity_id s = (Ok (Some (without_id d1)), s1)
        /\ toggle_activity_visibility activity_id s1 = (Ok (Some (without_id d2)), s2)
        /\ Collection.find_one [("id", VStr activity_id)]
             (collection activities_collection s1) = Some d1
        /\ Collection.find_one [("id", VStr activity_id)]
             (collection activities_collection s2) = Some d2
        /\ d1 !! "is_visible" = Some (VBool (negb visible))
        /\ d2 !! "is_visible" = Some (VBool visible)
        /\ forall k : string,
             k <> "is_visible" -> k <> "updated_at" ->
             d1 !! k = d !! k /\ d2 !! k = d !! k
  end.
Proof.
  intros Hdb.
  assert (forall (s0 : site) (d0 : document),
            db_online (core s0) = true ->
            Collection.find_one [("id", VStr activity_id)]
              (collection activities_collection s0) = Some d0 ->
            let d' : document :=
              {[ "is_visible" :=
                   VBool (negb (truthy (dict_get d0 "is_visible" (VBool true))));
                 "updated_at" := VDate (millis (utc_clock (core s0))) ]} ∪ d0 in
            let s' :=
              set_collection activities_collection
                (Collection.update_one [("id", VStr activity_id)]
                   {[ "is_visible" :=
                        VBool (negb (truthy (dict_get d0 "is_visible" (VBool true))));
                      "updated_at" := VDate (utc_clock (core s0)) ]}
                   (collection activities_collection s0)).1 s0 in
            toggle_activity_visibility activity_id s0 = (Ok (Some (without_id d')), s')
            /\ Collection.find_one [("id", VStr activity_id)]
                 (collection activities_collection s') = Some d') as Hstep.
  { intros s0 d0 Hdb0 Hfind0 d' s'.
    assert (Collection.find_one [("id", VStr activity_id)]
              (collection activities_collection s') = Some d') as Hfind'.
    { subst s' d'. rewrite collection_set, <- bson_visibility_fields.
      apply find_one_update_one; [done|]. rewrite bson_visibility_fields.
      apply matches_single. rewrite lookup_union_r by done.
      apply (found_lookup _ _ _ _ Hfind0). }
    split; [|done].
    unfold toggle_activity_visibility.
    erewrite site_bind_ok; [|by apply reading_online].
    rewrite Hfind0.
    erewrite site_bind_ok;
      [|unfold unless_found_site; by rewrite (found_truthy _ _ _ _ Hfind0)].
    erewrite site_bind_ok; [|apply lift_utcnow].
    erewrite site_bind_ok; [|by apply writing_online].
    change (reading activities_collection
              (fun c => without_id <$> Collection.find_one [("id", VStr activity_id)] c) s'
            = (Ok (Some (without_id d')), s')).
    rewrite reading_online by done. by rewrite Hfind'. }
  destruct (Collection.find_one _ _) as [d|] eqn:Hfind.
  - intros visible.
    destruct (Hstep s d Hdb Hfind) as [Hrun1 Hfind1]. cbv zeta in Hrun1, Hfind1.
    match type of Hfind1 with
    | Collection.find_one _ (collection _ ?s1) = Some ?d1 =>
        destruct (Hstep s1 d1 Hdb Hfind1) as [Hrun2 Hfind2];
        cbv zeta in Hrun2, Hfind2;
        exists d1
    end.
    eexists _, _, _. split; [exact Hrun1|]. split; [exact Hrun2|].
    split; [exact Hfind1|]. split; [exact Hfind2|].
    split; [apply lookup_union_Some_raw; left; reflexivity|].
    split.
    + apply lookup_union_Some_raw. left.
      unfold dict_get at 1.
      assert (forall (a b : value) (m : document),
                (({[ "is_visible" := a; "updated_at" := b ]} : document) ∪ m)
                  !! "is_visible" = Some a) as ->
        by (intros; apply lookup_union_Some_raw; left; reflexivity).
      simpl. rewrite negb_involutive. reflexivity.
    + intros k Hk1 Hk2.
      assert (forall (a b : value) (m : document),
                (({[ "is_visible" := a; "updated_at" := b ]} : document) ∪ m) !! k
                = m !! k) as Hother.
      { intros a b m. rewrite lookup_union_r; [done|].
        rewrite lookup_insert_ne by done. by rewrite lookup_singleton_ne. }
      by rewrite !Hother.
  - unfold toggle_activity_visibility.
    erewrite site_bind_ok; [|by apply reading_online].
    by rewrite Hfind.
Qed.

(** ** The database handle *)

Section GetDatabaseProps.

Variable client_error : string -> option exn.
Variable name_error : string -> option exn.

Lemma get_database_ok_cached (environ : gmap string string) (m m' : models_module)
  (db : database) :
  get_database client_error name_error environ m = (Ok db, m') -> _db m' = Some db.
Proof.
  unfold get_database.
  destruct (_db m) as [db0|] eqn:Hdb; [by intros [= <- <-]|].
  destruct (environ !! "MONGO_URL") as [url|]; [|done].
  destruct (nonempty url); [|done].
  destruct (client_error url); [done|].
  destruct (name_error _); [done|].
  by intros [= <- <-].
Qed.

Lemma bind_collections_cached (environ : gmap string string) (names : list string)
  (m : models_module) (db : database) :
  _db m = Some db ->
  bind_collections client_error name_error environ names m
    = (Ok ((fun name => (db, name)) <$> names), m).
Proof.
  intros Hdb. induction names as [|name names IH]; [done|].
  cbn [bind_collections]. unfold LazyDB_getitem, get_database.
  rewrite Hdb. fold (get_database client_error name_error environ).
  by rewrite IH.
Qed.

Lemma bind_collections_connect (environ : gmap string string) (name : string)
  (names : list string) (m m' : models_module) (db : database) :
  get_database client_error name_error environ m = (Ok db, m') ->
  bind_collections client_error name_error environ (name :: names) m
    = (Ok ((fun name => (db, name)) <$> name :: names), m').
Proof.
  intros Hget. cbn [bind_collections]. unfold LazyDB_getitem. rewrite Hget.
  by rewrite (bind_collections_cached environ names m' db
                (get_database_ok_cached _ _ _ _ Hget)).
Qed.

(** X25: the database handle is made once.  After a call of [get_database]
    that returned a database, every later call returns that same database
    and changes nothing, whatever the environment holds by then; and every
    collection taken through [db[name]] belongs to it. *)
Theorem get_database_caches (environ environ' : gmap string string)
  (m m' : models_module) (db : database) :
  get_database client_error name_error environ m = (Ok db, m') ->
  get_database client_error name_error environ' m' = (Ok db, m')
  /\ forall names : list string,
       bind_collections client_error name_error environ' names m'
         = (Ok ((fun name => (db, name)) <$> names), m').
Proof.
  intros Hget. apply get_database_ok_cached in Hget.
  split; [|intros names; by apply bind_collections_cached].
  unfold get_database. by rewrite Hget.
Qed.

(** X26: the collections are bound when [models.py] is imported, not when
    they are first used.  With no database made yet: when MONGO_URL is unset
    or empty, binding the collections raises "MONGO_URL environment variable
    is required" at the first of them and leaves the module without
    database; when the URL and the database name are accepted, all nine
    collections are bound to one database, named by DB_NAME or
    "pan_database", and one connection is logged. *)
Theorem models_import_connects (environ : gmap string string) (m : models_module) :
  _db m = None ->
  (default "" (environ !! "MONGO_URL") = "" ->
   (bind_collections client_error name_error environ collection_names m).1
     = Raise (OtherException "MONGO_URL environment variable is required")
   /\ _db (bind_collections client_error name_error environ collection_names m).2 = None
   /\ _client (bind_collections client_error name_error environ collection_names m).2
      = _client m)
  /\ (forall url : string,
        environ !! "MONGO_URL" = Some url ->
        url <> "" ->
        client_error url = None ->
        name_error (default "pan_database" (environ !! "DB_NAME")) = None ->
        let db := {| db_url := url;
                     db_name := default "pan_database" (environ !! "DB_NAME") |} in
        bind_collections client_error name_error environ collection_names m
          = (Ok ((fun name => (db, name)) <$> collection_names),
             {| _client := Some url; _db := Some db;
                module_logs :=
                  (module_logs m ++
                   [ {| log_lvl := INFO;
                        log_msg := "Connecting to MongoDB database: "
                                   ++ default "pan_database" (environ !! "DB_NAME");
                        log_exc := None |} ])%list |})).
Proof.
  intros Hdb. split.
  - intros Hurl. unfold collection_names. cbn [bind_collections].
    unfold LazyDB_getitem, get_database. rewrite Hdb.
    destruct (environ !! "MONGO_URL") as [url|]; simpl in *; [|done].
    subst url. done.
  - intros url Hurl Hne Hclient Hname db.
    assert (get_database client_error name_error environ m
            = (Ok db, {| _client := Some url; _db := Some db;
                         module_logs :=
                           (module_logs m ++
                            [ {| log_lvl := INFO;
                                 log_msg := "Connecting to MongoDB database: "
                                            ++ default "pan_database" (environ !! "DB_NAME");
                                 log_exc := None |} ])%list |})) as Hget.
    { unfold get_database. rewrite Hdb, Hurl.
      assert (nonempty url = true) as ->.
      { unfold nonempty. by destruct (String.eqb_spec url ""). }
      by rewrite Hclient, Hname. }
    unfold collection_names. by apply bind_collections_connect.
Qed.

End GetDatabaseProps.

(** ** Site settings *)

Lemma lookup_fields_map (g : string -> value) (l : list string) (k : string) :
  (list_to_map ((fun k => (k, g k)) <$> l) : document) !! k
    = if bool_decide (k ∈ l) then Some (g k) else None.
Proof.
  induction l as [|x l IH]; csimpl; [by rewrite lookup_empty|].
  destruct (decide (k = x)) as [->|Hne].
  - rewrite lookup_insert_eq. rewrite bool_decide_eq_true_2; [done|left].
  - rewrite lookup_insert_ne by done. rewrite IH.
    destruct (decide (k ∈ l)) as [Hin|Hnot].
    + rewrite !bool_decide_eq_true_2; [done|by right|done].
    + rewrite !bool_decide_eq_false_2; [done| |done].
      intros [?|?]%elem_of_cons; done.
Qed.

Lemma drop_none_lookup (u : string -> option string) (l : list string) (k : string) :
  drop_none (list_to_map ((fun k => (k, opt_str (u k))) <$> l)) !! k
    = if bool_decide (k ∈ l) then VStr <$> u k else None.
Proof.
  unfold drop_none.
  destruct (bool_decide (k ∈ l)) eqn:Hk.
  - destruct (u k) as [v|] eqn:Hv.
    + apply map_lookup_filter_Some. split; [|done].
      by rewrite lookup_fields_map, Hk, Hv.
    + apply map_lookup_filter_None. right. intros v.
      rewrite lookup_fields_map, Hk, Hv. intros [= <-]. by intros ?.
  - apply map_lookup_filter_None. left. by rewrite lookup_fields_map, Hk.
Qed.

(** What the update of a settings request sets. *)
Lemma settings_update_dict (settings : SiteSettingsUpdate.t) (now : Z) (k : string) :
  (<["id" := VStr "site_settings"]>
     (<["updated_at" := VDate now]> (drop_none (SiteSettingsUpdate.dict settings)))
   : document) !! k
  = if decide (k = "id") then Some (VStr "site_settings")
    else if decide (k = "updated_at") then Some (VDate now)
    else if bool_decide (k ∈ SiteSettingsUpdate.fields) then VStr <$> settings k
    else None.
Proof.
  destruct (decide (k = "id")) as [->|Hid]; [by rewrite lookup_insert_eq|].
  rewrite lookup_insert_ne by done.
  destruct (decide (k = "updated_at")) as [->|Hup]; [by rewrite lookup_insert_eq|].
  rewrite lookup_insert_ne by done.
  unfold SiteSettingsUpdate.dict. apply drop_none_lookup.
Qed.

Lemma settings_fields_proper :
  ("id" ∉ SiteSettingsUpdate.fields) /\ ("updated_at" ∉ SiteSettingsUpdate.fields).
Proof. split; apply (bool_decide_eq_false_1 _); reflexivity. Qed.

Lemma update_site_settings_spec (settings : SiteSettingsUpdate.t) (s : site) :
  db_online (core s) = true ->
  let c := collection settings_collection s in
  let old := Collection.find_one [("id", VStr "site_settings")] c in
  exists (d' : document) (s' : site),
    update_site_settings settings s = (Ok (Some (without_id d')), s')
    /\ core s' = core s
    /\ Collection.find_one [("id", VStr "site_settings")] (collection settings_collection s')
       = Some d'
    /\ d' !! "id" = Some (VStr "site_settings")
    /\ d' !! "updated_at" = Some (VDate (millis (utc_clock (core s))))
    /\ (forall k : string,
          k ∈ SiteSettingsUpdate.fields ->
          d' !! k = match settings k with
                    | Some v => Some (VStr v)
                    | None => old ≫= (fun d : document => d !! k)
                    end)
    /\ length (collection settings_collection s')
       = match old with
         | Some _ => length c
         | None => Datatypes.S (length c)
         end.
Proof.
  intros Hdb c old.
  set (raw := (<["id" := VStr "site_settings"]>
                 (<["updated_at" := VDate (utc_clock (core s))]>
                    (drop_none (SiteSettingsUpdate.dict settings))) : document)).
  set (fields := bson raw).
  assert (forall k : string,
            fields !! k
            = if decide (k = "id") then Some (VStr "site_settings")
              else if decide (k = "updated_at")
                   then Some (VDate (millis (utc_clock (core s))))
              else if bool_decide (k ∈ SiteSettingsUpdate.fields) then VStr <$> settings k
              else None) as Hfields.
  { intros k. unfold fields, raw. rewrite bson_lookup, settings_update_dict.
    destruct (decide (k = "id")); [done|].
    destruct (decide (k = "updated_at")); [done|].
    destruct (bool_decide (k ∈ SiteSettingsUpdate.fields)); [|done].
    by destruct (settings k). }
  set (rest := match old with
               | Some d => d
               | None => (list_to_map [("id", VStr "site_settings")] : document)
               end).
  set (c' := upsert_one [("id", VStr "site_settings")] raw c).
  assert (Collection.find_one [("id", VStr "site_settings")] c' = Some (fields ∪ rest)
          /\ length c' = match old with
                         | Some _ => length c
                         | None => Datatypes.S (length c)
                         end) as [Hfind' Hlen].
  { subst c' rest. unfold upsert_one. fold old.
    assert (forall m : document,
              matches [("id", VStr "site_settings")] (fields ∪ m) = true) as Hm.
    { intros m. apply matches_single, lookup_union_Some_raw. left.
      by rewrite Hfields. }
    destruct old as [d|] eqn:Hold.
    - split; [|apply update_one_length].
      apply find_one_update_one; [done|apply Hm].
    - split; [|unfold Collection.insert_one; rewrite length_app; simpl; lia].
      assert (bson (raw ∪ list_to_map [("id", VStr "site_settings")])
              = fields ∪ list_to_map [("id", VStr "site_settings")]) as Hkept
        by (unfold bson; by rewrite map_fmap_union).
      rewrite find_one_insert_one by done. by rewrite Hkept, Hm. }
  exists (fields ∪ rest), (set_collection settings_collection c' s).
  split.
  { unfold update_site_settings.
    erewrite site_bind_ok; [|apply lift_utcnow].
    erewrite site_bind_ok; [|by apply writing_online].
    change (reading settings_collection
              (fun c0 => without_id <$> Collection.find_one [("id", VStr "site_settings")] c0)
              (set_collection settings_collection c' s)
            = (Ok (Some (without_id (fields ∪ rest))),
               set_collection settings_collection c' s)).
    rewrite reading_online by done. by rewrite collection_set, Hfind'. }
  split; [done|]. rewrite collection_set. split; [done|].
  split; [apply lookup_union_Some_raw; left; by rewrite Hfields|].
  split; [apply lookup_union_Some_raw; left; by rewrite Hfields|].
  split; [|done].
  intros k Hk.
  assert (k <> "id") as Hid by (intros ->; exact (proj1 settings_fields_proper Hk)).
  assert (k <> "updated_at") as Hup
    by (intros ->; exact (proj2 settings_fields_proper Hk)).
  pose proof (Hfields k) as Hfk.
  destruct (decide (k = "id")) as [?|_]; [contradiction|].
  destruct (decide (k = "updated_at")) as [?|_]; [contradiction|].
  rewrite (bool_decide_eq_true_2 _ Hk) in Hfk.
  destruct (settings k) as [v|]; simpl in Hfk.
  - apply lookup_union_Some_raw. by left.
  - rewrite lookup_union_r by done. subst rest.
    destruct old as [d|]; simpl; [done|].
    by rewrite lookup_insert_ne, lookup_empty.
Qed.

(** X27: saving settings sets what the request holds and keeps the rest.
    [update_site_settings] leaves one document with id "site_settings",
    which it returns: a field the request holds a value for has that value,
    a field the request leaves at None keeps what was stored for it (so no
    field can be emptied this way), and the first save adds the document
    while a later one changes it in place. *)
Theorem update_site_settings_merges (settings : SiteSettingsUpdate.t) (s : site) :
  db_online (core s) = true ->
  let c := collection settings_collection s in
  let old := Collection.find_one [("id", VStr "site_settings")] c in
  exists (d' : document) (s' : site),
    update_site_settings settings s = (Ok (Some (without_id d')), s')
    /\ core s' = core s
    /\ Collection.find_one [("id", VStr "site_settings")] (collection settings_collection s')
       = Some d'
    /\ d' !! "id" = Some (VStr "site_settings")
    /\ d' !! "updated_at" = Some (VDate (millis (utc_clock (core s))))
    /\ (forall k : string,
          k ∈ SiteSettingsUpdate.fields ->
          d' !! k = match settings k with
                    | Some v => Some (VStr v)
                    | None => old ≫= (fun d : document => d !! k)
                    end)
    /\ length (collection settings_collection s')
       = match old with
         | Some _ => length c
         | None => Datatypes.S (length c)
         end.
Proof. apply update_site_settings_spec. Qed.

(** X28: the default settings are answered only while nothing was saved.
    With no settings document stored, [get_site_settings] answers the
    defaults, among them the two default images; once a settings document is
    stored it answers that document, so after a first save that names no
    hero image the answer holds no hero image at all. *)
Theorem get_site_settings_defaults (s : site) :
  db_online (core s) = true ->
  match Collection.find_one [("id", VStr "site_settings")]
          (collection settings_collection s) with
  | Some d => get_site_settings s = (Ok (without_id d), s)
  | None =>
      get_site_settings s = (Ok default_settings, s)
      /\ default_settings !! "hero_image"
         = Some (VStr "https://images.unsplash.com/photo-1768333377265-cb6c3ca2885a")
      /\ default_settings !! "welcome_image"
         = Some (VStr "https://images.unsplash.com/photo-1763733593826-d51c270cc8b4")
      /\ forall settings : SiteSettingsUpdate.t,
           settings "hero_image" = None ->
           exists d : document,
             get_site_settings (update_site_settings settings s).2
               = (Ok d, (update_site_settings settings s).2)
             /\ d !! "hero_image" = None
             /\ d !! "id" = Some (VStr "site_settings")
  end.
Proof.
  intros Hdb.
  assert (forall (s0 : site) (d : document),
            db_online (core s0) = true ->
            Collection.find_one [("id", VStr "site_settings")]
              (collection settings_collection s0) = Some d ->
            get_site_settings s0 = (Ok (without_id d), s0)) as Hstored.
  { intros s0 d Hdb0 Hfind. unfold get_site_settings.
    erewrite site_bind_ok; [|by apply reading_online].
    rewrite Hfind.
    change (without_id <$> Some d) with (Some (without_id d)).
    assert (without_id d !! "id" = Some (VStr "site_settings")) as Hid.
    { unfold without_id. rewrite lookup_delete_ne by done.
      apply (found_lookup _ _ _ _ Hfind). }
    cbv beta. by rewrite (lookup_truthy _ _ _ Hid). }
  destruct (Collection.find_one _ _) as [d|] eqn:Hfind; [by apply Hstored|].
  split.
  { unfold get_site_settings.
    erewrite site_bind_ok; [|by apply reading_online].
    by rewrite Hfind. }
  split; [reflexivity|]. split; [reflexivity|].
  intros settings Hhero.
  destruct (update_site_settings_spec settings s Hdb)
    as (d' & s' & Hrun & Hcore & Hfind' & Hid & _ & Hfields & _).
  cbv zeta in Hfields. rewrite Hfind in Hfields.
  rewrite Hrun. cbn [snd].
  exists (without_id d'). split; [apply Hstored; [by rewrite Hcore|done]|].
  unfold without_id. rewrite !lookup_delete_ne by done.
  split; [|done].
  rewrite Hfields, Hhero; [done|].
  apply (bool_decide_eq_true_1 _). reflexivity.
Qed.

Lemma Booking_new_outcome (d : document) (w : world) :
  exists n : nat,
    (Booking.new d w).2 = set_drawn n w
    /\ forall e : exn, (Booking.new d w).1 = Raise e -> exists k, e = ValidationError k.
Proof.
  unfold Booking.new, field_str_default, field_str, field_int, field_opt_str,
    field_date_default, uuid4, urandom, utcnow.
  destruct w as [au bk on clk ent dr sm tr lg].
  destruct (d !! "id") as [[]|];
    try (exists dr; split; [reflexivity|]; intros e [= <-]; eauto);
    (destruct (d !! "name") as [[]|];
     try (eexists; split; [reflexivity|]; intros e [= <-]; eauto));
    (destruct (d !! "email") as [[]|];
     try (eexists; split; [reflexivity|]; intros e [= <-]; eauto));
    (destruct (d !! "phone") as [[]|];
     try (eexists; split; [reflexivity|]; intros e [= <-]; eauto));
    (destruct (d !! "event_type") as [[]|];
     try (eexists; split; [reflexivity|]; intros e [= <-]; eauto));
    (destruct (d !! "date") as [[]|];
     try (eexists; split; [reflexivity|]; intros e [= <-]; eauto));
    (destruct (d !! "guests") as [[]|];
     try (eexists; split; [reflexivity|]; intros e [= <-]; eauto));
    (destruct (d !! "message") as [[]|];
     try (eexists; split; [reflexivity|]; intros e [= <-]; eauto));
    (destruct (d !! "status") as [[]|];
     try (eexists; split; [reflexivity|]; intros e [= <-]; eauto));
    (destruct (d !! "created_at") as [[]|];
     try (eexists; split; [reflexivity|]; intros e [= <-]; eauto));
    eexists; (split; [reflexivity|]); intros e; discriminate.
Qed.

Lemma Booking_new_nameless (d : document) (w : world) :
  d !! "name" = None ->
  exists k, (Booking.new d w).1 = Raise (ValidationError k).
Proof.
  intros Hname.
  unfold Booking.new, field_str_default, field_str, uuid4, urandom.
  rewrite Hname.
  destruct (d !! "id") as [[]|]; eexists; reflexivity.
Qed.

Lemma mapM_Booking_raises (d : document) (l : list document) (w : world) :
  d ∈ l -> d !! "name" = None ->
  exists (k : string) (n : nat),
    mapM Booking.new l w = (Raise (ValidationError k), set_drawn n w).
Proof.
  intros Hin Hname. revert w.
  induction l as [|x l IH]; intros w; [by apply elem_of_nil in Hin|].
  cbn [mapM].
  destruct (Booking_new_outcome x w) as (n & Hw & Hexn).
  destruct (Booking.new x w) as [[b|e] w1] eqn:Hx; cbn [fst snd] in *; subst w1.
  - apply elem_of_cons in Hin as [->|Hin].
    + destruct (Booking_new_nameless x w Hname) as [k Hk].
      rewrite Hx in Hk. discriminate.
    + destruct (IH Hin (set_drawn n w)) as (k & m & Hrest).
      exists k, m. erewrite bind_ok; [|exact Hx].
      erewrite bind_raise; [|exact Hrest]. by destruct w.
  - destruct (Hexn e eq_refl) as [k ->].
    exists k, n. erewrite bind_raise; [|exact Hx]. reflexivity.
Qed.

(** X29: one stored enquiry without a name makes the whole listing fail.
    [get_bookings] builds a [Booking] from every document found and has no
    handler around it: when the collection holds at most 1000 documents and
    one of them lacks the required field [name], the call raises a validation
    error and returns no enquiry at all; the store is left as it was, only
    random identifiers may have been drawn. *)
Theorem get_bookings_malformed (d : document) (w : world) :
  db_online w = true ->
  d ∈ bookings_collection w ->
  (length (bookings_collection w) <= 1000)%nat ->
  d !! "name" = None ->
  exists (k : string) (n : nat),
    get_bookings w = (Raise (ValidationError k), set_drawn n w).
Proof.
  intros Hdb Hin Hlen Hname.
  unfold get_bookings.
  assert (d ∈ find_sorted "created_at" Descending 1000 (bookings_collection w)) as Hin'.
  { unfold find_sorted. rewrite take_ge.
    - by rewrite sort_by_Permutation.
    - by rewrite sort_by_Permutation. }
  destruct (mapM_Booking_raises d _ w Hin' Hname) as (k & n & Hrun).
  exists k, n.
  erewrite bind_ok; [|by apply storage_online]. exact Hrun.
Qed.

(** ** The further properties at work on sample data *)

Lemma me_echoes_account_witness :
  exists body : document,
    (get_current_user_info {[ "username" := VStr "alice" ]} Demo.registered).1 = Ok body
    /\ body !! "hashed_password" = None
    /\ body !! "_id" = None
    /\ forall k : string,
         k <> "hashed_password" -> k <> "_id" -> body !! k = Samples.alice_account !! k.
Proof.
  exact (me_echoes_account {[ "username" := VStr "alice" ]} Demo.registered (VStr "alice")
           eq_refl eq_refl).
Defined.

Lemma inactive_account_login_witness :
  (@login Demo.auth
     {| AdminUserLogin.username := "carol"; AdminUserLogin.password := "letmein1" |}
     Samples.suspended).1 = Raise (HTTPException 400 "Inactive user" []).
Proof.
  exact (@inactive_account_login Demo.auth
           {| AdminUserLogin.username := "carol"; AdminUserLogin.password := "letmein1" |}
           Samples.suspended Samples.suspended_account
           (VStr (Hasher.hash Demo.digest "saltsaltsaltsaltsalt08" "letmein1"))
           (VBool false) eq_refl eq_refl eq_refl eq_refl eq_refl).
Defined.

Lemma register_then_login_witness :
  exists (admin_obj : AdminUser.t) (w1 : world),
    @register_admin Demo.auth Demo.alice Demo.w0 = (Ok admin_obj, w1)
    /\ @login Demo.auth
         {| AdminUserLogin.username := "alice"; AdminUserLogin.password := "s3cret!" |} w1
       = (Ok {| Token.access_token :=
                  @issue_token Demo.auth
                    {[ "sub" := VStr "alice"; "user_id" := VStr (AdminUser.id admin_obj) ]}
                    (timedelta_minutes 1440) (utc_clock w1);
                Token.token_type := "bearer" |}, w1).
Proof.
  exact (@register_then_login Demo.auth Demo.alice Demo.w0 eq_refl eq_refl eq_refl eq_refl).
Defined.

Lemma register_keeps_unique_witness :
  unique_field "username"
    (admin_users_collection
       (one_after_another (@register_admin Demo.auth)
          [Samples.alice_again; Samples.bob; Samples.bob] Demo.registered))
  /\ unique_field "email"
       (admin_users_collection
          (one_after_another (@register_admin Demo.auth)
             [Samples.alice_again; Samples.bob; Samples.bob] Demo.registered)).
Proof.
  apply (@register_keeps_unique Demo.auth
           [Samples.alice_again; Samples.bob; Samples.bob] Demo.registered).
  - exact (NoDup_singleton (VStr "alice")).
  - exact (NoDup_singleton (VStr "alice@example.org")).
Defined.

Lemma register_overlap_duplicates_witness :
  exists (a b : AdminUser.t) (w' : world),
    @register_admin_overlapping Demo.auth Demo.alice Samples.alice_again Demo.w0
      = (Ok (a, b), w')
    /\ AdminUser.username a = "alice"
    /\ AdminUser.username b = "alice"
    /\ ~ unique_field "username" (admin_users_collection w').
Proof.
  destruct (proj2 (@register_overlap_duplicates Demo.auth Demo.alice Samples.alice_again
                     Demo.w0 eq_refl eq_refl eq_refl eq_refl eq_refl))
    as (a & b & w' & Hrun & _ & Ha & Hb & Hdup).
  exists a, b, w'. repeat split; assumption.
Defined.

Lemma change_password_then_login_witness :
  @login Demo.auth
    {| AdminUserLogin.username := "alice"; AdminUserLogin.password := "zażółć" |}
    Samples.rekeyed
  = (Ok {| Token.access_token :=
             @issue_token Demo.auth
               {[ "sub" := VStr "alice"; "user_id" := VStr "saltsaltsaltsaltsalt01" ]}
               (timedelta_minutes 1440) 43200000250;
           Token.token_type := "bearer" |}, Samples.rekeyed).
Proof.
  refine (@change_password_then_login Demo.auth Samples.new_password "alice" "zażółć"
            Demo.registered Samples.alice_account
            (VStr "saltsaltsaltsaltsalt00#s3cret!#saltsaltsaltsaltsalt00")
            (VStr "saltsaltsaltsaltsalt01") _ _ _ _ _ _ _ _);
    first [reflexivity | simpl; lia | discriminate].
Defined.

Lemma update_booking_status_keeps_valid_witness :
  Forall status_valid
    (bookings_collection (update_booking_status Demo.booking_id "approved" Demo.booked).2).
Proof.
  apply (update_booking_status_keeps_valid Demo.booking_id "approved" Demo.booked).
  repeat constructor. exists "pending". split; [reflexivity|left].
Defined.

Lemma send_email_closes_session_witness :
  last (smtp_added Demo.w0
          (send_email Demo.cfg Demo.as_string "office@example.org" Samples.broken_subject
             "<p>Hello</p>" None Demo.w0).2)
  = Some EvQuit.
Proof.
  exact (proj2 (send_email_closes_session Demo.cfg Demo.as_string "office@example.org"
                  Samples.broken_subject "<p>Hello</p>" None Demo.w0 eq_refl)).
Defined.

Lemma send_email_sends_after_login_witness :
  exists msg : mime_message,
    EvSendmail "noreply@example.org" "office@example.org" msg
      ∈ smtp_added Demo.w0
          (send_email Demo.cfg Demo.as_string "office@example.org" "Hello" "<p>Hello</p>"
             None Demo.w0).2
    /\ msg_to msg = "office@example.org".
Proof.
  eexists. split.
  - do 3 apply list_elem_of_further. apply list_elem_of_here.
  - eapply (send_email_sends_after_login Demo.cfg Demo.as_string "office@example.org"
              "Hello" "<p>Hello</p>" None Demo.w0).
    do 3 apply list_elem_of_further. apply list_elem_of_here.
Defined.

Lemma send_email_without_starttls_witness :
  (send_email Demo.cfg Demo.as_string "office@example.org" "Hello" "<p>Hello</p>" None
     (Samples.mailing Samples.plain_server)).1 = Ok true
  /\ (send_email Demo.cfg Demo.as_string "office@example.org" Samples.broken_subject
        "<p>Hello</p>" None (Samples.mailing Samples.plain_server)).1 = Ok false.
Proof.
  split.
  - exact (proj1 (send_email_without_starttls Demo.cfg Demo.as_string
                    "office@example.org" "Hello" "<p>Hello</p>" None
                    (Samples.mailing Samples.plain_server)
                    (SMTPException "STARTTLS not supported") eq_refl eq_refl eq_refl)).
  - exact (proj1 (send_email_without_starttls Demo.cfg Demo.as_string
                    "office@example.org" Samples.broken_subject "<p>Hello</p>" None
                    (Samples.mailing Samples.plain_server)
                    (SMTPException "STARTTLS not supported") eq_refl eq_refl eq_refl)).
Defined.

Lemma send_email_false_after_sending_witness :
  (send_email Demo.cfg Demo.as_string "office@example.org" "Hello" "<p>Hello</p>" None
     (Samples.mailing Samples.rude_server)).1 = Ok false.
Proof.
  exact (proj1 (send_email_false_after_sending Demo.cfg Demo.as_string
                  "office@example.org" "Hello" "<p>Hello</p>" None
                  (Samples.mailing Samples.rude_server)
                  (SMTPException "421") eq_refl eq_refl eq_refl)).
Defined.

Lemma booking_round_trip_witness :
  exists b : Booking.t,
    Samples.submitted.1 = Ok b
    /\ Booking.created_at b = 43200000250
    /\ get_booking (Booking.id b) Samples.submitted.2
       = (Ok (stored_Booking b), Samples.submitted.2)
    /\ Booking.created_at (stored_Booking b) = 43200000000.
Proof.
  destruct Samples.submitted as [[b|e] w1] eqn:Hrun.
  - exists b.
    destruct (booking_round_trip Demo.cfg Demo.template Demo.template Demo.strftime
                Demo.str Demo.as_string Demo.enquiry Demo.w0 w1 b Hrun eq_refl)
      as (_ & Hcreated & _ & Hget & _).
    split; [reflexivity|]. split; [exact Hcreated|]. split; [exact Hget|].
    exact (f_equal millis Hcreated).
  - exfalso.
    assert (match Samples.submitted.1 with Ok _ => true | Raise _ => false end = true)
      as Hok by reflexivity.
    rewrite Hrun in Hok. discriminate Hok.
Defined.

Lemma get_bookings_newest_first_witness :
  exists sorted : list Booking.t,
    sorted ≡ₚ [Samples.early; Samples.late]
    /\ Sorted (fun a b => Booking.created_at b <= Booking.created_at a) sorted
    /\ get_bookings Samples.two_enquiries = (Ok (take 1000 sorted), Samples.two_enquiries).
Proof.
  exact (get_bookings_newest_first [Samples.early; Samples.late] Samples.two_enquiries
           eq_refl eq_refl).
Defined.

Lemma get_bookings_malformed_witness :
  exists (k : string) (n : nat),
    get_bookings Samples.damaged = (Raise (ValidationError k), set_drawn n Samples.damaged).
Proof.
  refine (get_bookings_malformed Samples.nameless Samples.damaged eq_refl _ _ eq_refl).
  - apply list_elem_of_further, list_elem_of_here.
  - simpl. lia.
Defined.



Lemma delete_document_removes_one_witness :
  (delete_document "doc-1" Samples.library).1 = Ok tt.
Proof.
  exact (proj1 (delete_document_removes_one "doc-1" Samples.library eq_refl)).
Defined.


Lemma toggle_activity_visibility_twice_witness :
  exists (d1 d2 : document) (s1 s2 : site),
    toggle_activity_visibility "act-1" Samples.library = (Ok (Some (without_id d1)), s1)
    /\ toggle_activity_visibility "act-1" s1 = (Ok (Some (without_id d2)), s2)
    /\ d1 !! "is_visible" = Some (VBool true)
    /\ d2 !! "is_visible" = Some (VBool false).
Proof.
  destruct (toggle_activity_visibility_twice "act-1" Samples.library eq_refl)
    as (d1 & d2 & s1 & s2 & Hone & Htwo & _ & _ & Hv1 & Hv2 & _).
  exists d1, d2, s1, s2. repeat split; assumption.
Defined.

Lemma get_database_caches_witness :
  get_database Samples.willing Samples.willing ∅ Samples.connected
  = (Ok Samples.pan_database, Samples.connected).
Proof.
  exact (proj1 (get_database_caches Samples.willing Samples.willing Samples.environ ∅
                  Samples.unloaded Samples.connected Samples.pan_database eq_refl)).
Defined.

Lemma models_import_connects_witness :
  bind_collections Samples.willing Samples.willing Samples.environ collection_names
    Samples.unloaded
  = (Ok ((fun name => (Samples.pan_database, name)) <$> collection_names),
     Samples.connected).
Proof.
  refine (proj2 (models_import_connects Samples.willing Samples.willing Samples.environ
                   Samples.unloaded eq_refl)
            "mongodb://localhost:27017" eq_refl _ eq_refl eq_refl).
  discriminate.
Defined.

Lemma update_site_settings_merges_witness :
  exists (d' : document) (s' : site),
    update_site_settings Samples.retitled Samples.library = (Ok (Some (without_id d')), s')
    /\ d' !! "hero_title_en" = Some (VStr "Welcome")
    /\ d' !! "hero_image" = None
    /\ length (collection settings_collection s') = 1%nat.
Proof.
  destruct (update_site_settings_merges Samples.retitled Samples.library eq_refl)
    as (d' & s' & Hrun & _ & _ & _ & _ & Hfields & Hlen).
  exists d', s'. split; [exact Hrun|].
  split; [|split; [|exact Hlen]].
  - apply (Hfields "hero_title_en"). apply (bool_decide_unpack _). reflexivity.
  - apply (Hfields "hero_image"). apply (bool_decide_unpack _). reflexivity.
Defined.

Lemma get_site_settings_defaults_witness :
  get_site_settings Samples.library = (Ok default_settings, Samples.library).
Proof.
  exact (proj1 (get_site_settings_defaults Samples.library eq_refl)).
Defined.
